(** * online-python: the command line client of main.py

    A shallow embedding of [OnlinePythonClient] (src/main.py) and of the
    parts of the Python runtime its methods rely on ([str], [bytes],
    [bytes.decode], [json.dumps], [json.loads]), followed by the properties
    of the session state machine.

    Conventions.
    - A Python [str] is the list of its code points, a [bytes] object the
      list of its bytes.
    - The methods mutate [self] and perform I/O; here they are computations
      in a state-and-error monad over a [world]: the fields of [self] and
      the chronological trace of effects (log records, websocket sends,
      prints to stdout and stderr).  A call returns, raises, ends the
      process through [os._exit], or reaches a library call this
      development does not define ([int] of a float or of a string).
    - [self.websocket] and [self.reader] are handles owned by [connect];
      every method modelled here runs inside the loop of [connect], where
      both are set, and sending on the websocket always succeeds.
    - The status of a process that ends through [os._exit] is the one its
      parent receives on a POSIX system: the low eight bits of the argument.
    - Assertions are executed (the interpreter runs without [-O]).  Limits
      of the interpreter other than the length of integer literals
      (recursion depth, memory) are not modelled, nor is the scheduling of
      the two listener tasks by [asyncio]. *)

From Stdlib Require Import List String Ascii NArith ZArith Bool Lia.
From Stdlib Require Strings.Byte.
Import ListNotations.
Open Scope string_scope.
Open Scope list_scope.

(** ** Python strings and bytes *)

Module Py.

Definition str := list N.
Definition bytes := list Byte.byte.

Definition ord (a : ascii) : N := N_of_ascii a.

(** The [str] of an ASCII literal. *)
Fixpoint lit (s : string) : str :=
  match s with
  | EmptyString => []
  | String a r => ord a :: lit r
  end.

Abbreviation dquote := 34%N (only parsing).
Abbreviation backslash := 92%N (only parsing).
Abbreviation newline := 10%N (only parsing).

(** The [str] of a literal in which every apostrophe stands for a double
    quote, to write JSON texts. *)
Definition wire (s : string) : str :=
  map (fun c => if (c =? 39)%N then dquote else c) (lit s).

(** The [bytes] of an ASCII literal. *)
Definition blit (s : string) : bytes := list_byte_of_string s.

Fixpoint str_eqb (a b : str) : bool :=
  match a, b with
  | [], [] => true
  | x :: a', y :: b' => (x =? y)%N && str_eqb a' b'
  | _, _ => false
  end.

(** [s.startswith(p)] *)
Fixpoint startswith (p s : str) : bool :=
  match p, s with
  | [], _ => true
  | x :: p', y :: s' => (x =? y)%N && startswith p' s'
  | _ :: _, [] => false
  end.

(** [p in s] for two strings: [p] occurs as a substring of [s]. *)
Fixpoint contains (p s : str) : bool :=
  startswith p s || match s with [] => false | _ :: s' => contains p s' end.

(** [sep.join(l)] *)
Fixpoint join (sep : str) (l : list str) : str :=
  match l with
  | [] => []
  | [x] => x
  | x :: l' => x ++ sep ++ join sep l'
  end.

(** [s.rstrip('\n')]: every trailing newline is removed. *)
Fixpoint rstrip_newline (s : str) : str :=
  match s with
  | [] => []
  | c :: r =>
      match rstrip_newline r with
      | [] => if (c =? newline)%N then [] else [c]
      | r' => c :: r'
      end
  end.

(** *** [bytes.decode()]: strict UTF-8 *)

Definition is_cont (b : N) : bool := ((128 <=? b) && (b <=? 191))%N.

Definition cbits (b : N) : N := (b - 128)%N.

Fixpoint utf8_decode_N (b : list N) : option str :=
  match b with
  | [] => Some []
  | b0 :: r =>
      if (b0 <? 128)%N then option_map (cons b0) (utf8_decode_N r)
      else if (b0 <? 194)%N then None
      else if (b0 <? 224)%N then
        match r with
        | b1 :: r1 =>
            if is_cont b1
            then option_map (cons ((b0 - 192) * 64 + cbits b1)%N) (utf8_decode_N r1)
            else None
        | _ => None
        end
      else if (b0 <? 240)%N then
        match r with
        | b1 :: b2 :: r2 =>
            if is_cont b1 && is_cont b2
               && negb ((b0 =? 224) && (b1 <? 160))%N
               && negb ((b0 =? 237) && (160 <=? b1))%N
            then option_map
                   (cons (((b0 - 224) * 64 + cbits b1) * 64 + cbits b2)%N)
                   (utf8_decode_N r2)
            else None
        | _ => None
        end
      else if (b0 <? 245)%N then
        match r with
        | b1 :: b2 :: b3 :: r3 =>
            if is_cont b1 && is_cont b2 && is_cont b3
               && negb ((b0 =? 240) && (b1 <? 144))%N
               && negb ((b0 =? 244) && (144 <=? b1))%N
            then option_map
                   (cons ((((b0 - 240) * 64 + cbits b1) * 64 + cbits b2) * 64
                          + cbits b3)%N)
                   (utf8_decode_N r3)
            else None
        | _ => None
        end
      else None
  end.

(** [b.decode()]; [None] stands for [UnicodeDecodeError]. *)
Definition decode (b : bytes) : option str :=
  utf8_decode_N (map Strings.Byte.to_N b).

(** *** Python objects as [json] produces and consumes them *)

(** A float is kept as the lexeme it was read from: its arithmetic is
    outside this model. *)
Unset Elimination Schemes.
Inductive pyval : Type :=
| VNone
| VBool (b : bool)
| VInt (z : Z)
| VFloat (lexeme : str)
| VStr (s : str)
| VList (l : list pyval)
| VDict (d : list (str * pyval)).
Set Elimination Schemes.

Inductive exn : Type :=
| AssertionError
| TypeError
| ValueError
| JSONDecodeError
| UnicodeDecodeError
| IndexError
| KeyError
| OverflowError
| RuntimeError.

(** The result of a library call that can raise; [NotModelled] marks a
    call whose Python semantics this development does not define (the
    arithmetic of floats, [int] of a [str]). *)
Inductive result (A : Type) : Type :=
| Ok (a : A)
| Err (e : exn)
| NotModelled.
Arguments Ok {A} a.
Arguments Err {A} e.
Arguments NotModelled {A}.

End Py.
Import Py.

(** ** The [json] module: [dumps] and [loads] with their default options *)

Module Json.

(** *** [json.dumps] (ensure_ascii=True, separators ", " and ": ") *)

Definition hexdigit (n : N) : N :=
  if (n <? 10)%N then (48 + n)%N else (87 + n)%N.

(** ['{0:04x}'.format(n)] for [n < 0x10000] *)
Definition hex4 (n : N) : str :=
  [hexdigit (n / 4096 mod 16); hexdigit (n / 256 mod 16);
   hexdigit (n / 16 mod 16); hexdigit (n mod 16)]%N.

Definition uescape (n : N) : str := backslash :: 117%N :: hex4 n.

(** The replacement of one character by [encode_basestring_ascii]. *)
Definition escape_char (c : N) : str :=
  if (c =? dquote)%N then [backslash; dquote]
  else if (c =? backslash)%N then [backslash; backslash]
  else if (c =? 10)%N then lit "\n"
  else if (c =? 13)%N then lit "\r"
  else if (c =? 9)%N then lit "\t"
  else if (c =? 8)%N then lit "\b"
  else if (c =? 12)%N then lit "\f"
  else if ((32 <=? c) && (c <=? 126))%N then [c]
  else if (c <? 65536)%N then uescape c
  else
    let n := (c - 65536)%N in
    uescape (N.lor 55296 (N.land (N.shiftr n 10) 1023))
    ++ uescape (N.lor 56320 (N.land n 1023)).

Definition escape_body (s : str) : str := flat_map escape_char s.

Definition dump_str (s : str) : str := dquote :: escape_body s ++ [dquote].

Fixpoint uint_digits (d : Decimal.uint) : str :=
  match d with
  | Decimal.Nil => []
  | Decimal.D0 d' => 48%N :: uint_digits d'
  | Decimal.D1 d' => 49%N :: uint_digits d'
  | Decimal.D2 d' => 50%N :: uint_digits d'
  | Decimal.D3 d' => 51%N :: uint_digits d'
  | Decimal.D4 d' => 52%N :: uint_digits d'
  | Decimal.D5 d' => 53%N :: uint_digits d'
  | Decimal.D6 d' => 54%N :: uint_digits d'
  | Decimal.D7 d' => 55%N :: uint_digits d'
  | Decimal.D8 d' => 56%N :: uint_digits d'
  | Decimal.D9 d' => 57%N :: uint_digits d'
  end.

Definition dump_int (z : Z) : str :=
  match z with
  | Z0 => lit "0"
  | Zpos p => uint_digits (Pos.to_uint p)
  | Zneg p => 45%N :: uint_digits (Pos.to_uint p)
  end.

(** The items of a list or dict, each serialised by [f], separated by a
    comma and a space. *)
Section Items.
Variable A : Type.
Variable f : A -> option str.

Fixpoint items_with (l : list A) : option str :=
  match l with
  | [] => Some []
  | [x] => f x
  | x :: l' =>
      match f x, items_with l' with
      | Some a, Some b => Some (a ++ lit ", " ++ b)
      | _, _ => None
      end
  end.

End Items.
Arguments items_with {A} f l.

(** [json.dumps(v)]; [None] when [v] holds a float. *)
Fixpoint dumps (v : pyval) : option str :=
  match v with
  | VNone => Some (lit "null")
  | VBool true => Some (lit "true")
  | VBool false => Some (lit "false")
  | VInt z => Some (dump_int z)
  | VFloat _ => None
  | VStr s => Some (dump_str s)
  | VList l =>
      option_map (fun b => lit "[" ++ b ++ lit "]") (items_with dumps l)
  | VDict d =>
      option_map (fun b => lit "{" ++ b ++ lit "}")
        (items_with
           (fun '(k, x) =>
              option_map (fun a => dump_str k ++ lit ": " ++ a) (dumps x))
           d)
  end.

(** *** [json.loads] (the scanner of the [json] module, strict mode) *)

(** The result of a scanning function: the value read and the text that
    follows it, a failure, or [Starved] when the recursion budget ran out
    ([loads] gives a budget no text can exhaust, see [loads_fuel]). *)
Inductive pres (A : Type) : Type :=
| Got (a : A) (rest : str)
| Bad (e : exn)
| Starved.
Arguments Got {A} a rest.
Arguments Bad {A} e.
Arguments Starved {A}.

Definition pmap {A B} (f : A -> B) (r : pres A) : pres B :=
  match r with
  | Got a rest => Got (f a) rest
  | Bad e => Bad e
  | Starved => Starved
  end.

Definition is_ws (c : N) : bool :=
  ((c =? 32) || (c =? 9) || (c =? 10) || (c =? 13))%N.

Fixpoint skip_ws (s : str) : str :=
  match s with
  | c :: r => if is_ws c then skip_ws r else s
  | [] => []
  end.

Definition is_digit (c : N) : bool := ((48 <=? c) && (c <=? 57))%N.

Definition hexval (c : N) : option N :=
  if is_digit c then Some (c - 48)%N
  else if ((97 <=? c) && (c <=? 102))%N then Some (c - 87)%N
  else if ((65 <=? c) && (c <=? 70))%N then Some (c - 55)%N
  else None.

Definition hex4val (a b c d : N) : option N :=
  match hexval a, hexval b, hexval c, hexval d with
  | Some x, Some y, Some z, Some w => Some (((x * 16 + y) * 16 + z) * 16 + w)%N
  | _, _, _, _ => None
  end.

Definition is_high (c : N) : bool := ((55296 <=? c) && (c <=? 56319))%N.
Definition is_low (c : N) : bool := ((56320 <=? c) && (c <=? 57343))%N.

(** Py_UNICODE_JOIN_SURROGATES *)
Definition join_surrogates (hi lo : N) : N :=
  (65536 + N.lor (N.shiftl (N.land hi 1023) 10) (N.land lo 1023))%N.

(** The character a one-letter escape stands for. *)
Definition unescape (e : N) : option N :=
  if (e =? dquote)%N then Some dquote
  else if (e =? backslash)%N then Some backslash
  else if (e =? 47)%N then Some 47%N
  else if (e =? 98)%N then Some 8%N
  else if (e =? 102)%N then Some 12%N
  else if (e =? 110)%N then Some 10%N
  else if (e =? 114)%N then Some 13%N
  else if (e =? 116)%N then Some 9%N
  else None.

(** [scanstring]: the text after an opening quote, up to the closing one. *)
Fixpoint scanstring (s : str) : pres str :=
  match s with
  | [] => Bad JSONDecodeError
  | c :: r =>
      if (c =? dquote)%N then Got [] r
      else if (c =? backslash)%N then
        match r with
        | [] => Bad JSONDecodeError
        | e :: r1 =>
            if (e =? 117)%N then
              match r1 with
              | h1 :: h2 :: h3 :: h4 :: r2 =>
                  match hex4val h1 h2 h3 h4 with
                  | None => Bad JSONDecodeError
                  | Some uni =>
                      if is_high uni then
                        match r2 with
                        | b :: u :: l1 :: l2 :: l3 :: l4 :: r3 =>
                            if ((b =? backslash) && (u =? 117))%N then
                              match hex4val l1 l2 l3 l4 with
                              | None => Bad JSONDecodeError
                              | Some uni2 =>
                                  if is_low uni2
                                  then pmap (cons (join_surrogates uni uni2))
                                            (scanstring r3)
                                  else pmap (cons uni) (scanstring r2)
                              end
                            else pmap (cons uni) (scanstring r2)
                        | _ => pmap (cons uni) (scanstring r2)
                        end
                      else pmap (cons uni) (scanstring r2)
                  end
              | _ => Bad JSONDecodeError
              end
            else
              match unescape e with
              | Some ch => pmap (cons ch) (scanstring r1)
              | None => Bad JSONDecodeError
              end
        end
      else if (c <? 32)%N then Bad JSONDecodeError
      else pmap (cons c) (scanstring r)
  end.

(** The longest prefix of digits, and what follows. *)
Fixpoint span_digits (s : str) : str * str :=
  match s with
  | c :: r =>
      if is_digit c then let (d, rest) := span_digits r in (c :: d, rest)
      else ([], s)
  | [] => ([], [])
  end.

Definition int_of_digits (d : str) : Z :=
  fold_left (fun acc c => (10 * acc + Z.of_N (c - 48))%Z) d 0%Z.

(** The integer part of a number: [0], or a non-zero digit and digits. *)
Definition scan_intpart (s : str) : option (str * str) :=
  match s with
  | c :: r =>
      if (c =? 48)%N then Some ([c], r)
      else if is_digit c then let (d, rest) := span_digits r in Some (c :: d, rest)
      else None
  | [] => None
  end.

(** [.digits], when the dot is followed by a digit. *)
Definition scan_frac (s : str) : str * str :=
  match s with
  | c :: ((d :: _) as r) =>
      if ((c =? 46)%N && is_digit d)
      then let (ds, rest) := span_digits r in (c :: ds, rest)
      else ([], s)
  | _ => ([], s)
  end.

(** [e], an optional sign and digits, when there is a digit. *)
Definition scan_exp (s : str) : str * str :=
  match s with
  | c :: r =>
      if ((c =? 101) || (c =? 69))%N then
        match r with
        | sg :: ((d :: _) as r') =>
            if (((sg =? 43) || (sg =? 45))%N && is_digit d)
            then let (ds, rest) := span_digits r' in (c :: sg :: ds, rest)
            else if is_digit sg
            then let (ds, rest) := span_digits r in (c :: ds, rest)
            else ([], s)
        | [d] =>
            if is_digit d then ([c; d], []) else ([], s)
        | [] => ([], s)
        end
      else ([], s)
  | [] => ([], s)
  end.

(** sys.int_info.default_max_str_digits *)
Definition max_str_digits : nat := 4300.

(** [_match_number]: [None] when no number starts here. *)
Definition scan_number (s : str) : option (pres pyval) :=
  let (neg, s1) :=
    match s with
    | c :: r => if (c =? 45)%N then (true, r) else (false, s)
    | [] => (false, s)
    end in
  match scan_intpart s1 with
  | None => None
  | Some (ip, s2) =>
      let (fr, s3) := scan_frac s2 in
      let (ex, s4) := scan_exp s3 in
      match fr, ex with
      | [], [] =>
          if Nat.ltb max_str_digits (List.length ip) then Some (Bad ValueError)
          else Some (Got (VInt (if neg then - int_of_digits ip
                                else int_of_digits ip)%Z) s4)
      | _, _ =>
          Some (Got (VFloat ((if neg then [45%N] else []) ++ ip ++ fr ++ ex)) s4)
      end
  end.

(** [PyDict_SetItem] on an insertion-ordered dict. *)
Fixpoint dict_set (d : list (str * pyval)) (k : str) (v : pyval)
  : list (str * pyval) :=
  match d with
  | [] => [(k, v)]
  | (k', v') :: d' =>
      if str_eqb k' k then (k', v) :: d' else (k', v') :: dict_set d' k v
  end.

Definition dict_of_pairs (l : list (str * pyval)) : list (str * pyval) :=
  fold_left (fun d kv => dict_set d (fst kv) (snd kv)) l [].

(** [scan_once], with the loops of [JSONArray] and [JSONObject]. *)
Fixpoint scan_once (fuel : nat) (s : str) {struct fuel} : pres pyval :=
  match fuel with
  | O => Starved
  | S f =>
      match s with
      | [] => Bad JSONDecodeError
      | c :: r =>
          if (c =? dquote)%N then pmap VStr (scanstring r)
          else if (c =? 123)%N then
            let r' := skip_ws r in
            if startswith (lit "}") r' then Got (VDict []) (skipn 1 r')
            else pmap (fun l => VDict (dict_of_pairs l)) (object_items f r')
          else if (c =? 91)%N then
            let r' := skip_ws r in
            if startswith (lit "]") r' then Got (VList []) (skipn 1 r')
            else pmap VList (array_items f r')
          else if startswith (lit "null") s then Got VNone (skipn 4 s)
          else if startswith (lit "true") s then Got (VBool true) (skipn 4 s)
          else if startswith (lit "false") s then Got (VBool false) (skipn 5 s)
          else if startswith (lit "NaN") s then Got (VFloat (lit "NaN")) (skipn 3 s)
          else if startswith (lit "Infinity") s
          then Got (VFloat (lit "Infinity")) (skipn 8 s)
          else if startswith (lit "-Infinity") s
          then Got (VFloat (lit "-Infinity")) (skipn 9 s)
          else
            match scan_number s with
            | Some res => res
            | None => Bad JSONDecodeError
            end
      end
  end

with array_items (fuel : nat) (s : str) {struct fuel} : pres (list pyval) :=
  match fuel with
  | O => Starved
  | S f =>
      match scan_once f s with
      | Got v r1 =>
          match skip_ws r1 with
          | c :: r2 =>
              if (c =? 93)%N then Got [v] r2
              else if (c =? 44)%N then pmap (cons v) (array_items f (skip_ws r2))
              else Bad JSONDecodeError
          | [] => Bad JSONDecodeError
          end
      | Bad e => Bad e
      | Starved => Starved
      end
  end

with object_items (fuel : nat) (s : str) {struct fuel}
  : pres (list (str * pyval)) :=
  match fuel with
  | O => Starved
  | S f =>
      match s with
      | q :: r =>
          if (q =? dquote)%N then
            match scanstring r with
            | Got k r1 =>
                match skip_ws r1 with
                | col :: r2 =>
                    if (col =? 58)%N then
                      match scan_once f (skip_ws r2) with
                      | Got v r3 =>
                          match skip_ws r3 with
                          | c :: r4 =>
                              if (c =? 125)%N then Got [(k, v)] r4
                              else if (c =? 44)%N
                              then pmap (cons (k, v))
                                        (object_items f (skip_ws r4))
                              else Bad JSONDecodeError
                          | [] => Bad JSONDecodeError
                          end
                      | Bad e => Bad e
                      | Starved => Starved
                      end
                    else Bad JSONDecodeError
                | [] => Bad JSONDecodeError
                end
            | Bad e => Bad e
            | Starved => Starved
            end
          else Bad JSONDecodeError
      | [] => Bad JSONDecodeError
      end
  end.

(** A recursion budget no text of this length exhausts. *)
Definition loads_fuel (s : str) : nat := 2 * List.length s + 1.

(** [json.loads(s)] for a [str]: optional white space, one value, optional
    white space, end of text. *)
Definition loads (s : str) : result pyval :=
  match scan_once (loads_fuel s) (skip_ws s) with
  | Got v rest =>
      match skip_ws rest with
      | [] => Ok v
      | _ :: _ => Err JSONDecodeError
      end
  | Bad e => Err e
  | Starved => NotModelled
  end.

End Json.
Import Json.


(** ** The client *)

(** [OnlinePythonClient.State] *)
Inductive State : Type :=
| DISCONNECTED
| CONNECTED
| INITIALIZED
| WAITING_FOR_CODE
| RUNNING
| EXPECTING_OUTPUT
| SESSION_KILLED.

(** [OnlinePythonClient.OutputType] *)
Inductive OutputType : Type :=
| OUTPUT
| ERROR
| INPUT.

(** What [websocket.recv()] returns: a text frame or a binary frame. *)
Inductive message : Type :=
| Text (s : str)
| Binary (b : bytes).

(** The fields of [self] the methods read and write. *)
Record client : Type := mkClient {
  _state : State;
  files : list (str * str);
  cli_args : list str;
  output_type : option OutputType
}.

(** [OnlinePythonClient.__init__] *)
Definition __init__ (files : list (str * str)) (cli_args : option (list str))
  : client :=
  let cli_args := match cli_args with None => [] | Some a => a end in
  {| _state := DISCONNECTED;
     files := files;
     cli_args := cli_args;
     output_type := None |}.

(** *** Effects and errors *)

(** The argument of a [NotImplementedError]. *)
Inductive culprit : Type :=
| OfState (s : State)
| OfValue (v : pyval)
| OfPrefix (m : message)
| OfKind (k : option OutputType).

(** What a method raises. *)
Inductive error : Type :=
| PyErr (e : exn)
| NotImplementedError (c : culprit).

Inductive level : Type := DEBUG | INFO | CRITICAL.

(** The records handed to [logging], before formatting. *)
Inductive logrecord : Type :=
| LogState (s : State)
| LogReceiving (m : message)
| LogSending (l : pyval)
| LogSendingRaw (m : str)
| LogExiting (s : pyval)
| LogPayload (k : option OutputType) (text : str).

Inductive stream : Type := stdout | stderr.

(** What a method does to the outside: a log record, a message sent on
    the websocket, a [print] to a stream. *)
Inductive effect : Type :=
| Log (lvl : level) (r : logrecord)
| Send (m : str)
| Print (text : str) (file : stream).

(** The client and what it has done so far. *)
Record world : Type := mkWorld {
  self : client;
  trace : list effect
}.

(** How a call ends: it returns, raises, ends the process through
    [os._exit] with the exit status given, or reaches a library call outside
    the model. *)
Inductive outcome (A : Type) : Type :=
| Return (a : A)
| Raise (e : error)
| Exit (status : Z)
| Unknown.
Arguments Return {A} a.
Arguments Raise {A} e.
Arguments Exit {A} status.
Arguments Unknown {A}.

(** A computation: from a world to how the call ends and the world it
    leaves. *)
Definition M (A : Type) : Type := world -> outcome A * world.

Definition ret {A} (a : A) : M A := fun w => (Return a, w).

Definition bind {A B} (m : M A) (k : A -> M B) : M B :=
  fun w =>
    match m w with
    | (Return a, w') => k a w'
    | (Raise e, w') => (Raise e, w')
    | (Exit n, w') => (Exit n, w')
    | (Unknown, w') => (Unknown, w')
    end.

Notation "x <- m ;; k" := (bind m (fun x => k))
  (at level 61, m at next level, right associativity).
Notation "m ;; k" := (bind m (fun _ => k))
  (at level 61, right associativity).

Definition raise {A} (e : error) : M A := fun w => (Raise e, w).

Definition lift {A} (r : result A) : M A :=
  fun w =>
    match r with
    | Ok a => (Return a, w)
    | Err e => (Raise (PyErr e), w)
    | NotModelled => (Unknown, w)
    end.

Definition emit (e : effect) : M unit :=
  fun w => (Return tt, {| self := self w; trace := trace w ++ [e] |}).

Definition read {A} (f : client -> A) : M A := fun w => (Return (f (self w)), w).

Definition update (f : client -> client) : M unit :=
  fun w => (Return tt, {| self := f (self w); trace := trace w |}).

(** [assert b] *)
Definition assert (b : bool) : M unit :=
  if b then ret tt else raise (PyErr AssertionError).

(** The setter of the [state] property: log, then assign. *)
Definition set_state (new_state : State) : M unit :=
  emit (Log INFO (LogState new_state)) ;;
  update (fun c => {| _state := new_state; files := files c;
                      cli_args := cli_args c; output_type := output_type c |}).

Definition set_output_type (k : OutputType) : M unit :=
  update (fun c => {| _state := _state c; files := files c;
                      cli_args := cli_args c; output_type := Some k |}).

(** [print(text, file=file)] writes the text and a newline. *)
Definition print (text : str) (file : stream) : M unit := emit (Print text file).

(** *** The dynamically typed operations of [handle_message] *)

(** [data[0]] *)
Definition getitem0 (data : pyval) : result pyval :=
  match data with
  | VList (x :: _) => Ok x
  | VList [] => Err IndexError
  | VStr (c :: _) => Ok (VStr [c])
  | VStr [] => Err IndexError
  | VDict _ => Err KeyError
  | _ => Err TypeError
  end.

(** [a, b, c = data] *)
Definition unpack3 (data : pyval) : result (pyval * pyval * pyval) :=
  match data with
  | VList [a; b; c] => Ok (a, b, c)
  | VList _ => Err ValueError
  | VStr [a; b; c] => Ok (VStr [a], VStr [b], VStr [c])
  | VStr _ => Err ValueError
  | VDict [(a, _); (b, _); (c, _)] => Ok (VStr a, VStr b, VStr c)
  | VDict _ => Err ValueError
  | _ => Err TypeError
  end.

(** [v == s] for a string literal [s] *)
Definition eq_str (v : pyval) (s : str) : bool :=
  match v with
  | VStr t => str_eqb t s
  | _ => false
  end.

(** [s in v] for a string literal [s] *)
Definition str_in (s : str) (v : pyval) : result bool :=
  match v with
  | VStr t => Ok (contains s t)
  | VList l => Ok (existsb (fun x => eq_str x s) l)
  | VDict d => Ok (existsb (fun kv => str_eqb (fst kv) s) d)
  | _ => Err TypeError
  end.

(** [int(v)] *)
Definition py_int (v : pyval) : result Z :=
  match v with
  | VInt z => Ok z
  | VBool b => Ok (if b then 1 else 0)%Z
  | VFloat _ => NotModelled
  | VStr _ => NotModelled
  | _ => Err TypeError
  end.

(** [os._exit(v)]: the argument must be an integer that fits a C int.  The
    process then ends through [_exit(v)], and the exit status it leaves is
    the low eight bits of the argument. *)
Definition os__exit {A} (v : pyval) : M A :=
  match v with
  | VInt z =>
      if ((- 2147483648 <=? z) && (z <=? 2147483647))%Z
      then fun w => (Exit (z mod 256)%Z, w)
      else raise (PyErr OverflowError)
  | VBool b => fun w => (Exit (if b then 1 else 0)%Z, w)
  | _ => raise (PyErr TypeError)
  end.

(** [message.startswith(p)] for a string literal [p] *)
Definition msg_startswith (p : str) (m : message) : result bool :=
  match m with
  | Text s => Ok (startswith p s)
  | Binary _ => Err TypeError
  end.

(** [message == s] for a string literal [s] *)
Definition msg_eq (m : message) (s : str) : bool :=
  match m with
  | Text t => str_eqb t s
  | Binary _ => false
  end.

(** *** The methods *)

(** [send_list] (lines 91-95): the message is built before anything is
    logged. *)
Definition send_list (l : pyval) : M unit :=
  body <- lift (match Json.dumps l with
                | Some b => Ok b
                | None => NotModelled
                end) ;;
  let message := lit "42" ++ body in
  emit (Log INFO (LogSending l)) ;;
  emit (Log DEBUG (LogSendingRaw message)) ;;
  emit (Send message).

(** [kill_session] (lines 97-98) *)
Definition kill_session : M unit := emit (Send (lit "41")).

(** [dict(code=code, file_name=file_name)] *)
Definition file_object (entry : str * str) : pyval :=
  let (file_name, code) := entry in
  VDict [(lit "code", VStr code); (lit "file_name", VStr file_name)].

(** [next(iter(self.files))]; inside a coroutine the [StopIteration] of an
    empty dict surfaces as a [RuntimeError]. *)
Definition first_key (files : list (str * str)) : result str :=
  match files with
  | (file_name, _) :: _ => Ok file_name
  | [] => Err RuntimeError
  end.

(** [send_files_and_run] (lines 100-103) *)
Definition send_files_and_run : M unit :=
  fs <- read files ;;
  args <- read cli_args ;;
  let objects := map file_object fs in
  let joined := join (lit " ") args in
  entry <- lift (first_key fs) ;;
  let data := VList [VStr (lit "code"); VList objects; VStr joined; VStr entry] in
  send_list data.

(** [send_input] (lines 105-107) *)
Definition send_input (message : str) : M unit :=
  let data := VList [VStr (lit "message"); VStr message] in
  send_list data.

(** [handle_message] (lines 109-181).  In state RUNNING a binary message
    has a [bytes] prefix, which equals none of the string patterns and
    falls to the last case. *)
Definition handle_message (message : message) : M unit :=
  emit (Log DEBUG (LogReceiving message)) ;;
  state <- read _state ;;
  match state with
  | CONNECTED =>
      b <- lift (msg_startswith (lit "0{") message) ;;
      assert b ;;
      set_state INITIALIZED
  | INITIALIZED =>
      assert (msg_eq message (lit "40")) ;;
      set_state WAITING_FOR_CODE ;;
      send_files_and_run ;;
      set_state RUNNING
  | RUNNING =>
      match message with
      | Text s =>
          let message_type := firstn 2 s in
          if str_eqb message_type (lit "45") then
            assert (startswith (lit "451-") s) ;;
            data <- lift (Json.loads (skipn 4 s)) ;;
            data0 <- lift (getitem0 data) ;;
            if eq_str data0 (lit "output") then
              set_output_type OUTPUT ;;
              set_state EXPECTING_OUTPUT
            else if eq_str data0 (lit "err") then
              set_output_type ERROR ;;
              set_state EXPECTING_OUTPUT
            else if eq_str data0 (lit "input") then
              set_output_type INPUT ;;
              set_state EXPECTING_OUTPUT
            else raise (NotImplementedError (OfValue data0))
          else if str_eqb message_type (lit "42") then
            data <- lift (Json.loads (skipn 2 s)) ;;
            msn <- lift (unpack3 data) ;;
            let '(method, string, number) := msn in
            if eq_str method (lit "exit") then
              b <- lift (str_in (lit "Process exited") string) ;;
              emit (Log (if b then INFO else CRITICAL) (LogExiting string)) ;;
              match number with
              | VNone => os__exit number
              | _ =>
                  n <- lift (py_int number) ;;
                  os__exit (VInt n)
              end
            else raise (NotImplementedError (OfValue method))
          else if str_eqb message_type (lit "41") then
            set_state SESSION_KILLED
          else raise (NotImplementedError (OfPrefix (Text message_type)))
      | Binary b =>
          raise (NotImplementedError (OfPrefix (Binary (firstn 2 b))))
      end
  | EXPECTING_OUTPUT =>
      kind <- read output_type ;;
      file <- match kind with
              | Some OUTPUT => ret (Some stdout)
              | Some ERROR => ret (Some stderr)
              | Some INPUT => ret None
              | None => raise (NotImplementedError (OfKind kind))
              end ;;
      match file with
      | Some f =>
          text <- match message with
                  | Binary b =>
                      lift (match decode b with
                            | Some t => Ok t
                            | None => Err UnicodeDecodeError
                            end)
                  | Text t => ret t
                  end ;;
          emit (Log INFO (LogPayload kind text)) ;;
          print text f
      | None => ret tt
      end ;;
      set_state RUNNING
  | _ => raise (NotImplementedError (OfState state))
  end.

(** [handle_next_user_input] (lines 58-61), for the line
    [reader.readline()] returned. *)
Definition handle_next_user_input (data : bytes) : M unit :=
  data <- lift (match decode data with
                | Some t => Ok (rstrip_newline t)
                | None => Err UnicodeDecodeError
                end) ;;
  send_input data.

(** [connect] up to its loop (lines 63-79): the state check and the move
    to CONNECTED once the connection and the reader are set up. *)
Definition connect_open : M unit :=
  state <- read _state ;;
  assert (match state with DISCONNECTED => true | _ => false end) ;;
  set_state CONNECTED.

(** Handlers run one after the other, each on the world the previous one
    left. *)
Fixpoint each {A} (h : A -> M unit) (l : list A) : M unit :=
  match l with
  | [] => ret tt
  | x :: l' => h x ;; each h l'
  end.

(** *** [main] (lines 199-217) *)

(** The namespace [parse_arguments] returns: [--log], the positional
    [files] (one or more) and [--run] (absent, or zero or more values). *)
Module Args.
Record t : Type := mk {
  log : option str;
  files : list str;
  run : option (list str)
}.
End Args.

(** [d[k] = v] on a dict in insertion order: a key that is present keeps
    its place and takes the new value. *)
Fixpoint setitem (d : list (str * str)) (k v : str) : list (str * str) :=
  match d with
  | [] => [(k, v)]
  | (k', v') :: d' =>
      if str_eqb k' k then (k', v) :: d' else (k', v') :: setitem d' k v
  end.

(** [d.get(k)] *)
Fixpoint getitem (d : list (str * str)) (k : str) : option str :=
  match d with
  | [] => None
  | (k', v) :: d' => if str_eqb k' k then Some v else getitem d' k
  end.

Section Main.

(** [Path(file_name).name] and [Path(file_name).read_text()], [None] when
    the file cannot be read. *)
Variable name : str -> str.
Variable read_text : str -> option str.

(** The dict comprehension of line 213, from the entries made so far. *)
Fixpoint read_files (d : list (str * str)) (file_names : list str)
  : option (list (str * str)) :=
  match file_names with
  | [] => Some d
  | file_name :: rest =>
      match read_text file_name with
      | Some text => read_files (setitem d (name file_name) text) rest
      | None => None
      end
  end.

(** [main] from the parsed arguments to the client it connects (lines
    208-216); [None] when a file cannot be read.  The list of line 209 is
    replaced at line 213 before it is used. *)
Definition main_client (args : Args.t) : option client :=
  let files :=
    (match Args.run args with
     | Some (file_name :: _) => [file_name]
     | _ => []
     end) ++ Args.files args in
  let cli_args :=
    match Args.run args with
    | None => None
    | Some [] => Some []
    | Some (_ :: rest) => Some rest
    end in
  match read_files [] (Args.files args) with
  | Some files => Some (__init__ files cli_args)
  | None => None
  end.

(** The last of the file names that has the given name. *)
Definition last_named (file_names : list str) (k : str) : option str :=
  find (fun file_name => str_eqb (name file_name) k) (rev file_names).

End Main.

(** *** What the trace shows *)

(** The text written to a stream: [print] adds a newline to each text. *)
Fixpoint written (f : stream) (t : list effect) : str :=
  match t with
  | [] => []
  | Print text g :: t' =>
      match f, g with
      | stdout, stdout | stderr, stderr => text ++ [newline] ++ written f t'
      | _, _ => written f t'
      end
  | _ :: t' => written f t'
  end.

(** The messages sent on the websocket, in order. *)
Fixpoint sent (t : list effect) : list str :=
  match t with
  | [] => []
  | Send m :: t' => m :: sent t'
  | _ :: t' => sent t'
  end.

(** The states the setter was given, in order. *)
Fixpoint states_logged (t : list effect) : list State :=
  match t with
  | [] => []
  | Log _ (LogState s) :: t' => s :: states_logged t'
  | _ :: t' => states_logged t'
  end.

(** ** The vocabulary of the properties *)

(** *** Sample worlds *)

Definition one_file : list (str * str) := [(lit "a.py", lit "print(1)")].

(** A client with the file a.py in the given state, before any effect. *)
Definition world_in (state : State) (kind : option OutputType) : world :=
  mkWorld (mkClient state one_file [] kind) [].

Definition connected_world : world := world_in CONNECTED None.
Definition initialized_world : world := world_in INITIALIZED None.
Definition running_world : world := world_in RUNNING None.
Definition expecting_error_world : world :=
  world_in EXPECTING_OUTPUT (Some ERROR).

(** *** Worlds before and after a call *)

Definition with_state (s : State) (c : client) : client :=
  {| _state := s; files := files c; cli_args := cli_args c;
     output_type := output_type c |}.

(** The three ways a call can leave [self]: untouched, moved to
    EXPECTING_OUTPUT from RUNNING with a kind set, or moved to another state
    with the kind as it was. *)
Definition self_change (c c' : client) : Prop :=
  files c' = files c /\ cli_args c' = cli_args c
  /\ (c' = c
      \/ (_state c = RUNNING /\ _state c' = EXPECTING_OUTPUT
          /\ output_type c' <> None)
      \/ (_state c' <> EXPECTING_OUTPUT /\ output_type c' = output_type c)).

(** One call made by the loop of [connect]. *)
Inductive step : world -> world -> Prop :=
| step_connect (w : world) : step w (snd (connect_open w))
| step_message (m : message) (w : world) : step w (snd (handle_message m w))
| step_input (data : bytes) (w : world) :
    step w (snd (handle_next_user_input data w)).

(** The worlds a client built by [__init__] can be in. *)
Inductive reachable (fs : list (str * str)) (args : option (list str))
  : world -> Prop :=
| reach_init : reachable fs args (mkWorld (__init__ fs args) [])
| reach_step (w w' : world) :
    reachable fs args w -> step w w' -> reachable fs args w'.

(** The world of a fresh client after [connect] opened the session and the
    given messages were handled in turn. *)
Definition session (fs : list (str * str)) (args : option (list str))
           (ms : list message) : world :=
  fold_left (fun w m => snd (handle_message m w)) ms
            (snd (connect_open (mkWorld (__init__ fs args) []))).

(** *** The pending output kind *)

(** The kind a header name announces (the cases of [match data[0]]). *)
Definition kind_of_name (name : str) : option OutputType :=
  if str_eqb name (lit "output") then Some OUTPUT
  else if str_eqb name (lit "err") then Some ERROR
  else if str_eqb name (lit "input") then Some INPUT
  else None.

(** The stream a pending kind writes to, if any (the cases of
    [match self.output_type]). *)
Definition stream_of (k : OutputType) : option stream :=
  match k with
  | OUTPUT => Some stdout
  | ERROR => Some stderr
  | INPUT => None
  end.

(** The invariant claimed for the pending kind: set only while the state
    is EXPECTING_OUTPUT. *)
Definition kind_only_while_expecting (c : client) : Prop :=
  output_type c <> None -> _state c = EXPECTING_OUTPUT.

(** The invariant the code keeps: set whenever the state is
    EXPECTING_OUTPUT. *)
Definition kind_set_while_expecting (c : client) : Prop :=
  _state c = EXPECTING_OUTPUT -> output_type c <> None.

(** What a header event does to a world in state RUNNING. *)
Definition expecting (k : OutputType) (m : message) (w : world) : world :=
  {| self := {| _state := EXPECTING_OUTPUT; files := files (self w);
                cli_args := cli_args (self w); output_type := Some k |};
     trace := trace w ++ [Log DEBUG (LogReceiving m);
                          Log INFO (LogState EXPECTING_OUTPUT)] |}.

(** What a payload does to a world in state EXPECTING_OUTPUT whose pending
    kind writes to [f]. *)
Definition printed (text : str) (f : stream) (m : message) (w : world) : world :=
  {| self := with_state RUNNING (self w);
     trace := trace w ++ [Log DEBUG (LogReceiving m);
                          Log INFO (LogPayload (output_type (self w)) text);
                          Print text f;
                          Log INFO (LogState RUNNING)] |}.

(** What a payload does to a world in state EXPECTING_OUTPUT whose pending
    kind is INPUT: nothing is logged or written. *)
Definition discarded (m : message) (w : world) : world :=
  {| self := with_state RUNNING (self w);
     trace := trace w ++ [Log DEBUG (LogReceiving m);
                          Log INFO (LogState RUNNING)] |}.

(** *** Packets and the transition table *)

(** The wire packets of the protocol. *)
Inductive packet : Type :=
| Open (payload : str)
| Ack
| Disconnect
| Event (name : str) (args : list pyval)
| HeaderEvent (name : str) (args : list pyval).

(** [wire_of p m]: the message [m] is packet [p] on the wire.  A header
    event is taken in the form the code reads, [451-] and a JSON array, and
    also in the form [45-], an index, a dash and a JSON array. *)
Inductive wire_of : packet -> message -> Prop :=
| wire_open (payload : str) :
    wire_of (Open payload) (Text (lit "0" ++ payload))
| wire_ack : wire_of Ack (Text (lit "40"))
| wire_disconnect : wire_of Disconnect (Text (lit "41"))
| wire_event (body name : str) (args : list pyval) :
    Json.loads body = Ok (VList (VStr name :: args)) ->
    wire_of (Event name args) (Text (lit "42" ++ body))
| wire_header (body name : str) (args : list pyval) :
    Json.loads body = Ok (VList (VStr name :: args)) ->
    wire_of (HeaderEvent name args) (Text (lit "451-" ++ body))
| wire_header_indexed (index body name : str) (args : list pyval) :
    Json.loads body = Ok (VList (VStr name :: args)) ->
    wire_of (HeaderEvent name args)
            (Text (lit "45-" ++ index ++ lit "-" ++ body)).

(** The rows of the transition table: the pairs of a state and a packet
    the state machine has a transition for. *)
Definition listed (state : State) (p : packet) : bool :=
  match state, p with
  | CONNECTED, Open _ => true
  | INITIALIZED, Ack => true
  | RUNNING, HeaderEvent name _ =>
      match kind_of_name name with Some _ => true | None => false end
  | RUNNING, Event name [_; _] => str_eqb name (lit "exit")
  | RUNNING, Disconnect => true
  | EXPECTING_OUTPUT, _ => true
  | _, _ => false
  end.

(** The failures a packet out of place is met with. *)
Definition protocol_violation (e : error) : Prop :=
  match e with
  | PyErr AssertionError => True
  | PyErr ValueError => True
  | NotImplementedError _ => True
  | _ => False
  end.

(** *** The messages sent *)

(** The JSON text of one file object. *)
Definition object_text (entry : str * str) : str :=
  lit "{" ++ Json.dump_str (lit "code") ++ lit ": " ++ Json.dump_str (snd entry)
  ++ lit ", " ++ Json.dump_str (lit "file_name") ++ lit ": "
  ++ Json.dump_str (fst entry) ++ lit "}".

(** The JSON texts of the file objects, separated by a comma and a space. *)
Fixpoint objects_text (fs : list (str * str)) : str :=
  match fs with
  | [] => []
  | [e] => object_text e
  | e :: fs' => object_text e ++ lit ", " ++ objects_text fs'
  end.

(** The data of the run request for the given files, arguments and entry
    (the list built by [send_files_and_run]). *)
Definition run_request (fs : list (str * str)) (args : list str) (entry : str)
  : pyval :=
  VList [VStr (lit "code"); VList (map file_object fs);
         VStr (join (lit " ") args); VStr entry].

(** The JSON text of the run request. *)
Definition run_request_text (fs : list (str * str)) (args : list str)
           (entry : str) : str :=
  lit "[" ++ Json.dump_str (lit "code") ++ lit ", "
  ++ lit "[" ++ objects_text fs ++ lit "]" ++ lit ", "
  ++ Json.dump_str (join (lit " ") args) ++ lit ", "
  ++ Json.dump_str entry ++ lit "]".

(** The effects of [send_list l] when [l] serialises to [text]. *)
Definition send_effects (l : pyval) (text : str) : list effect :=
  [Log INFO (LogSending l);
   Log DEBUG (LogSendingRaw (lit "42" ++ text));
   Send (lit "42" ++ text)].

(** The effects of handling [40] in state INITIALIZED. *)
Definition ack_effects (fs : list (str * str)) (args : list str) (entry : str)
  : list effect :=
  [Log DEBUG (LogReceiving (Text (lit "40")));
   Log INFO (LogState WAITING_FOR_CODE)]
  ++ send_effects (run_request fs args entry) (run_request_text fs args entry)
  ++ [Log INFO (LogState RUNNING)].

(** The data of the event that forwards one line (the list built by
    [send_input]). *)
Definition input_event (line : str) : pyval :=
  VList [VStr (lit "message"); VStr line].

(** The JSON text of that event. *)
Definition input_event_text (line : str) : str :=
  lit "[" ++ Json.dump_str (lit "message") ++ lit ", " ++ Json.dump_str line
  ++ lit "]".

(** [data] is what [readline] returns for the line of text [line]: its
    UTF-8 encoding and a newline. *)
Definition reads_line (data : bytes) (line : str) : Prop :=
  decode data = Some (line ++ [newline]) /\ ~ In newline line.

(** The UTF-8 encoding of one character, as the numbers of its bytes. *)
Definition utf8_encode_char (c : N) : list N :=
  if (c <? 128)%N then [c]
  else if (c <? 2048)%N then [192 + c / 64; 128 + c mod 64]%N
  else if (c <? 65536)%N
  then [224 + c / 4096; 128 + c / 64 mod 64; 128 + c mod 64]%N
  else [240 + c / 262144; 128 + c / 4096 mod 64; 128 + c / 64 mod 64;
        128 + c mod 64]%N.

(** A Unicode scalar value: a code point that is not a surrogate. *)
Definition scalar (c : N) : Prop :=
  (c < 55296)%N \/ (57344 <= c < 1114112)%N.

Definition byte_of_N (n : N) : Byte.byte :=
  match Strings.Byte.of_N n with
  | Some b => b
  | None => Byte.x00
  end.

(** The bytes [readline] returns for a line of text: its UTF-8 encoding and
    a newline. *)
Definition encode_line (line : str) : bytes :=
  map byte_of_N (flat_map utf8_encode_char line ++ [newline]).

(** A line of text: Unicode scalar values, none of them a newline. *)
Definition text_line (line : str) : Prop :=
  Forall scalar line /\ ~ In newline line.

(** *** Lines read from standard input *)

(** What [readline] returns for a line: the bytes of the line and the
    newline that ends it. *)
Definition line_read (raw : bytes) : bytes := raw ++ [Byte.x0a].

(** The bytes of a line that is valid UTF-8: they hold no newline and
    decode to the text [line]. *)
Definition utf8_line (raw : bytes) (line : str) : Prop :=
  ~ In Byte.x0a raw /\ decode raw = Some line.

(** *** Decoding the events of a running session *)

(** The call raises [e], leaves [self] as it was, and its only effect is the
    debug record of the message received. *)
Definition rejected (m : message) (e : error) (w : world) : Prop :=
  handle_message m w
  = (Raise e, {| self := self w;
                 trace := trace w ++ [Log DEBUG (LogReceiving m)] |}).

(** What decoding the value of the body of a 42-message comes to: a failure,
    or the text and the number of an exit event. *)
Inductive decoded : Type :=
| Failure (e : error)
| ExitEvent (string number : pyval).

(** The value is unpacked into exactly three values, of which the first
    must be "exit": an array gives its elements, a string its characters,
    an object its keys; any other value cannot be unpacked. *)
Definition decode_event (data : pyval) : decoded :=
  match data with
  | VList [method; string; number] =>
      if eq_str method (lit "exit") then ExitEvent string number
      else Failure (NotImplementedError (OfValue method))
  | VStr [a; _; _] => Failure (NotImplementedError (OfValue (VStr [a])))
  | VDict [(a, _); (b, _); (c, _)] =>
      if str_eqb a (lit "exit") then ExitEvent (VStr b) (VStr c)
      else Failure (NotImplementedError (OfValue (VStr a)))
  | VList _ | VStr _ | VDict _ => Failure (PyErr ValueError)
  | _ => Failure (PyErr TypeError)
  end.

(** *** Texts that survive [dumps] and [loads] *)

(** The two escapes [dumps] writes for a character above the basic plane. *)
Definition high_half (c : N) : N :=
  N.lor 55296 (N.land (N.shiftr (c - 65536) 10) 1023).

Definition low_half (c : N) : N := N.lor 56320 (N.land (c - 65536) 1023).

(** The strings [dumps] and [loads] carry unchanged: code points below
    0x110000, no high surrogate directly followed by a low one (the scanner
    would join the two escapes into one character). *)
Fixpoint carried (s : str) : bool :=
  match s with
  | [] => true
  | c :: r =>
      (c <? 1114112)%N
      && negb (is_high c && match r with d :: _ => is_low d | [] => false end)
      && carried r
  end.

Definition entry_carried (e : str * str) : bool :=
  carried (fst e) && carried (snd e).

(** What [scanstring] does after a [\uXXXX] that is a high surrogate. *)
Definition lookahead (uni : N) (t : str) : pres str :=
  match t with
  | b :: u :: l1 :: l2 :: l3 :: l4 :: r3 =>
      if ((b =? backslash) && (u =? 117))%N then
        match hex4val l1 l2 l3 l4 with
        | None => Bad JSONDecodeError
        | Some uni2 =>
            if is_low uni2
            then pmap (cons (join_surrogates uni uni2)) (scanstring r3)
            else pmap (cons uni) (scanstring t)
        end
      else pmap (cons uni) (scanstring t)
  | _ => pmap (cons uni) (scanstring t)
  end.

(** No escape of a low surrogate starts the text. *)
Definition no_low_ahead (t : str) : Prop :=
  forall l1 l2 l3 l4 r3,
    t = backslash :: 117%N :: l1 :: l2 :: l3 :: l4 :: r3 ->
    exists uni2, hex4val l1 l2 l3 l4 = Some uni2 /\ is_low uni2 = false.

(** The scanner did not starve, and what it leaves is shorter than [s]. *)
Definition fed {A} (s : str) (res : pres A) : Prop :=
  res <> Starved
  /\ forall (a : A) (r : str), res = Got a r ->
                                (List.length r < List.length s)%nat.

(** *** Calls and the trace *)

(** [c] appends to the trace what it would append to an empty one, and
    nothing else of its result depends on the trace. *)
Definition framed {A} (c : M A) : Prop :=
  forall (s : client) (t : list effect),
    c (mkWorld s t)
    = (fst (c (mkWorld s [])),
       mkWorld (self (snd (c (mkWorld s [])))) (t ++ trace (snd (c (mkWorld s []))))).

(** Calls of the loop of [connect], one after the other. *)
Inductive steps : world -> world -> Prop :=
| steps_refl (w : world) : steps w w
| steps_more (w w1 w2 : world) : steps w w1 -> step w1 w2 -> steps w w2.

(** The state a call leaves is the last one it logged, or the state it
    found. *)
Definition logs_its_state {A} (c : M A) : Prop :=
  forall s : client,
    _state (self (snd (c (mkWorld s []))))
    = last (states_logged (trace (snd (c (mkWorld s []))))) (_state s).

(** *** States without a case *)

(** The world after the given messages were handled in turn, whatever each
    call ended in. *)
Definition after (ms : list message) (w : world) : world :=
  fold_left (fun w m => snd (handle_message m w)) ms w.

(** The states in which [handle_message] has no case. *)
Definition refusing (state : State) : bool :=
  match state with
  | DISCONNECTED | WAITING_FOR_CODE | SESSION_KILLED => true
  | _ => false
  end.

(** *** Failures of the header and exit events *)

(** What [match data[0]] raises for a value that is not one of the three
    names. *)
Definition header_failure (data : pyval) : error :=
  match data with
  | VList (x :: _) => NotImplementedError (OfValue x)
  | VList [] => PyErr IndexError
  | VStr (c :: _) => NotImplementedError (OfValue (VStr [c]))
  | VStr [] => PyErr IndexError
  | VDict _ => PyErr KeyError
  | _ => PyErr TypeError
  end.

(** The value is a list that starts with one of the three names. *)
Definition names_kind (data : pyval) : bool :=
  match data with
  | VList (VStr name :: _) =>
      match kind_of_name name with Some _ => true | None => false end
  | _ => false
  end.

(** The level of the record the exit event writes. *)
Definition exit_level (text : str) : level :=
  if contains (lit "Process exited") text then INFO else CRITICAL.

(** How the call of [os._exit] ends for the third element of an exit
    event: the process ends with the low eight bits of an integer that fits
    a C int as its status. *)
Definition exit_outcome (number : pyval) : option (outcome unit) :=
  match number with
  | VNone => Some (Raise (PyErr TypeError))
  | VInt z =>
      Some (if ((- 2147483648 <=? z) && (z <=? 2147483647))%Z
            then Exit (z mod 256)%Z else Raise (PyErr OverflowError))
  | VBool b => Some (Exit (if b then 1 else 0)%Z)
  | VList _ | VDict _ => Some (Raise (PyErr TypeError))
  | VFloat _ | VStr _ => None
  end.

(** *** Pieces of output *)

(** The text of a payload: a text frame as it is, a binary frame decoded. *)
Definition text_of (m : message) : option str :=
  match m with
  | Text t => Some t
  | Binary b => decode b
  end.

(** One piece of program output as the server sends it: the body of the
    header event, the kind the header names, and the raw payload. *)
Record chunk : Type := mkChunk {
  chunk_header : str;
  chunk_kind : OutputType;
  chunk_payload : message
}.

(** The two messages of a chunk: the header event and the payload. *)
Definition chunk_messages (c : chunk) : list message :=
  [Text (lit "451-" ++ chunk_header c); chunk_payload c].

(** The header is a JSON list that starts with the name of the kind. *)
Definition announced (c : chunk) : Prop :=
  exists (name : str) (args : list pyval),
    Json.loads (chunk_header c) = Ok (VList (VStr name :: args))
    /\ kind_of_name name = Some (chunk_kind c).

(** The payload can be printed: it is text, or the kind prints nothing. *)
Definition readable (c : chunk) : Prop :=
  stream_of (chunk_kind c) = None \/ text_of (chunk_payload c) <> None.

(** The two streams are the same. *)
Definition stream_eqb (f g : stream) : bool :=
  match f, g with
  | stdout, stdout | stderr, stderr => true
  | _, _ => false
  end.

(** What a chunk adds to a stream. *)
Definition shown (f : stream) (c : chunk) : str :=
  match stream_of (chunk_kind c), text_of (chunk_payload c) with
  | Some g, Some t => if stream_eqb f g then t ++ [newline] else []
  | _, _ => []
  end.

(** *** The order of the states *)

(** The transitions of the state machine. *)
Definition follows (a b : State) : bool :=
  match a, b with
  | DISCONNECTED, CONNECTED
  | CONNECTED, INITIALIZED
  | INITIALIZED, WAITING_FOR_CODE
  | WAITING_FOR_CODE, RUNNING
  | RUNNING, EXPECTING_OUTPUT
  | EXPECTING_OUTPUT, RUNNING
  | RUNNING, SESSION_KILLED => true
  | _, _ => false
  end.

(** Every state of the list follows the one before it, starting from
    [a]. *)
Fixpoint path (a : State) (l : list State) : bool :=
  match l with
  | [] => true
  | b :: l' => follows a b && path b l'
  end.

(** The states a call logs follow one another, from the state it
    found. *)
Definition logs_a_path {A} (c : M A) : Prop :=
  forall s : client,
    path (_state s) (states_logged (trace (snd (c (mkWorld s [])))))
    = true.

(** *** The messages a session sends *)

(** The message is a run request: the event "code". *)
Definition is_run_request (m : str) : bool := startswith (wire "42['code'") m.

(** The message is an event: it has the prefix [42]. *)
Definition is_event (m : str) : bool := startswith (lit "42") m.

(** The states from RUNNING on. *)
Definition started (state : State) : bool :=
  match state with
  | RUNNING | EXPECTING_OUTPUT | SESSION_KILLED => true
  | _ => false
  end.

(** The number of run requests sent so far. *)
Definition run_requests (t : list effect) : nat :=
  List.length (filter is_run_request (sent t)).

(** What one call adds to the messages sent, by the state before and
    after: the run request on the way to a started state, other events or
    nothing otherwise. *)
Definition sends_run_request_once {A} (c : M A) : Prop :=
  forall s : client,
    let w' := snd (c (mkWorld s [])) in
    forallb is_event (sent (trace w')) = true
    /\ (started (_state s) = true -> started (_state (self w')) = true)
    /\ run_requests (trace w')
       = (if started (_state (self w')) && negb (started (_state s))
          then 1 else 0)%nat.

(** ** Properties *)

(** *** The exit event (lines 139-154) *)

(** C1. In state RUNNING, on the message [42] followed by the JSON array
    ["exit", text, number]: when the number is null the call
    [os._exit(None)] raises a [TypeError], so the process is not ended and
    no exit status 0 is set; when the number is an integer that fits a C int
    the process ends, and the status it leaves is the low eight bits of the
    number: exactly the number when it is between 0 and 255, and another
    status otherwise. *)
Theorem exit_event_status (w : world) (body text : str) (number : pyval) :
  _state (self w) = RUNNING ->
  Json.loads body = Ok (VList [VStr (lit "exit"); VStr text; number]) ->
  (number = VNone ->
   fst (handle_message (Text (lit "42" ++ body)) w) = Raise (PyErr TypeError))
  /\ (forall z : Z,
         number = VInt z ->
         (- 2147483648 <= z <= 2147483647)%Z ->
         fst (handle_message (Text (lit "42" ++ body)) w) = Exit (z mod 256)%Z)
  /\ (forall z : Z,
         number = VInt z ->
         (0 <= z <= 255)%Z ->
         fst (handle_message (Text (lit "42" ++ body)) w) = Exit z)
  /\ (forall z : Z,
         number = VInt z ->
         (- 2147483648 <= z < 0 \/ 255 < z <= 2147483647)%Z ->
         exists status : Z,
           fst (handle_message (Text (lit "42" ++ body)) w) = Exit status
           /\ status <> z).
Proof.
  intros Hst Hbody.
  assert (Hz : forall z : Z,
             number = VInt z ->
             (- 2147483648 <= z <= 2147483647)%Z ->
             fst (handle_message (Text (lit "42" ++ body)) w)
             = Exit (z mod 256)%Z).
  { intros z -> [Hlo Hhi].
    unfold handle_message, bind, emit, read; cbn -[Json.loads Z.modulo].
    rewrite Hst, Hbody; cbn -[Z.modulo].
    apply Z.leb_le in Hlo; apply Z.leb_le in Hhi.
    unfold lift, bind; cbn -[Z.modulo]. rewrite Hlo, Hhi; reflexivity. }
  split; [|split; [exact Hz | split]].
  - intros ->.
    unfold handle_message, bind, emit, read; cbn -[Json.loads].
    rewrite Hst, Hbody; reflexivity.
  - intros z Hn Hr. rewrite (Hz z Hn) by lia.
    rewrite Z.mod_small by lia. reflexivity.
  - intros z Hn Hr. exists (z mod 256)%Z. split; [apply Hz; [exact Hn | lia]|].
    pose proof (Z.mod_pos_bound z 256). lia.
Qed.

Lemma exit_event_status_witness :
  _state (self running_world) = RUNNING
  /\ Json.loads (wire "['exit','Process exited with code 0',null]")
     = Ok (VList [VStr (lit "exit"); VStr (lit "Process exited with code 0");
                  VNone])
  /\ fst (handle_message
            (Text (wire "42['exit','Process exited with code 0',null]"))
            running_world)
     = Raise (PyErr TypeError).
Proof.
  split; [reflexivity | split; [vm_compute; reflexivity | ]].
  apply (exit_event_status running_world
           (wire "['exit','Process exited with code 0',null]")
           (lit "Process exited with code 0") VNone);
    [reflexivity | vm_compute; reflexivity | reflexivity].
Defined.

(** *** Traces *)

Lemma written_app (f : stream) (a b : list effect) :
  written f (a ++ b) = written f a ++ written f b.
Proof.
  induction a as [|e a IH]; [reflexivity|].
  destruct e as [lvl r|m|text g]; cbn; auto.
  destruct f, g; cbn; rewrite ?IH; auto.
  all: rewrite <- !app_assoc; reflexivity.
Qed.

Lemma sent_app (a b : list effect) : sent (a ++ b) = sent a ++ sent b.
Proof.
  induction a as [|e a IH]; [reflexivity|].
  destruct e; cbn; rewrite ?IH; reflexivity.
Qed.

(** *** How [handle_message] changes [self] *)

Ltac break_in H :=
  match type of H with
  | context [match ?x with _ => _ end] =>
      lazymatch x with
      | context [match _ with _ => _ end] => fail
      | _ => destruct x eqn:?
      end
  end.

Ltac run_in H :=
  unfold handle_message, send_files_and_run, send_input, send_list,
    handle_next_user_input, connect_open, set_state, set_output_type, print,
    os__exit, assert, lift, raise, ret, bind, emit, read, update in H;
  cbn -[Json.loads Json.dumps firstn skipn decode] in H;
  repeat (break_in H; cbn -[Json.loads Json.dumps firstn skipn decode] in H;
          try discriminate).

Ltac run :=
  unfold handle_message, send_files_and_run, send_input, send_list,
    handle_next_user_input, connect_open, set_state, set_output_type, print,
    os__exit, assert, lift, raise, ret, bind, emit, read, update;
  cbn -[Json.loads Json.dumps decode].

Lemma handle_message_self (m : message) (w : world) (o : outcome unit)
      (w' : world) :
  handle_message m w = (o, w') -> self_change (self w) (self w').
Proof.
  destruct w as [[st fs args k] tr]; intros H.
  unfold self_change.
  run_in H.
  all: inversion H; subst; clear H; cbn.
  all: solve [intuition congruence].
Qed.

Lemma send_list_self (l : pyval) (w : world) : self (snd (send_list l w)) = self w.
Proof.
  unfold send_list, bind, lift, emit; cbn -[Json.dumps].
  destruct (Json.dumps l); reflexivity.
Qed.

Lemma handle_next_user_input_self (data : bytes) (w : world) :
  self (snd (handle_next_user_input data w)) = self w.
Proof.
  unfold handle_next_user_input, bind, lift; cbn -[decode send_input].
  destruct (decode data); [|reflexivity].
  cbn -[send_list]. apply send_list_self.
Qed.

(** *** The pending output kind (lines 128-136, 162-178) *)

Lemma step_keeps_kind_set (w w' : world) :
  step w w' ->
  kind_set_while_expecting (self w) -> kind_set_while_expecting (self w').
Proof.
  unfold kind_set_while_expecting.
  intros Hstep Hinv; destruct Hstep as [w|m w|data w].
  - destruct w as [[st fs args k] tr]; cbn in *.
    destruct st; cbn in *; auto; discriminate.
  - destruct (handle_message m w) as [o w'] eqn:E; cbn.
    apply handle_message_self in E.
    destruct E as (_ & _ & [E | [(_ & _ & E) | (E & _)]]).
    + rewrite E; exact Hinv.
    + intros _; exact E.
    + intros H; contradiction.
  - rewrite handle_next_user_input_self; exact Hinv.
Qed.

Lemma reachable_kind_set fs args (w : world) :
  reachable fs args w -> kind_set_while_expecting (self w).
Proof.
  induction 1 as [|w w' _ IH Hstep].
  - intros H; discriminate H.
  - eapply step_keeps_kind_set; eauto.
Qed.

(** C2 (as amended). In every world a client can reach, the pending kind
    is set whenever the state is EXPECTING_OUTPUT; and when a payload
    message is consumed there, the state returns to RUNNING while the kind
    is left as it was: it is not cleared. *)
Theorem pending_kind_invariant fs args (w : world) :
  reachable fs args w ->
  _state (self w) = EXPECTING_OUTPUT ->
  output_type (self w) <> None
  /\ forall (m : message) (w' : world),
       handle_message m w = (Return tt, w') ->
       _state (self w') = RUNNING
       /\ output_type (self w') = output_type (self w).
Proof.
  intros Hreach Hst; split.
  - exact (reachable_kind_set fs args w Hreach Hst).
  - intros m w' H.
    destruct w as [[st fs' args' k] tr]; cbn in Hst; subst st.
    run_in H.
    all: inversion H; subst; clear H; cbn; auto.
Qed.

Lemma reachable_session fs args (ms : list message) :
  reachable fs args (session fs args ms).
Proof.
  unfold session.
  assert (H0 : reachable fs args
                 (snd (connect_open (mkWorld (__init__ fs args) [])))).
  { eapply reach_step; [apply reach_init | apply step_connect]. }
  revert H0. generalize (snd (connect_open (mkWorld (__init__ fs args) []))).
  induction ms as [|m ms IH]; intros w Hw; cbn; [exact Hw|].
  apply IH. eapply reach_step; [exact Hw | apply step_message].
Qed.

Lemma pending_kind_invariant_witness :
  let w := session one_file None
             [Text (lit "0{}"); Text (lit "40"); Text (wire "451-['output']")] in
  reachable one_file None w
  /\ _state (self w) = EXPECTING_OUTPUT
  /\ output_type (self w) <> None.
Proof.
  intros w.
  assert (Hr : reachable one_file None w) by apply reachable_session.
  assert (Hs : _state (self w) = EXPECTING_OUTPUT) by (vm_compute; reflexivity).
  split; [exact Hr | split; [exact Hs | ]].
  exact (proj1 (pending_kind_invariant one_file None w Hr Hs)).
Defined.

(** C2 (as stated) fails: after the header [451-["output"]] and its payload
    the state is RUNNING again and the pending kind is still OUTPUT. *)
Lemma pending_kind_not_cleared :
  let w := session one_file None
             [Text (lit "0{}"); Text (lit "40"); Text (wire "451-['output']");
              Text (lit "hello")] in
  reachable one_file None w
  /\ _state (self w) = RUNNING
  /\ output_type (self w) = Some OUTPUT
  /\ ~ kind_only_while_expecting (self w).
Proof.
  intros w.
  assert (Hs : _state (self w) = RUNNING) by (vm_compute; reflexivity).
  assert (Hk : output_type (self w) = Some OUTPUT) by (vm_compute; reflexivity).
  split; [apply reachable_session | split; [exact Hs | split; [exact Hk | ]]].
  unfold kind_only_while_expecting; intros H.
  rewrite Hs, Hk in H.
  assert (E : RUNNING = EXPECTING_OUTPUT) by (apply H; discriminate).
  discriminate E.
Qed.

(** *** Header events (lines 122-138) *)

Lemma kind_of_name_cases (name : str) (k : OutputType) :
  kind_of_name name = Some k ->
  (str_eqb name (lit "output") = true /\ k = OUTPUT)
  \/ (str_eqb name (lit "output") = false /\ str_eqb name (lit "err") = true
      /\ k = ERROR)
  \/ (str_eqb name (lit "output") = false /\ str_eqb name (lit "err") = false
      /\ str_eqb name (lit "input") = true /\ k = INPUT).
Proof.
  unfold kind_of_name.
  destruct (str_eqb name (lit "output")).
  - intros [= <-]; auto.
  - destruct (str_eqb name (lit "err")).
    + intros [= <-]; auto.
    + destruct (str_eqb name (lit "input")); [intros [= <-]; auto 6 | discriminate].
Qed.

Lemma header_event_accepted (w : world) (body name : str) (args : list pyval)
      (k : OutputType) :
  _state (self w) = RUNNING ->
  Json.loads body = Ok (VList (VStr name :: args)) ->
  kind_of_name name = Some k ->
  handle_message (Text (lit "451-" ++ body)) w
  = (Return tt, expecting k (Text (lit "451-" ++ body)) w).
Proof.
  intros Hst Hbody Hk.
  destruct w as [[st fs cargs k0] tr]; cbn in Hst; subst st.
  unfold expecting; run.
  rewrite Hbody; cbn.
  destruct (kind_of_name_cases name k Hk)
    as [(H1 & ->) | [(H1 & H2 & ->) | (H1 & H2 & H3 & ->)]];
    cbn in *; rewrite ?H1, ?H2, ?H3; cbn; rewrite <- ?app_assoc; reflexivity.
Qed.

Lemma text_payload_printed (w : world) (k : OutputType) (f : stream) (t : str) :
  _state (self w) = EXPECTING_OUTPUT ->
  output_type (self w) = Some k ->
  stream_of k = Some f ->
  handle_message (Text t) w = (Return tt, printed t f (Text t) w).
Proof.
  intros Hst Hk Hf.
  destruct w as [[st fs cargs k0] tr]; cbn in Hst, Hk; subst st k0.
  destruct k; inversion Hf; subst; unfold printed; run;
    rewrite <- ?app_assoc; reflexivity.
Qed.

Lemma binary_payload_printed (w : world) (k : OutputType) (f : stream)
      (b : bytes) (t : str) :
  _state (self w) = EXPECTING_OUTPUT ->
  output_type (self w) = Some k ->
  stream_of k = Some f ->
  decode b = Some t ->
  handle_message (Binary b) w = (Return tt, printed t f (Binary b) w).
Proof.
  intros Hst Hk Hf Hb.
  destruct w as [[st fs cargs k0] tr]; cbn in Hst, Hk; subst st k0.
  unfold printed; run.
  destruct k; inversion Hf; subst; cbn -[decode]; rewrite Hb; cbn;
    rewrite <- ?app_assoc; reflexivity.
Qed.

(** C3 (as amended). In state RUNNING every message [451-] followed by a
    JSON array whose first element is "output", "err" or "input" is taken as
    a header event: the kind is remembered and the state becomes
    EXPECTING_OUTPUT.  In particular [451-["output"]] followed by the raw
    message "hello" writes "hello" and a newline to standard output, nothing
    to standard error, and the state is RUNNING again. *)
Theorem header_event_451 (w : world) :
  _state (self w) = RUNNING ->
  (forall (body name : str) (args : list pyval) (k : OutputType),
      Json.loads body = Ok (VList (VStr name :: args)) ->
      kind_of_name name = Some k ->
      handle_message (Text (lit "451-" ++ body)) w
      = (Return tt, expecting k (Text (lit "451-" ++ body)) w))
  /\ (let r := (handle_message (Text (wire "451-['output']")) ;;
                handle_message (Text (lit "hello"))) w in
      fst r = Return tt
      /\ _state (self (snd r)) = RUNNING
      /\ written stdout (trace (snd r))
         = written stdout (trace w) ++ lit "hello" ++ [newline]
      /\ written stderr (trace (snd r)) = written stderr (trace w)).
Proof.
  intros Hst; split.
  - intros body name args k Hbody Hk.
    apply header_event_accepted with (name := name) (args := args); assumption.
  - unfold bind.
    change (wire "451-['output']") with (lit "451-" ++ wire "['output']").
    rewrite (header_event_accepted w (wire "['output']") (lit "output") []
               OUTPUT Hst);
      [ | vm_compute; reflexivity | reflexivity].
    rewrite (text_payload_printed _ OUTPUT stdout); [ | reflexivity ..].
    cbn [fst snd printed expecting trace self _state].
    rewrite <- app_assoc, !written_app.
    cbn. rewrite !app_nil_r. auto.
Qed.

Lemma header_event_451_witness :
  _state (self running_world) = RUNNING
  /\ handle_message (Text (lit "451-" ++ wire "['err', 1]")) running_world
     = (Return tt,
        expecting ERROR (Text (lit "451-" ++ wire "['err', 1]")) running_world).
Proof.
  split; [reflexivity|].
  apply (proj1 (header_event_451 running_world eq_refl)
               (wire "['err', 1]") (lit "err") [VInt 1] ERROR);
    vm_compute; reflexivity.
Defined.

(** C3 (as stated) fails: in state RUNNING the message [45-0-["output"]]
    is not taken as a header event; the assertion on the prefix [451-]
    fails, the state stays RUNNING and no kind is remembered. *)
Lemma header_index_rejected :
  let r := handle_message (Text (wire "45-0-['output']")) running_world in
  fst r = Raise (PyErr AssertionError)
  /\ self (snd r) = self running_world
  /\ _state (self (snd r)) = RUNNING
  /\ output_type (self (snd r)) = None.
Proof. vm_compute; auto. Qed.

(** *** Payload routing (lines 162-178) *)

Lemma payload_discarded (w : world) (m : message) :
  _state (self w) = EXPECTING_OUTPUT ->
  output_type (self w) = Some INPUT ->
  handle_message m w = (Return tt, discarded m w).
Proof.
  intros Hst Hk.
  destruct w as [[st fs cargs k0] tr]; cbn in Hst, Hk; subst st k0.
  unfold discarded; run; rewrite <- ?app_assoc; reflexivity.
Qed.

Lemma binary_payload_undecodable (w : world) (k : OutputType) (f : stream)
      (b : bytes) :
  _state (self w) = EXPECTING_OUTPUT ->
  output_type (self w) = Some k ->
  stream_of k = Some f ->
  decode b = None ->
  handle_message (Binary b) w
  = (Raise (PyErr UnicodeDecodeError),
     {| self := self w;
        trace := trace w ++ [Log DEBUG (LogReceiving (Binary b))] |}).
Proof.
  intros Hst Hk Hf Hb.
  destruct w as [[st fs cargs k0] tr]; cbn in Hst, Hk; subst st k0.
  run.
  destruct k; inversion Hf; subst; cbn -[decode]; rewrite Hb; reflexivity.
Qed.

Lemma err_header_then_binary (w0 : world) :
  _state (self w0) = RUNNING ->
  let r := (handle_message (Text (wire "451-['err']")) ;;
            handle_message (Binary (blit "boom"))) w0 in
  fst r = Return tt
  /\ _state (self (snd r)) = RUNNING
  /\ written stderr (trace (snd r))
     = written stderr (trace w0) ++ lit "boom" ++ [newline]
  /\ written stdout (trace (snd r)) = written stdout (trace w0).
Proof.
  intros H. unfold bind.
  change (wire "451-['err']") with (lit "451-" ++ wire "['err']").
  rewrite (header_event_accepted w0 (wire "['err']") (lit "err") [] ERROR H);
    [ | vm_compute; reflexivity | reflexivity].
  rewrite (binary_payload_printed _ ERROR stderr (blit "boom") (lit "boom"));
    try reflexivity.
  cbn [fst snd printed expecting trace self _state].
  rewrite <- app_assoc, !written_app. cbn. rewrite ?app_nil_r. auto.
Qed.

(** C5 (as amended). In state EXPECTING_OUTPUT with a pending kind, a text
    payload, or a binary payload that is valid UTF-8, is printed (the text
    and a newline) to standard output for OUTPUT and to standard error for
    ERROR, and the state becomes RUNNING; for INPUT any payload is dropped
    unread and the state becomes RUNNING; a binary payload that is not valid
    UTF-8 raises [UnicodeDecodeError] for OUTPUT and ERROR and leaves [self]
    as it was.  In particular, from state RUNNING, [451-["err"]] followed by
    the binary payload b"boom" writes "boom" and a newline to standard
    error and nothing to standard output. *)
Theorem payload_routing (w : world) (k : OutputType) :
  _state (self w) = EXPECTING_OUTPUT ->
  output_type (self w) = Some k ->
  (forall (f : stream) (t : str),
      stream_of k = Some f ->
      handle_message (Text t) w = (Return tt, printed t f (Text t) w))
  /\ (forall (f : stream) (b : bytes) (t : str),
         stream_of k = Some f ->
         decode b = Some t ->
         handle_message (Binary b) w = (Return tt, printed t f (Binary b) w))
  /\ (forall (f : stream) (b : bytes),
         stream_of k = Some f ->
         decode b = None ->
         handle_message (Binary b) w
         = (Raise (PyErr UnicodeDecodeError),
            {| self := self w;
               trace := trace w ++ [Log DEBUG (LogReceiving (Binary b))] |}))
  /\ (forall m : message,
         stream_of k = None ->
         handle_message m w = (Return tt, discarded m w))
  /\ (forall w0 : world,
         _state (self w0) = RUNNING ->
         let r := (handle_message (Text (wire "451-['err']")) ;;
                   handle_message (Binary (blit "boom"))) w0 in
         fst r = Return tt
         /\ _state (self (snd r)) = RUNNING
         /\ written stderr (trace (snd r))
            = written stderr (trace w0) ++ lit "boom" ++ [newline]
         /\ written stdout (trace (snd r)) = written stdout (trace w0)).
Proof.
  intros Hst Hk.
  split; [|split; [|split; [|split]]].
  - intros f t Hf. apply text_payload_printed with (k := k); assumption.
  - intros f b t Hf Hb. apply binary_payload_printed with (k := k); assumption.
  - intros f b Hf Hb. apply binary_payload_undecodable with (k := k) (f := f);
      assumption.
  - intros m Hf. apply payload_discarded; [assumption|].
    destruct k; try discriminate; assumption.
  - exact err_header_then_binary.
Qed.

Lemma payload_routing_witness :
  _state (self expecting_error_world) = EXPECTING_OUTPUT
  /\ output_type (self expecting_error_world) = Some ERROR
  /\ handle_message (Binary (blit "boom")) expecting_error_world
     = (Return tt,
        printed (lit "boom") stderr (Binary (blit "boom")) expecting_error_world).
Proof.
  split; [reflexivity | split; [reflexivity | ]].
  apply (proj1 (proj2 (payload_routing expecting_error_world ERROR
                                       eq_refl eq_refl)));
    reflexivity.
Defined.

(** C5 (as stated) fails: in state RUNNING the message [45-0-["err"]] is
    rejected by the assertion on the prefix [451-], the binary payload
    b"boom" that follows is then met in state RUNNING and rejected too, and
    nothing is written to standard error. *)
Lemma err_header_index_rejected :
  let r1 := handle_message (Text (wire "45-0-['err']")) running_world in
  let r2 := handle_message (Binary (blit "boom")) (snd r1) in
  fst r1 = Raise (PyErr AssertionError)
  /\ fst r2 = Raise (NotImplementedError (OfPrefix (Binary (blit "bo"))))
  /\ written stderr (trace (snd r2)) = [].
Proof. vm_compute; auto. Qed.

(** *** Which 45- and 42-prefixed messages are accepted (lines 122-154) *)

Lemma getitem0_name (a a0 : pyval) (s : str) :
  getitem0 a = Ok a0 ->
  eq_str a0 s = true ->
  (2 <= List.length s)%nat ->
  exists (name : str) (args : list pyval),
    a = VList (VStr name :: args) /\ a0 = VStr name.
Proof.
  intros Hget Heq Hlen.
  destruct a as [| | | |t|l|d]; cbn in Hget; try discriminate.
  - destruct t as [|c t]; inversion Hget; subst a0.
    destruct s as [|x [|y s]]; cbn in Hlen; try lia.
    cbn in Heq. rewrite andb_false_r in Heq. discriminate.
  - destruct l as [|x l]; inversion Hget; subst a0.
    destruct x; try discriminate. eauto.
Qed.

Lemma header_event_only (w : world) (body : str) :
  _state (self w) = RUNNING ->
  fst (handle_message (Text (lit "451-" ++ body)) w) = Return tt ->
  exists (name : str) (args : list pyval) (k : OutputType),
    Json.loads body = Ok (VList (VStr name :: args))
    /\ kind_of_name name = Some k.
Proof.
  intros Hst.
  destruct w as [[st fs cargs k0] tr]; cbn in Hst; subst st.
  destruct (handle_message _ _) as [o w'] eqn:E; cbn; intros ->.
  run_in E.
  all: cbn [skipn] in *.
  all: match goal with
       | Hg : getitem0 _ = Ok _, Hq : eq_str _ _ = true |- _ =>
           destruct (getitem0_name _ _ _ Hg Hq) as (name & args & -> & ->);
           [cbn; lia | exists name, args]
       end.
  all: cbn [eq_str] in *; unfold kind_of_name; cbn [lit ord N_of_ascii N_of_digits]; cbn.
  all: repeat match goal with H : str_eqb _ _ = _ |- _ => rewrite H; clear H end.
  all: eauto.
Qed.

Lemma header_prefix_asserted (w : world) (s : str) :
  _state (self w) = RUNNING ->
  firstn 2 s = lit "45" ->
  startswith (lit "451-") s = false ->
  handle_message (Text s) w
  = (Raise (PyErr AssertionError),
     {| self := self w;
        trace := trace w ++ [Log DEBUG (LogReceiving (Text s))] |}).
Proof.
  intros Hst Hp Hs.
  destruct w as [[st fs cargs k0] tr]; cbn in Hst; subst st.
  run. cbn in Hp, Hs. rewrite Hp, Hs. reflexivity.
Qed.

Lemma event_wrong_length (w : world) (body : str) (l : list pyval) :
  _state (self w) = RUNNING ->
  Json.loads body = Ok (VList l) ->
  List.length l <> 3%nat ->
  handle_message (Text (lit "42" ++ body)) w
  = (Raise (PyErr ValueError),
     {| self := self w;
        trace := trace w
                 ++ [Log DEBUG (LogReceiving (Text (lit "42" ++ body)))] |}).
Proof.
  intros Hst Hbody Hlen.
  destruct w as [[st fs cargs k0] tr]; cbn in Hst; subst st.
  run. rewrite Hbody; cbn.
  destruct l as [|a [|b [|c [|d l]]]]; cbn in Hlen; try reflexivity.
  contradiction Hlen; reflexivity.
Qed.

Lemma event_wrong_name (w : world) (body name : str) (a b : pyval) :
  _state (self w) = RUNNING ->
  Json.loads body = Ok (VList [VStr name; a; b]) ->
  str_eqb name (lit "exit") = false ->
  handle_message (Text (lit "42" ++ body)) w
  = (Raise (NotImplementedError (OfValue (VStr name))),
     {| self := self w;
        trace := trace w
                 ++ [Log DEBUG (LogReceiving (Text (lit "42" ++ body)))] |}).
Proof.
  intros Hst Hbody Hname.
  destruct w as [[st fs cargs k0] tr]; cbn in Hst; subst st.
  run. rewrite Hbody; cbn. cbn in Hname. rewrite Hname. reflexivity.
Qed.

Lemma event_never_returns (w : world) (body : str) :
  _state (self w) = RUNNING ->
  fst (handle_message (Text (lit "42" ++ body)) w) <> Return tt.
Proof.
  intros Hst.
  destruct w as [[st fs cargs k0] tr]; cbn in Hst; subst st.
  destruct (handle_message _ _) as [o w'] eqn:E; cbn; intros ->.
  run_in E; discriminate.
Qed.

(** *** Packets outside the transition table (lines 109-181) *)

(** C4. For every state and every packet that is not a row of the
    transition table, handling the packet raises (an [AssertionError], a
    [NotImplementedError] or the [ValueError] of a failed unpacking), [self]
    is left as it was, and the only effect is the debug record of the
    message received: nothing is sent or written. *)
Theorem unlisted_packet_rejected (w : world) (p : packet) (m : message) :
  wire_of p m ->
  listed (_state (self w)) p = false ->
  exists e : error,
    protocol_violation e
    /\ handle_message m w
       = (Raise e, {| self := self w;
                      trace := trace w ++ [Log DEBUG (LogReceiving m)] |}).
Proof.
  intros Hwire Hlisted.
  destruct w as [[st fs cargs k0] tr]; cbn [self _state trace] in *.
  destruct Hwire as [payload| | |body name args Hbody|body name args Hbody
                     |index body name args Hbody];
    destruct st; cbn in Hlisted; try discriminate Hlisted.
  all: try solve [eexists; split; [|run; reflexivity]; exact I].
  - (* RUNNING, an event that is not ["exit", _, _] *)
    run. rewrite Hbody; cbn.
    destruct args as [|a [|b [|c args]]]; cbn.
    1, 2, 4: eexists; split; [|reflexivity]; exact I.
    rewrite Hlisted. eexists; split; [|reflexivity]; exact I.
  - (* RUNNING, a header event of another name *)
    run. rewrite Hbody; cbn.
    unfold kind_of_name in Hlisted; cbn in Hlisted.
    destruct (str_eqb name _); [discriminate|].
    destruct (str_eqb name _); [discriminate|].
    destruct (str_eqb name _); [discriminate|].
    eexists; split; [|reflexivity]; exact I.
Qed.

Lemma unlisted_packet_rejected_witness :
  wire_of (Event (lit "exit") [VStr (lit "bye"); VInt 0])
          (Text (lit "42" ++ wire "['exit','bye',0]"))
  /\ listed (_state (self connected_world))
            (Event (lit "exit") [VStr (lit "bye"); VInt 0]) = false
  /\ exists e : error,
       protocol_violation e
       /\ handle_message (Text (lit "42" ++ wire "['exit','bye',0]"))
                         connected_world
          = (Raise e,
             {| self := self connected_world;
                trace := trace connected_world
                         ++ [Log DEBUG
                               (LogReceiving
                                  (Text (lit "42" ++ wire "['exit','bye',0]")))]
             |}).
Proof.
  assert (Hw : wire_of (Event (lit "exit") [VStr (lit "bye"); VInt 0])
                       (Text (lit "42" ++ wire "['exit','bye',0]"))).
  { apply wire_event. vm_compute; reflexivity. }
  split; [exact Hw | split; [reflexivity | ]].
  exact (unlisted_packet_rejected connected_world _ _ Hw eq_refl).
Defined.

(** *** The messages sent (lines 91-107) *)

Ltac norm_text :=
  unfold Json.dump_str, Json.escape_body; cbn;
  repeat (rewrite <- app_assoc; cbn).

Lemma dumps_file_object (e : str * str) :
  Json.dumps (file_object e) = Some (object_text e).
Proof.
  destruct e as [n c]; unfold object_text; cbn.
  norm_text; reflexivity.
Qed.

Lemma dumps_file_objects (fs : list (str * str)) :
  Json.items_with Json.dumps (map file_object fs) = Some (objects_text fs).
Proof.
  induction fs as [|e fs IH]; [reflexivity|].
  destruct fs as [|e' fs].
  - cbn [map Json.items_with objects_text]. apply dumps_file_object.
  - change (map file_object (e :: e' :: fs))
      with (file_object e :: map file_object (e' :: fs)).
    cbn [Json.items_with objects_text].
    cbn [map] in *.
    rewrite dumps_file_object.
    cbn [Json.items_with] in IH |- *. rewrite IH. reflexivity.
Qed.

Lemma dumps_run_request (fs : list (str * str)) (args : list str) (entry : str) :
  Json.dumps (run_request fs args entry) = Some (run_request_text fs args entry).
Proof.
  unfold run_request, run_request_text.
  cbn [Json.dumps Json.items_with option_map].
  rewrite dumps_file_objects. cbn [option_map].
  f_equal. repeat rewrite <- app_assoc. reflexivity.
Qed.

Lemma send_list_sends (l : pyval) (text : str) (w : world) :
  Json.dumps l = Some text ->
  send_list l w
  = (Return tt, {| self := self w; trace := trace w ++ send_effects l text |}).
Proof.
  intros H. unfold send_list, send_effects, bind, lift, emit.
  rewrite H. cbn. rewrite <- !app_assoc. reflexivity.
Qed.

Lemma send_files_and_run_sends (w : world) (f : str * str)
      (fs : list (str * str)) :
  files (self w) = f :: fs ->
  send_files_and_run w
  = (Return tt,
     {| self := self w;
        trace := trace w
                 ++ send_effects
                      (run_request (f :: fs) (cli_args (self w)) (fst f))
                      (run_request_text (f :: fs) (cli_args (self w)) (fst f))
     |}).
Proof.
  intros Hf.
  unfold send_files_and_run, bind, read, lift, first_key.
  rewrite Hf. destruct f as [n c]. cbn [fst].
  apply (send_list_sends (run_request ((n, c) :: fs) (cli_args (self w)) n)).
  apply dumps_run_request.
Qed.

(** *** The acknowledgement (lines 116-120) *)

Lemma ack_handled (w : world) (f : str * str) (fs : list (str * str)) :
  _state (self w) = INITIALIZED ->
  files (self w) = f :: fs ->
  handle_message (Text (lit "40")) w
  = (Return tt,
     {| self := with_state RUNNING (self w);
        trace := trace w ++ ack_effects (f :: fs) (cli_args (self w)) (fst f) |}).
Proof.
  intros Hst Hf.
  destruct w as [[st fs0 cargs k0] tr]; cbn in Hst, Hf; subst st fs0.
  unfold ack_effects, with_state.
  cbn [self trace files cli_args _state output_type].
  remember (send_effects (run_request (f :: fs) cargs (fst f))
                         (run_request_text (f :: fs) cargs (fst f)))
    as se eqn:Hse.
  unfold handle_message, bind, emit, read, assert, ret, set_state, update;
    cbn -[send_files_and_run].
  rewrite (send_files_and_run_sends _ f fs); [|reflexivity].
  cbn [self trace files cli_args _state output_type]. rewrite <- Hse.
  cbn. rewrite <- !app_assoc. reflexivity.
Qed.

Lemma open_handled (w : world) (rest : str) :
  _state (self w) = CONNECTED ->
  handle_message (Text (lit "0{" ++ rest)) w
  = (Return tt,
     {| self := with_state INITIALIZED (self w);
        trace := trace w ++ [Log DEBUG (LogReceiving (Text (lit "0{" ++ rest)));
                             Log INFO (LogState INITIALIZED)] |}).
Proof.
  intros Hst.
  destruct w as [[st fs0 cargs k0] tr]; cbn in Hst; subst st.
  run. rewrite <- !app_assoc. reflexivity.
Qed.

(** C7. When [40] is received in state INITIALIZED by a client that has at
    least one file, the state is set to WAITING_FOR_CODE, then exactly one
    message is sent, the "code" event of the run request, then the state is
    set to RUNNING; nothing is printed.  The same holds for the session that
    receives the handshake [0{...}] in state CONNECTED and then [40]: no
    output is processed before the run request is sent. *)
Theorem ack_sends_run_request (w : world) (f : str * str)
        (fs : list (str * str)) :
  files (self w) = f :: fs ->
  let request := run_request (f :: fs) (cli_args (self w)) (fst f) in
  let text := run_request_text (f :: fs) (cli_args (self w)) (fst f) in
  let effects := ack_effects (f :: fs) (cli_args (self w)) (fst f) in
  (_state (self w) = INITIALIZED ->
   handle_message (Text (lit "40")) w
   = (Return tt,
      {| self := with_state RUNNING (self w); trace := trace w ++ effects |}))
  /\ (forall rest : str,
         _state (self w) = CONNECTED ->
         (handle_message (Text (lit "0{" ++ rest)) ;;
          handle_message (Text (lit "40"))) w
         = (Return tt,
            {| self := with_state RUNNING (self w);
               trace := trace w
                        ++ [Log DEBUG (LogReceiving (Text (lit "0{" ++ rest)));
                            Log INFO (LogState INITIALIZED)]
                        ++ effects |}))
  /\ Json.dumps request = Some text
  /\ sent effects = [lit "42" ++ text]
  /\ states_logged effects = [WAITING_FOR_CODE; RUNNING]
  /\ effects
     = [Log DEBUG (LogReceiving (Text (lit "40")));
        Log INFO (LogState WAITING_FOR_CODE);
        Log INFO (LogSending request);
        Log DEBUG (LogSendingRaw (lit "42" ++ text));
        Send (lit "42" ++ text);
        Log INFO (LogState RUNNING)]
  /\ written stdout effects = [] /\ written stderr effects = [].
Proof.
  intros Hf request text effects.
  split; [|split; [|split; [|repeat split]]].
  - intros Hst. apply ack_handled; assumption.
  - intros rest Hst. unfold bind.
    rewrite open_handled by assumption.
    rewrite (ack_handled _ f fs); [|reflexivity|exact Hf].
    cbn [self trace with_state files cli_args _state output_type].
    fold effects. clearbody effects.
    rewrite <- !app_assoc. reflexivity.
  - apply dumps_run_request.
Qed.

Lemma ack_sends_run_request_witness :
  files (self initialized_world) = (lit "a.py", lit "print(1)") :: []
  /\ _state (self initialized_world) = INITIALIZED
  /\ handle_message (Text (lit "40")) initialized_world
     = (Return tt,
        {| self := with_state RUNNING (self initialized_world);
           trace := trace initialized_world
                    ++ ack_effects one_file [] (lit "a.py") |}).
Proof.
  split; [reflexivity | split; [reflexivity | ]].
  exact (proj1 (ack_sends_run_request initialized_world
                  (lit "a.py", lit "print(1)") [] eq_refl) eq_refl).
Defined.

(** *** Local input (lines 58-61, 105-107) *)

Lemma rstrip_newline_line (line : str) :
  ~ In newline line -> rstrip_newline (line ++ [newline]) = line.
Proof.
  induction line as [|c s IH]; [reflexivity|].
  intros Hn.
  change (rstrip_newline ((c :: s) ++ [newline]))
    with (match rstrip_newline (s ++ [newline]) with
          | [] => if (c =? newline)%N then [] else [c]
          | r' => c :: r'
          end).
  rewrite IH by (intros H; apply Hn; right; exact H).
  destruct s as [|d s]; [|reflexivity].
  destruct (N.eqb_spec c newline) as [->|_]; [|reflexivity].
  exfalso; apply Hn; left; reflexivity.
Qed.

Lemma dumps_input_event (line : str) :
  Json.dumps (input_event line) = Some (input_event_text line).
Proof.
  unfold input_event, input_event_text; cbn. norm_text; reflexivity.
Qed.

Lemma input_line_handled (w : world) (data : bytes) (line : str) :
  reads_line data line ->
  handle_next_user_input data w
  = (Return tt,
     {| self := self w;
        trace := trace w
                 ++ send_effects (input_event line) (input_event_text line) |}).
Proof.
  intros [Hd Hn].
  unfold handle_next_user_input, bind, lift. rewrite Hd.
  rewrite rstrip_newline_line by exact Hn.
  apply (send_list_sends (input_event line)). apply dumps_input_event.
Qed.

Ltac Zify.zify_post_hook ::= Z.to_euclidean_division_equations.

Ltac decide_tests :=
  repeat match goal with
         | |- context [(?a <? ?b)%N] =>
             first [ replace (a <? b)%N with true
                       by (symmetry; apply N.ltb_lt; lia)
                   | replace (a <? b)%N with false
                       by (symmetry; apply N.ltb_ge; lia) ]
         | |- context [(?a <=? ?b)%N] =>
             first [ replace (a <=? b)%N with true
                       by (symmetry; apply N.leb_le; lia)
                   | replace (a <=? b)%N with false
                       by (symmetry; apply N.leb_gt; lia) ]
         | |- context [(?a =? ?b)%N] =>
             first [ replace (a =? b)%N with true
                       by (symmetry; apply N.eqb_eq; lia)
                   | replace (a =? b)%N with false
                       by (symmetry; apply N.eqb_neq; lia) ]
         end.

Lemma utf8_decode_encode_char (c : N) (rest : list N) :
  scalar c ->
  utf8_decode_N (utf8_encode_char c ++ rest)
  = option_map (cons c) (utf8_decode_N rest).
Proof.
  intros Hc. unfold utf8_encode_char, scalar in *.
  destruct (N.ltb_spec c 128); [|destruct (N.ltb_spec c 2048);
                                  [|destruct (N.ltb_spec c 65536)]];
    cbn [app utf8_decode_N]; unfold is_cont, cbits.
  - decide_tests. reflexivity.
  - decide_tests. cbn [andb]. do 2 f_equal. lia.
  - destruct (N.eq_dec (c / 4096) 0) as [E|E];
      [|destruct (N.eq_dec (c / 4096) 13) as [E'|E']].
    all: decide_tests; cbn [andb negb]; do 2 f_equal; lia.
  - destruct (N.eq_dec (c / 262144) 0) as [E|E];
      [|destruct (N.eq_dec (c / 262144) 4) as [E'|E']].
    all: decide_tests; cbn [andb negb]; do 2 f_equal; lia.
Qed.

Lemma to_N_byte_of_N (n : N) :
  (n < 256)%N -> Strings.Byte.to_N (byte_of_N n) = n.
Proof.
  intros Hn. unfold byte_of_N.
  destruct (Strings.Byte.of_N n) as [b|] eqn:E.
  - apply Strings.Byte.to_of_N. exact E.
  - apply Strings.Byte.of_N_None_iff in E. lia.
Qed.

Lemma map_to_N_byte_of_N (l : list N) :
  Forall (fun n => (n < 256)%N) l ->
  map Strings.Byte.to_N (map byte_of_N l) = l.
Proof.
  induction 1 as [|n l Hn _ IH]; [reflexivity|].
  cbn [map]. rewrite to_N_byte_of_N by exact Hn. rewrite IH. reflexivity.
Qed.

Lemma utf8_encode_char_bytes (c : N) :
  scalar c -> Forall (fun n => (n < 256)%N) (utf8_encode_char c).
Proof.
  intros Hc. unfold utf8_encode_char, scalar in *.
  destruct (N.ltb_spec c 128); [|destruct (N.ltb_spec c 2048);
                                  [|destruct (N.ltb_spec c 65536)]];
    repeat constructor; lia.
Qed.

Lemma utf8_decode_encode (line rest : str) :
  Forall scalar line ->
  utf8_decode_N (flat_map utf8_encode_char line ++ rest)
  = option_map (app line) (utf8_decode_N rest).
Proof.
  induction 1 as [|c line Hc _ IH]; cbn [flat_map app].
  - destruct (utf8_decode_N rest); reflexivity.
  - rewrite <- app_assoc, utf8_decode_encode_char, IH by exact Hc.
    destruct (utf8_decode_N rest); reflexivity.
Qed.

(** Every line of text is read as itself. *)
Lemma reads_encode_line (line : str) :
  Forall scalar line -> ~ In newline line ->
  reads_line (encode_line line) line.
Proof.
  intros Hs Hn. split; [|exact Hn].
  unfold decode, encode_line.
  rewrite map_to_N_byte_of_N.
  - rewrite utf8_decode_encode by exact Hs. reflexivity.
  - apply Forall_app. split; [|repeat constructor].
    clear Hn. induction Hs as [|c l Hc _ IH]; [constructor|].
    cbn [flat_map]. apply Forall_app. split;
      [apply utf8_encode_char_bytes; exact Hc | exact IH].
Qed.

Lemma input_lines_handled (w : world) (datas : list bytes) (lines : list str) :
  Forall2 reads_line datas lines ->
  let r := each handle_next_user_input datas w in
  fst r = Return tt
  /\ self (snd r) = self w
  /\ trace (snd r)
     = trace w
       ++ flat_map (fun line =>
                      send_effects (input_event line) (input_event_text line))
                   lines.
Proof.
  intros H. revert w.
  induction H as [|data line datas lines Hl _ IH]; intros w.
  - cbn. rewrite app_nil_r. auto.
  - cbn [each]. unfold bind.
    rewrite (input_line_handled w data line Hl).
    specialize (IH {| self := self w;
                      trace := trace w
                               ++ send_effects (input_event line)
                                               (input_event_text line) |}).
    cbn zeta in IH |- *.
    destruct (each handle_next_user_input datas _) as [o w'].
    cbn [fst snd self trace] in IH |- *.
    destruct IH as (H1 & H2 & H3).
    split; [exact H1 | split; [exact H2|]].
    rewrite H3. cbn [flat_map]. rewrite <- app_assoc. reflexivity.
Qed.

Lemma sent_send_effects (lines : list str) :
  sent (flat_map (fun line =>
                    send_effects (input_event line) (input_event_text line))
                 lines)
  = map (fun line => lit "42" ++ input_event_text line) lines.
Proof.
  induction lines as [|line lines IH]; [reflexivity|].
  cbn [flat_map map]. rewrite sent_app, IH. reflexivity.
Qed.

Lemma option_map_cons_snoc (c x : N) (o : option str) :
  option_map (cons c) (option_map (fun t => t ++ [x]) o)
  = option_map (fun t => t ++ [x]) (option_map (cons c) o).
Proof. destruct o; reflexivity. Qed.

Lemma utf8_decode_app_newline_aux (n : nat) :
  forall l : list N,
    (List.length l <= n)%nat ->
    utf8_decode_N (l ++ [newline])
    = option_map (fun t => t ++ [newline]) (utf8_decode_N l).
Proof.
  induction n as [|n IH]; intros l Hl.
  - destruct l; [reflexivity | cbn in Hl; lia].
  - destruct l as [|b0 r]; [reflexivity|].
    cbn [List.length] in Hl.
    cbn [app utf8_decode_N].
    destruct (b0 <? 128)%N.
    { rewrite IH by lia. apply option_map_cons_snoc. }
    destruct (b0 <? 194)%N; [reflexivity|].
    destruct (b0 <? 224)%N.
    { destruct r as [|b1 r1]; [reflexivity|]. cbn [app].
      destruct (is_cont b1); [|reflexivity].
      rewrite IH by (cbn in Hl; lia). apply option_map_cons_snoc. }
    destruct (b0 <? 240)%N.
    { destruct r as [|b1 [|b2 r2]]; cbn [app].
      - reflexivity.
      - destruct (is_cont b1); reflexivity.
      - match goal with |- (if ?c then _ else _) = _ => destruct c end;
          [|reflexivity].
        rewrite IH by (cbn in Hl; lia). apply option_map_cons_snoc. }
    destruct (b0 <? 245)%N; [|reflexivity].
    destruct r as [|b1 [|b2 [|b3 r3]]]; cbn [app].
    + reflexivity.
    + reflexivity.
    + destruct (is_cont b1); destruct (is_cont b2); reflexivity.
    + match goal with |- (if ?c then _ else _) = _ => destruct c end;
        [|reflexivity].
      rewrite IH by (cbn in Hl; lia). apply option_map_cons_snoc.
Qed.

(** A newline after the bytes of a line decodes to a newline after its
    text, and does not make bytes decode that did not. *)
Lemma decode_line_read (raw : bytes) :
  decode (line_read raw)
  = option_map (fun t => t ++ [newline]) (decode raw).
Proof.
  unfold decode, line_read. rewrite map_app.
  apply (utf8_decode_app_newline_aux _ _ (le_n _)).
Qed.

Lemma utf8_decode_no_newline_aux (n : nat) :
  forall (l : list N) (t : str),
    (List.length l <= n)%nat ->
    utf8_decode_N l = Some t -> ~ In newline l -> ~ In newline t.
Proof.
  induction n as [|n IH]; intros b t Hlen.
  - destruct b; [|cbn in Hlen; lia]. cbn. intros [= <-] _ [].
  - destruct b as [|b0 r]; [cbn; intros [= <-] _ []|].
    cbn [utf8_decode_N]. cbn [List.length] in Hlen.
    destruct (N.ltb_spec b0 128).
    { destruct (utf8_decode_N r) as [t'|] eqn:E; [|discriminate].
      cbn. intros [= <-] Hn [Hc|Hc].
      - apply Hn. left. exact Hc.
      - apply (IH r t'); [lia | exact E | | exact Hc].
        intros Hr. apply Hn. right. exact Hr. }
    destruct (N.ltb_spec b0 194); [discriminate|].
    destruct (N.ltb_spec b0 224).
    { destruct r as [|b1 r1]; [discriminate|].
      destruct (is_cont b1); [|discriminate].
      destruct (utf8_decode_N r1) as [t'|] eqn:E; [|discriminate].
      cbn. intros [= <-] Hn [Hc|Hc]; [unfold cbits in Hc; lia|].
      apply (IH r1 t'); [cbn in Hlen; lia | exact E | | exact Hc].
      intros Hr. apply Hn. right. right. exact Hr. }
    destruct (N.ltb_spec b0 240).
    { destruct r as [|b1 [|b2 r2]]; try discriminate.
      unfold is_cont, cbits.
      destruct (N.leb_spec 128 b1); [|discriminate].
      destruct (N.leb_spec b1 191); [|discriminate].
      destruct (N.leb_spec 128 b2); [|discriminate].
      destruct (N.leb_spec b2 191); [|discriminate]. cbn [andb].
      destruct (N.eqb_spec b0 224); destruct (N.ltb_spec b1 160);
        destruct (N.eqb_spec b0 237); destruct (N.leb_spec 160 b1);
        cbn [andb negb]; try discriminate.
      all: destruct (utf8_decode_N r2) as [t'|] eqn:E; [|discriminate].
      all: cbn; intros [= <-] Hn [Hc|Hc]; [lia|].
      all: apply (IH r2 t'); [cbn in Hlen; lia | exact E | | exact Hc].
      all: intros Hr; apply Hn; right; right; right; exact Hr. }
    destruct (N.ltb_spec b0 245); [|discriminate].
    destruct r as [|b1 [|b2 [|b3 r3]]]; try discriminate.
    unfold is_cont, cbits.
    destruct (N.leb_spec 128 b1); [|discriminate].
    destruct (N.leb_spec b1 191); [|discriminate].
    destruct (N.leb_spec 128 b2); [|discriminate].
    destruct (N.leb_spec b2 191); [|discriminate].
    destruct (N.leb_spec 128 b3); [|discriminate].
    destruct (N.leb_spec b3 191); [|discriminate]. cbn [andb].
    destruct (N.eqb_spec b0 240); destruct (N.ltb_spec b1 144);
      destruct (N.eqb_spec b0 244); destruct (N.leb_spec 144 b1);
      cbn [andb negb]; try discriminate.
    all: destruct (utf8_decode_N r3) as [t'|] eqn:E; [|discriminate].
    all: cbn; intros [= <-] Hn [Hc|Hc]; [lia|].
    all: apply (IH r3 t'); [cbn in Hlen; lia | exact E | | exact Hc].
    all: intros Hr; apply Hn; right; right; right; right; exact Hr.
Qed.

Lemma to_N_newline (b : Byte.byte) :
  Strings.Byte.to_N b = newline -> b = Byte.x0a.
Proof.
  intros H.
  assert (E : Strings.Byte.of_N (Strings.Byte.to_N b) = Some b)
    by apply Strings.Byte.of_to_N.
  rewrite H in E. cbn in E. congruence.
Qed.

(** The text of a line holds no newline when its bytes hold none. *)
Lemma utf8_line_reads (raw : bytes) (line : str) :
  utf8_line raw line -> reads_line (line_read raw) line.
Proof.
  intros [Hn Hd]. split.
  - rewrite decode_line_read, Hd. reflexivity.
  - apply (utf8_decode_no_newline_aux _ _ line (le_n _) Hd).
    intros Hin. apply in_map_iff in Hin. destruct Hin as (b & Hb & Hin).
    apply to_N_newline in Hb. subst b. exact (Hn Hin).
Qed.

Lemma undecodable_line_refused (w : world) (raw : bytes) :
  decode raw = None ->
  handle_next_user_input (line_read raw) w
  = (Raise (PyErr UnicodeDecodeError), w).
Proof.
  intros Hd. unfold handle_next_user_input, bind, lift.
  rewrite decode_line_read, Hd. reflexivity.
Qed.

Lemma encode_line_read (line : str) :
  text_line line ->
  exists raw : bytes, encode_line line = line_read raw /\ utf8_line raw line.
Proof.
  intros [Hs Hn].
  exists (map byte_of_N (flat_map utf8_encode_char line)).
  assert (Hb : Forall (fun n => (n < 256)%N) (flat_map utf8_encode_char line)).
  { clear Hn. induction Hs as [|c l Hc _ IH]; [constructor|].
    cbn [flat_map]. apply Forall_app. split;
      [apply utf8_encode_char_bytes; exact Hc | exact IH]. }
  assert (Hd : decode (map byte_of_N (flat_map utf8_encode_char line))
               = Some line).
  { unfold decode. rewrite map_to_N_byte_of_N by exact Hb.
    rewrite <- (app_nil_r (flat_map utf8_encode_char line)).
    rewrite utf8_decode_encode by exact Hs. cbn. rewrite app_nil_r.
    reflexivity. }
  split; [|split; [|exact Hd]].
  - unfold encode_line, line_read. rewrite map_app. reflexivity.
  - intros Hin. apply in_map_iff in Hin. destruct Hin as (x & Hx & Hin).
    rewrite Forall_forall in Hb. pose proof (Hb x Hin) as Hlt.
    assert (E : Strings.Byte.to_N (byte_of_N x) = x)
      by (apply to_N_byte_of_N; exact Hlt).
    rewrite Hx in E. cbn in E. subst x.
    (* a newline among the encoded bytes is a newline of the line *)
    apply Hn. clear - Hin Hs.
    induction Hs as [|c l Hc _ IH]; [contradiction|].
    cbn [flat_map] in Hin. apply in_app_or in Hin. destruct Hin as [Hin|Hin].
    + left. unfold utf8_encode_char, scalar in *.
      destruct (N.ltb_spec c 128); [|destruct (N.ltb_spec c 2048);
                                      [|destruct (N.ltb_spec c 65536)]];
        cbn [In] in Hin; intuition lia.
    + right. apply IH. exact Hin.
Qed.

(** C9 (as amended). For every newline-terminated line read from standard
    input whose bytes are valid UTF-8, whatever the state of the client, the
    newline is stripped and exactly one message is sent, the "message" event
    that carries the text of the line, and [self] is left as it was; lines
    handled one after the other send one message each, in the order of the
    lines.  Every line of text is such a line when it is typed as UTF-8.  A
    line whose bytes are not valid UTF-8 raises [UnicodeDecodeError]:
    nothing is sent or logged and the world is left as it was. *)
Theorem input_lines_forwarded (w : world) :
  (forall (raws : list bytes) (lines : list str),
      Forall2 utf8_line raws lines ->
      let r := each handle_next_user_input (map line_read raws) w in
      fst r = Return tt
      /\ self (snd r) = self w
      /\ trace (snd r)
         = trace w
           ++ flat_map (fun line =>
                          [Log INFO (LogSending (VList [VStr (lit "message");
                                                        VStr line]));
                           Log DEBUG (LogSendingRaw
                                        (lit "42" ++ input_event_text line));
                           Send (lit "42" ++ input_event_text line)])
                       lines
      /\ sent (trace (snd r))
         = sent (trace w)
           ++ map (fun line => lit "42" ++ input_event_text line) lines
      /\ Forall (fun line =>
                   Json.dumps (VList [VStr (lit "message"); VStr line])
                   = Some (input_event_text line))
                lines)
  /\ (forall line : str,
         text_line line ->
         exists raw : bytes,
           encode_line line = line_read raw /\ utf8_line raw line)
  /\ (forall raw : bytes,
         decode raw = None ->
         handle_next_user_input (line_read raw) w
         = (Raise (PyErr UnicodeDecodeError), w)).
Proof.
  split; [|split].
  - intros raws lines H.
    assert (Hr : Forall2 reads_line (map line_read raws) lines).
    { induction H as [|raw line raws lines Hl _ IH]; cbn [map]; constructor;
        [apply utf8_line_reads; exact Hl | exact IH]. }
    destruct (input_lines_handled w _ _ Hr) as (H1 & H2 & H3).
    cbn zeta.
    split; [exact H1 | split; [exact H2 | split; [exact H3 | split]]].
    + rewrite H3, sent_app, sent_send_effects. reflexivity.
    + clear. induction lines as [|line lines IH]; constructor;
        [apply dumps_input_event | exact IH].
  - apply encode_line_read.
  - apply undecodable_line_refused.
Qed.

Lemma input_lines_forwarded_witness :
  Forall2 utf8_line [blit "1 2"; [Byte.xc3; Byte.xa9]] [lit "1 2"; [233%N]]
  /\ sent (trace (snd (each handle_next_user_input
                            (map line_read [blit "1 2"; [Byte.xc3; Byte.xa9]])
                            expecting_error_world)))
     = [wire "42['message', '1 2']"; wire "42['message', '\u00e9']"].
Proof.
  assert (H : Forall2 utf8_line [blit "1 2"; [Byte.xc3; Byte.xa9]]
                      [lit "1 2"; [233%N]]).
  { repeat apply Forall2_cons; [| |apply Forall2_nil].
    - split; [cbn; intuition discriminate | reflexivity].
    - split; [cbn; intuition discriminate | reflexivity]. }
  split; [exact H|].
  etransitivity;
    [exact (proj1 (proj2 (proj2 (proj2
              (proj1 (input_lines_forwarded expecting_error_world) _ _ H)))))
    | vm_compute; reflexivity].
Defined.

(** C9 (as stated) fails: the line of the two bytes 0xE9 and newline (an
    e with an acute accent in Latin-1) is a newline-terminated line read
    from standard input, and no message is sent for it: the call raises
    [UnicodeDecodeError] and leaves the world as it was. *)
Lemma undecodable_line_not_forwarded :
  let r := handle_next_user_input [Byte.xe9; Byte.x0a] running_world in
  fst r = Raise (PyErr UnicodeDecodeError)
  /\ sent (trace (snd r)) = []
  /\ snd r = running_world.
Proof. vm_compute; auto. Qed.

(** *** The default of [cli_args] (lines 34-44, 100-103) *)

(** C10. A client built with [cli_args = None] is the client built with
    [cli_args = []]: the run request it sends is the same, and its field of
    joined arguments is the empty string. *)
Theorem cli_args_none_is_empty (fs : list (str * str)) :
  __init__ fs None = __init__ fs (Some [])
  /\ (forall tr : list effect,
         send_files_and_run (mkWorld (__init__ fs None) tr)
         = send_files_and_run (mkWorld (__init__ fs (Some [])) tr))
  /\ (forall (f : str * str) (rest : list (str * str)) (tr : list effect),
         fs = f :: rest ->
         let request :=
           VList [VStr (lit "code"); VList (map file_object fs); VStr [];
                  VStr (fst f)] in
         exists text : str,
           Json.dumps request = Some text
           /\ send_files_and_run (mkWorld (__init__ fs None) tr)
              = (Return tt,
                 mkWorld (__init__ fs None)
                         (tr ++ [Log INFO (LogSending request);
                                 Log DEBUG (LogSendingRaw (lit "42" ++ text));
                                 Send (lit "42" ++ text)]))).
Proof.
  split; [reflexivity | split; [reflexivity | ]].
  intros f rest tr -> request.
  exists (run_request_text (f :: rest) [] (fst f)).
  split; [apply (dumps_run_request (f :: rest) [] (fst f)) | ].
  rewrite (send_files_and_run_sends _ f rest) by reflexivity.
  reflexivity.
Qed.

Lemma cli_args_none_is_empty_witness :
  sent (trace (snd (send_files_and_run (mkWorld (__init__ one_file None) []))))
  = [wire "42['code', [{'code': 'print(1)', 'file_name': 'a.py'}], '', 'a.py']"].
Proof.
  destruct (proj2 (proj2 (cli_args_none_is_empty one_file))
                  (lit "a.py", lit "print(1)") [] [] eq_refl)
    as (text & Hd & Hs).
  rewrite Hs. cbn [snd trace sent app].
  vm_compute in Hd. injection Hd as <-. vm_compute. reflexivity.
Defined.

(** *** [loads] after [dumps] (lines 91-103) *)


Lemma hexval_hexdigit (d : N) : (d < 16)%N -> hexval (hexdigit d) = Some d.
Proof.
  intros Hd. unfold hexval, hexdigit, is_digit.
  destruct (N.ltb_spec d 10).
  - replace ((48 <=? 48 + d) && (48 + d <=? 57))%N with true
      by (symmetry; apply andb_true_intro; split; apply N.leb_le; lia).
    f_equal; lia.
  - replace ((48 <=? 87 + d) && (87 + d <=? 57))%N with false
      by (symmetry; apply andb_false_intro2; apply N.leb_gt; lia).
    replace ((97 <=? 87 + d) && (87 + d <=? 102))%N with true
      by (symmetry; apply andb_true_intro; split; apply N.leb_le; lia).
    f_equal; lia.
Qed.

Lemma hex4val_hex4 (n : N) :
  (n < 65536)%N ->
  hex4val (hexdigit (n / 4096 mod 16)) (hexdigit (n / 256 mod 16))
          (hexdigit (n / 16 mod 16)) (hexdigit (n mod 16)) = Some n.
Proof.
  intros Hn. unfold hex4val.
  rewrite !hexval_hexdigit by (apply N.mod_lt; discriminate).
  f_equal. lia.
Qed.

Lemma lor_disjoint (a b : N) :
  (b < 1024)%N -> N.lor (a * 1024) b = (a * 1024 + b)%N.
Proof.
  intros Hb.
  assert (H0 : N.land (a * 1024) b = 0%N).
  { apply N.bits_inj; intros m.
    rewrite N.land_spec, N.bits_0.
    destruct (N.lt_ge_cases m 10) as [Hm|Hm].
    - change 1024%N with (2 ^ 10)%N.
      rewrite N.mul_pow2_bits_low by exact Hm. reflexivity.
    - rewrite <- (N.mod_small b (2 ^ 10)) by exact Hb.
      rewrite N.mod_pow2_bits_high by exact Hm. apply andb_false_r. }
  rewrite <- N.lxor_lor by exact H0.
  symmetry; apply N.add_nocarry_lxor; exact H0.
Qed.

Lemma high_half_eq (c : N) :
  (65536 <= c < 1114112)%N -> high_half c = (55296 + (c - 65536) / 1024)%N.
Proof.
  intros Hc. unfold high_half.
  rewrite N.shiftr_div_pow2. change (2 ^ 10)%N with 1024%N.
  change 1023%N with (N.ones 10). rewrite N.land_ones.
  change (2 ^ 10)%N with 1024%N.
  rewrite N.mod_small by lia.
  change 55296%N with (54 * 1024)%N. apply lor_disjoint. lia.
Qed.

Lemma low_half_eq (c : N) :
  low_half c = (56320 + (c - 65536) mod 1024)%N.
Proof.
  unfold low_half.
  change 1023%N with (N.ones 10). rewrite N.land_ones.
  change (2 ^ 10)%N with 1024%N.
  change 56320%N with (55 * 1024)%N. apply lor_disjoint. lia.
Qed.

Lemma join_halves (c : N) :
  (65536 <= c < 1114112)%N ->
  join_surrogates (high_half c) (low_half c) = c.
Proof.
  intros Hc. rewrite high_half_eq, low_half_eq by exact Hc.
  unfold join_surrogates.
  change 1023%N with (N.ones 10). rewrite !N.land_ones, N.shiftl_mul_pow2.
  change (2 ^ 10)%N with 1024%N.
  replace ((55296 + (c - 65536) / 1024) mod 1024)%N with ((c - 65536) / 1024)%N
    by lia.
  replace ((56320 + (c - 65536) mod 1024) mod 1024)%N with ((c - 65536) mod 1024)%N
    by lia.
  rewrite lor_disjoint by lia. lia.
Qed.

Lemma halves_range (c : N) :
  (65536 <= c < 1114112)%N ->
  (high_half c < 65536)%N /\ (low_half c < 65536)%N
  /\ is_high (high_half c) = true /\ is_low (low_half c) = true.
Proof.
  intros Hc. rewrite high_half_eq, low_half_eq by exact Hc.
  unfold is_high, is_low.
  repeat split; try lia.
  all: apply andb_true_intro; split; apply N.leb_le; lia.
Qed.

Lemma scanstring_u (h1 h2 h3 h4 uni : N) (t : str) :
  hex4val h1 h2 h3 h4 = Some uni ->
  scanstring (backslash :: 117%N :: h1 :: h2 :: h3 :: h4 :: t)
  = if is_high uni then lookahead uni t else pmap (cons uni) (scanstring t).
Proof.
  intros H. cbn [scanstring]. cbn [N.eqb Pos.eqb].
  rewrite H. destruct (is_high uni); [|reflexivity].
  unfold lookahead.
  destruct t as [|b [|u [|l1 [|l2 [|l3 [|l4 r3]]]]]]; reflexivity.
Qed.

Lemma lookahead_none (uni : N) (t : str) :
  no_low_ahead t -> lookahead uni t = pmap (cons uni) (scanstring t).
Proof.
  intros H. unfold lookahead.
  destruct t as [|b [|u [|l1 [|l2 [|l3 [|l4 r3]]]]]]; try reflexivity.
  destruct ((b =? backslash) && (u =? 117))%N eqn:E; [|reflexivity].
  apply andb_prop in E; destruct E as [Eb Eu].
  apply N.eqb_eq in Eb, Eu; subst b u.
  destruct (H _ _ _ _ _ eq_refl) as (uni2 & Hh & Hl).
  rewrite Hh, Hl. reflexivity.
Qed.

Lemma lookahead_pair (uni uni2 l1 l2 l3 l4 : N) (t : str) :
  hex4val l1 l2 l3 l4 = Some uni2 ->
  is_low uni2 = true ->
  lookahead uni (backslash :: 117%N :: l1 :: l2 :: l3 :: l4 :: t)
  = pmap (cons (join_surrogates uni uni2)) (scanstring t).
Proof.
  intros Hh Hl. unfold lookahead. cbn [N.eqb Pos.eqb andb].
  rewrite Hh, Hl. reflexivity.
Qed.

Lemma scanstring_uescape (c : N) (t : str) :
  (c < 65536)%N ->
  scanstring (uescape c ++ t)
  = if is_high c then lookahead c t else pmap (cons c) (scanstring t).
Proof.
  intros Hc. unfold uescape, hex4. cbn [app].
  apply scanstring_u. apply hex4val_hex4. exact Hc.
Qed.

Lemma scan_escape_char (c : N) (t : str) :
  (c < 1114112)%N ->
  (is_high c = true -> no_low_ahead t) ->
  scanstring (escape_char c ++ t) = pmap (cons c) (scanstring t).
Proof.
  intros Hc Hhigh. unfold escape_char.
  repeat match goal with
         | |- context [if (c =? ?k)%N then _ else _] =>
             destruct (N.eqb_spec c k) as [->|?]; [reflexivity|]
         end.
  destruct ((32 <=? c)%N && (c <=? 126)%N) eqn:Hp.
  - apply andb_prop in Hp; destruct Hp as [Hlo _]. apply N.leb_le in Hlo.
    cbn [app scanstring].
    rewrite (proj2 (N.eqb_neq c dquote)) by assumption.
    rewrite (proj2 (N.eqb_neq c backslash)) by assumption.
    rewrite (proj2 (N.ltb_ge c 32)) by exact Hlo.
    reflexivity.
  - destruct (N.ltb_spec c 65536) as [Hs|Hs].
    + rewrite scanstring_uescape by exact Hs.
      destruct (is_high c) eqn:Eh; [|reflexivity].
      apply lookahead_none; auto.
    + fold (high_half c) (low_half c).
      assert (Hr : (65536 <= c < 1114112)%N) by lia.
      destruct (halves_range c Hr) as (H1 & H2 & H3 & H4).
      rewrite <- app_assoc, scanstring_uescape, H3 by exact H1.
      unfold uescape at 1, hex4. cbn [app].
      rewrite (lookahead_pair (high_half c) (low_half c));
        [ | apply hex4val_hex4; exact H2 | exact H4].
      rewrite join_halves by exact Hr. reflexivity.
Qed.

Lemma is_high_not_low (c : N) : is_high c = true -> is_low c = false.
Proof.
  unfold is_high, is_low; intros H.
  apply andb_prop in H; destruct H as [_ H]; apply N.leb_le in H.
  apply andb_false_intro1. apply N.leb_gt. lia.
Qed.

(** The escape of a character that is not a low surrogate does not start
    like the escape of one. *)
Lemma escape_char_ahead (d : N) (t : str) :
  (d < 1114112)%N ->
  is_low d = false ->
  no_low_ahead (escape_char d ++ t).
Proof.
  intros Hd Hl. unfold escape_char.
  repeat match goal with
         | |- context [if (d =? ?k)%N then _ else _] =>
             destruct (N.eqb_spec d k) as [->|?];
             [intros l1 l2 l3 l4 r3 H; discriminate H|]
         end.
  destruct ((32 <=? d)%N && (d <=? 126)%N) eqn:Hp.
  - intros l1 l2 l3 l4 r3 H. cbn [app] in H.
    injection H as H _; contradiction.
  - destruct (N.ltb_spec d 65536) as [Hs|Hs].
    + intros l1 l2 l3 l4 r3 H. unfold uescape, hex4 in H. cbn [app] in H.
      injection H as <- <- <- <- _.
      exists d; split; [apply hex4val_hex4; exact Hs | exact Hl].
    + fold (high_half d) (low_half d).
      assert (Hr : (65536 <= d < 1114112)%N) by lia.
      destruct (halves_range d Hr) as (H1 & H2 & H3 & H4).
      intros l1 l2 l3 l4 r3 H. unfold uescape at 1, hex4 in H. cbn [app] in H.
      injection H as <- <- <- <- _.
      exists (high_half d); split;
        [apply hex4val_hex4; exact H1 | apply is_high_not_low; exact H3].
Qed.

Lemma escape_body_ahead (s rest : str) :
  carried s = true ->
  match s with d :: _ => is_low d = false | [] => True end ->
  no_low_ahead (escape_body s ++ dquote :: rest).
Proof.
  destruct s as [|d s]; intros Hc Hl.
  - intros l1 l2 l3 l4 r3 H. discriminate H.
  - cbn [carried] in Hc.
    apply andb_prop in Hc; destruct Hc as [Hc _].
    apply andb_prop in Hc; destruct Hc as [Hd _]. apply N.ltb_lt in Hd.
    unfold escape_body. cbn [flat_map]. rewrite <- app_assoc.
    apply escape_char_ahead; assumption.
Qed.

(** [scanstring] reads back the body [dumps] wrote. *)
Lemma scanstring_escape_body (s rest : str) :
  carried s = true ->
  scanstring (escape_body s ++ dquote :: rest) = Got s rest.
Proof.
  induction s as [|c s IH]; intros Hc; [reflexivity|].
  pose proof Hc as Hc'.
  cbn [carried] in Hc.
  apply andb_prop in Hc; destruct Hc as [Hc Hs].
  apply andb_prop in Hc; destruct Hc as [Hlt Hpair]. apply N.ltb_lt in Hlt.
  unfold escape_body. cbn [flat_map]. rewrite <- app_assoc.
  fold (escape_body s).
  rewrite scan_escape_char.
  - rewrite IH by exact Hs. reflexivity.
  - exact Hlt.
  - intros Hh. rewrite Hh in Hpair. cbn [andb] in Hpair.
    apply escape_body_ahead; [exact Hs|].
    destruct s as [|d s]; [exact I|].
    apply negb_true_iff in Hpair. exact Hpair.
Qed.

Lemma scan_once_dump_str (fuel : nat) (s rest : str) :
  carried s = true ->
  scan_once (S fuel) (dump_str s ++ rest) = Got (VStr s) rest.
Proof.
  intros Hc. unfold dump_str. cbn [app scan_once].
  rewrite N.eqb_refl. rewrite <- app_assoc. cbn [app].
  rewrite scanstring_escape_body by exact Hc. reflexivity.
Qed.

(** Texts in the shape the scanner meets them: a flat list of characters
    and escaped bodies. *)
Ltac flat :=
  unfold run_request_text, input_event_text, object_text, dump_str;
  cbn [fst snd];
  repeat match goal with
         | |- context [lit ?s] =>
             let v := eval vm_compute in (lit s) in change (lit s) with v
         end;
  cbn [app]; repeat (rewrite <- app_assoc; cbn [app]).

Lemma scan_string (fuel : nat) (s rest : str) :
  (1 <= fuel)%nat ->
  carried s = true ->
  scan_once fuel (34%N :: escape_body s ++ 34%N :: rest) = Got (VStr s) rest.
Proof.
  intros Hf Hs. destruct fuel as [|fuel]; [lia|].
  cbn [scan_once N.eqb Pos.eqb].
  rewrite scanstring_escape_body by exact Hs. reflexivity.
Qed.

Lemma object_items_step (fuel : nat) (k t : str) :
  carried k = true ->
  object_items (S fuel) (34%N :: escape_body k ++ 34%N :: 58%N :: 32%N :: t)
  = match scan_once fuel (skip_ws t) with
    | Got v r3 =>
        match skip_ws r3 with
        | c :: r4 =>
            if (c =? 125)%N then Got [(k, v)] r4
            else if (c =? 44)%N
            then pmap (cons (k, v)) (object_items fuel (skip_ws r4))
            else Bad JSONDecodeError
        | [] => Bad JSONDecodeError
        end
    | Bad e => Bad e
    | Starved => Starved
    end.
Proof.
  intros Hk. cbn [object_items N.eqb Pos.eqb].
  rewrite scanstring_escape_body by exact Hk. reflexivity.
Qed.

Lemma array_items_step (fuel : nat) (s : str) :
  array_items (S fuel) s
  = match scan_once fuel s with
    | Got v r1 =>
        match skip_ws r1 with
        | c :: r2 =>
            if (c =? 93)%N then Got [v] r2
            else if (c =? 44)%N then pmap (cons v) (array_items fuel (skip_ws r2))
            else Bad JSONDecodeError
        | [] => Bad JSONDecodeError
        end
    | Bad e => Bad e
    | Starved => Starved
    end.
Proof. reflexivity. Qed.

Lemma scan_array (fuel : nat) (t : str) :
  startswith (lit "]") (skip_ws t) = false ->
  scan_once (S fuel) (91%N :: t) = pmap VList (array_items fuel (skip_ws t)).
Proof. intros H. cbn [scan_once N.eqb Pos.eqb]. rewrite H. reflexivity. Qed.

Lemma scan_object (fuel : nat) (t : str) :
  startswith (lit "}") (skip_ws t) = false ->
  scan_once (S fuel) (123%N :: t)
  = pmap (fun l => VDict (dict_of_pairs l)) (object_items fuel (skip_ws t)).
Proof. intros H. cbn [scan_once N.eqb Pos.eqb]. rewrite H. reflexivity. Qed.

Ltac skip := cbn [skip_ws is_ws N.eqb Pos.eqb orb startswith andb lit ord
                  N_of_ascii N_of_digits N.add N.mul Pos.add Pos.mul Pos.succ].

Lemma scan_object_text (fuel : nat) (e : str * str) (rest : str) :
  (4 <= fuel)%nat ->
  entry_carried e = true ->
  scan_once fuel (object_text e ++ rest) = Got (file_object e) rest.
Proof.
  intros Hf H. apply andb_prop in H. destruct H as [Hn Hc].
  destruct e as [n c]. cbn [fst snd] in *.
  destruct fuel as [|[|[|f]]]; try lia.
  flat.
  rewrite scan_object by reflexivity. skip.
  rewrite (object_items_step (S f) (lit "code")) by reflexivity. skip.
  rewrite scan_string by (lia || assumption). skip.
  cbn [pmap].
  rewrite (object_items_step f (lit "file_name")) by reflexivity. skip.
  rewrite scan_string by (lia || assumption). skip.
  reflexivity.
Qed.

Lemma object_text_head (e : str * str) :
  exists t : str, object_text e = 123%N :: t.
Proof. unfold object_text. cbn [lit app]. eexists; reflexivity. Qed.

Lemma objects_text_head (e : str * str) (fs : list (str * str)) :
  exists t : str, objects_text (e :: fs) = 123%N :: t.
Proof.
  destruct (object_text_head e) as [t Ht].
  destruct fs as [|e' fs]; cbn [objects_text]; rewrite Ht;
    eexists; reflexivity.
Qed.

Lemma skip_ws_objects_text (e : str * str) (fs : list (str * str)) (rest : str) :
  skip_ws (objects_text (e :: fs) ++ rest) = objects_text (e :: fs) ++ rest.
Proof.
  destruct (objects_text_head e fs) as [t Ht]. rewrite Ht. reflexivity.
Qed.

Lemma objects_text_open (e : str * str) (fs : list (str * str)) (rest : str) :
  startswith (lit "]") (objects_text (e :: fs) ++ rest) = false.
Proof.
  destruct (objects_text_head e fs) as [t Ht]. rewrite Ht. reflexivity.
Qed.

(** The file objects of a non-empty dict, before the closing bracket. *)
Lemma scan_objects_text (fs : list (str * str)) :
  forall (e : str * str) (fuel : nat) (rest : str),
    (List.length fs + 5 <= fuel)%nat ->
    forallb entry_carried (e :: fs) = true ->
    array_items fuel (objects_text (e :: fs) ++ 93%N :: rest)
    = Got (map file_object (e :: fs)) rest.
Proof.
  induction fs as [|e' fs IH]; intros e fuel rest Hf H;
    cbn [forallb] in H; apply andb_prop in H; destruct H as [He Hfs];
    (destruct fuel as [|fuel]; [lia|]); cbn [List.length] in Hf;
    rewrite array_items_step.
  - cbn [objects_text map].
    rewrite scan_object_text by (lia || assumption). reflexivity.
  - change (objects_text (e :: e' :: fs))
      with (object_text e ++ lit ", " ++ objects_text (e' :: fs)).
    rewrite <- !app_assoc.
    rewrite scan_object_text by (lia || assumption).
    change (lit ", ") with [44%N; 32%N]. cbn [app]. skip.
    rewrite skip_ws_objects_text.
    rewrite (IH e' fuel rest) by (lia || assumption). reflexivity.
Qed.

Lemma objects_text_length (fs : list (str * str)) :
  (List.length fs <= List.length (objects_text fs))%nat.
Proof.
  induction fs as [|e fs IH]; [apply le_n|].
  destruct (object_text_head e) as [t Ht].
  destruct fs as [|e' fs].
  - cbn [objects_text]. rewrite Ht. cbn. lia.
  - change (objects_text (e :: e' :: fs))
      with (object_text e ++ lit ", " ++ objects_text (e' :: fs)).
    rewrite Ht, !length_app. cbn [List.length] in *. lia.
Qed.

(** [scan_once] reads back the text of a run request. *)
Lemma scan_run_request_text (e : str * str) (fs : list (str * str))
      (args : list str) (entry : str) (fuel : nat) :
  (List.length fs + 9 <= fuel)%nat ->
  forallb entry_carried (e :: fs) = true ->
  carried (join (lit " ") args) = true ->
  carried entry = true ->
  scan_once fuel (run_request_text (e :: fs) args entry)
  = Got (run_request (e :: fs) args entry) [].
Proof.
  intros Hf Hfs Hj He.
  destruct fuel as [|[|[|[|f]]]]; try lia.
  unfold run_request_text, run_request.
  remember (objects_text (e :: fs)) as objs eqn:Hobjs.
  remember (join (lit " ") args) as joined eqn:Hjoined.
  flat.
  rewrite scan_array by reflexivity. skip.
  rewrite array_items_step.
  rewrite (scan_string _ (lit "code")) by (lia || reflexivity). skip.
  rewrite array_items_step.
  rewrite scan_array by (subst objs; rewrite skip_ws_objects_text;
                          apply objects_text_open).
  subst objs. rewrite skip_ws_objects_text.
  rewrite scan_objects_text by (lia || assumption).
  cbn [pmap]. skip.
  rewrite array_items_step.
  rewrite scan_string by (lia || assumption). skip.
  destruct f as [|f]; [lia|].
  rewrite array_items_step.
  rewrite scan_string by (lia || assumption). skip.
  reflexivity.
Qed.

Lemma run_request_text_length (fs : list (str * str)) (args : list str)
      (entry : str) :
  (List.length fs + 9 <= List.length (run_request_text fs args entry))%nat.
Proof.
  unfold run_request_text, dump_str.
  pose proof (objects_text_length fs).
  rewrite !length_app. cbn [List.length lit]. rewrite !length_app. cbn. lia.
Qed.

(** [loads] reads back what [dumps] wrote for a run request. *)
Lemma loads_run_request_text (e : str * str) (fs : list (str * str))
      (args : list str) (entry : str) :
  forallb entry_carried (e :: fs) = true ->
  carried (join (lit " ") args) = true ->
  carried entry = true ->
  loads (run_request_text (e :: fs) args entry)
  = Ok (run_request (e :: fs) args entry).
Proof.
  intros Hfs Hj He. unfold loads.
  assert (Hskip : skip_ws (run_request_text (e :: fs) args entry)
                  = run_request_text (e :: fs) args entry) by reflexivity.
  rewrite Hskip.
  rewrite scan_run_request_text; try assumption.
  - reflexivity.
  - unfold loads_fuel.
    pose proof (run_request_text_length (e :: fs) args entry) as H.
    cbn [List.length] in H. lia.
Qed.

Lemma carried_app (a b : str) (x : N) :
  carried a = true -> carried (x :: b) = true -> is_low x = false ->
  carried (a ++ x :: b) = true.
Proof.
  intros Ha Hb Hx. induction a as [|c a IH]; [exact Hb|].
  cbn [carried app] in Ha |- *.
  apply andb_prop in Ha; destruct Ha as [Ha Hr].
  apply andb_prop in Ha; destruct Ha as [Hc Hp].
  rewrite Hc, (IH Hr). cbn [andb]. rewrite andb_true_r.
  destruct a as [|d a]; cbn [app].
  - rewrite Hx, andb_false_r. reflexivity.
  - exact Hp.
Qed.

Lemma carried_join (args : list str) :
  forallb carried args = true -> carried (join (lit " ") args) = true.
Proof.
  induction args as [|a args IH]; [reflexivity|].
  cbn [forallb]. intros H. apply andb_prop in H. destruct H as [Ha Hr].
  destruct args as [|b args]; [exact Ha|].
  change (join (lit " ") (a :: b :: args))
    with (a ++ 32%N :: join (lit " ") (b :: args)).
  apply carried_app; [exact Ha | | reflexivity].
  cbn [carried]. rewrite (IH Hr). reflexivity.
Qed.

(** C6. The run request of a client with at least one file is sent as the
    message [42] followed by the JSON text of ["code", the file objects
    {code, file_name} in the order of the files, the arguments joined by a
    space, the name of the first file]; decoding that message the way a
    42-message is decoded (the text after the prefix, through [loads]) gives
    back the event "code" with the list of file objects as its first
    argument, provided the texts hold code points below 0x110000 and no
    high surrogate directly followed by a low one.  For the files
    {"a.py": "print(1)"} and no arguments the message is written out. *)
Theorem run_request_roundtrip (w : world) (e : str * str)
        (fs : list (str * str)) :
  files (self w) = e :: fs ->
  forallb entry_carried (e :: fs) = true ->
  forallb carried (cli_args (self w)) = true ->
  let request :=
    VList [VStr (lit "code"); VList (map file_object (e :: fs));
           VStr (join (lit " ") (cli_args (self w))); VStr (fst e)] in
  (exists text : str,
      Json.dumps request = Some text
      /\ fst (send_files_and_run w) = Return tt
      /\ sent (trace (snd (send_files_and_run w)))
         = sent (trace w) ++ [lit "42" ++ text]
      /\ firstn 2 (lit "42" ++ text) = lit "42"
      /\ Json.loads (skipn 2 (lit "42" ++ text)) = Ok request)
  /\ (let w1 := mkWorld (__init__ [(lit "a.py", lit "print(1)")] (Some [])) [] in
      let m := wire "42['code', [{'code': 'print(1)', 'file_name': 'a.py'}], '', 'a.py']" in
      sent (trace (snd (send_files_and_run w1))) = [m]
      /\ Json.loads (skipn 2 m)
         = Ok (VList [VStr (lit "code");
                      VList [VDict [(lit "code", VStr (lit "print(1)"));
                                    (lit "file_name", VStr (lit "a.py"))]];
                      VStr []; VStr (lit "a.py")])).
Proof.
  intros Hf Hfs Hargs request. split.
  - exists (run_request_text (e :: fs) (cli_args (self w)) (fst e)).
    split; [apply dumps_run_request|].
    rewrite (send_files_and_run_sends w e fs Hf).
    cbn [fst snd trace]. rewrite sent_app.
    split; [reflexivity | split; [reflexivity | split; [reflexivity|]]].
    cbn [lit app skipn].
    apply loads_run_request_text.
    + exact Hfs.
    + apply carried_join; exact Hargs.
    + cbn [forallb] in Hfs. apply andb_prop in Hfs. destruct Hfs as [He _].
      unfold entry_carried in He. apply andb_prop in He. tauto.
  - split; vm_compute; reflexivity.
Qed.

Lemma run_request_roundtrip_witness :
  let w := mkWorld (mkClient INITIALIZED
                      [(lit "main.py", lit "import util"); (lit "util.py", [233%N; 128169%N])]
                      [lit "-v"; lit "x y"] None) [] in
  forallb entry_carried (files (self w)) = true
  /\ forallb carried (cli_args (self w)) = true
  /\ exists text : str,
       sent (trace (snd (send_files_and_run w))) = [lit "42" ++ text]
       /\ Json.loads text
          = Ok (VList [VStr (lit "code");
                       VList (map file_object (files (self w)));
                       VStr (lit "-v x y"); VStr (lit "main.py")]).
Proof.
  intros w.
  assert (H1 : forallb entry_carried (files (self w)) = true) by reflexivity.
  assert (H2 : forallb carried (cli_args (self w)) = true) by reflexivity.
  split; [exact H1 | split; [exact H2|]].
  destruct (proj1 (run_request_roundtrip w (lit "main.py", lit "import util")
                     [(lit "util.py", [233%N; 128169%N])] eq_refl H1 H2))
    as (text & _ & _ & Hs & _ & Hl).
  exists text. split; [exact Hs | exact Hl].
Defined.


(** *** [loads] is total *)

Lemma skip_ws_length (s : str) : (List.length (skip_ws s) <= List.length s)%nat.
Proof.
  induction s as [|c s IH]; [apply le_n|].
  cbn [skip_ws]. destruct (is_ws c); cbn [List.length]; lia.
Qed.

Lemma pmap_got {A B} (f : A -> B) (r : pres A) (b : B) (rest : str) :
  pmap f r = Got b rest -> exists a, r = Got a rest /\ b = f a.
Proof. destruct r; cbn; intros H; inversion H; eauto. Qed.

Lemma scanstring_length_aux (n : nat) :
  forall (s t r : str),
    (List.length s <= n)%nat ->
    scanstring s = Got t r -> (List.length r < List.length s)%nat.
Proof.
  induction n as [|n IH]; intros s t r Hn H.
  - destruct s; [discriminate H | cbn in Hn; lia].
  - destruct s as [|c s]; [discriminate H|].
    cbn [scanstring] in H. cbn [List.length] in Hn.
    repeat (break_in H; try discriminate H).
    all: try (inversion H; subst; cbn [List.length]; lia).
    all: apply pmap_got in H; destruct H as (a & H & _);
      apply IH in H; cbn [List.length] in *; lia.
Qed.

Lemma scanstring_length (s t r : str) :
  scanstring s = Got t r -> (List.length r < List.length s)%nat.
Proof. apply (scanstring_length_aux (List.length s)). apply le_n. Qed.

Lemma span_digits_length (s d r : str) :
  span_digits s = (d, r) -> (List.length r <= List.length s)%nat.
Proof.
  revert d r. induction s as [|c s IH]; intros d r H; cbn [span_digits] in H.
  - inversion H; apply le_n.
  - destruct (is_digit c).
    + destruct (span_digits s) as [d' r'] eqn:E. inversion H; subst.
      specialize (IH _ _ eq_refl). cbn [List.length]. lia.
    + inversion H; subst. apply le_n.
Qed.

Lemma scan_intpart_length (s ip r : str) :
  scan_intpart s = Some (ip, r) -> (List.length r < List.length s)%nat.
Proof.
  destruct s as [|c s]; cbn [scan_intpart]; [discriminate|].
  destruct (c =? 48)%N.
  - intros H; inversion H; subst. cbn [List.length]. lia.
  - destruct (is_digit c); [|discriminate].
    destruct (span_digits s) as [d r'] eqn:E. intros H; inversion H; subst.
    apply span_digits_length in E. cbn [List.length]. lia.
Qed.

Lemma scan_frac_length (s fr r : str) :
  scan_frac s = (fr, r) -> (List.length r <= List.length s)%nat.
Proof.
  unfold scan_frac. intros H.
  repeat (break_in H; try discriminate H).
  all: inversion H; subst; try apply le_n.
  all: match goal with
       | E : span_digits _ = _ |- _ => apply span_digits_length in E
       end; cbn [List.length] in *; lia.
Qed.

Lemma scan_exp_length (s ex r : str) :
  scan_exp s = (ex, r) -> (List.length r <= List.length s)%nat.
Proof.
  unfold scan_exp. intros H.
  repeat (break_in H; try discriminate H).
  all: inversion H; subst; try apply le_n.
  all: try (match goal with
            | E : span_digits _ = _ |- _ => apply span_digits_length in E
            end; cbn [List.length] in *; lia).
  all: cbn [List.length]; lia.
Qed.

Lemma scan_number_length (s : str) (v : pyval) (r : str) :
  scan_number s = Some (Got v r) -> (List.length r < List.length s)%nat.
Proof.
  unfold scan_number. intros H.
  repeat (break_in H; try discriminate H).
  all: inversion H; subst; clear H.
  all: repeat match goal with
         | E : scan_intpart _ = Some _ |- _ => apply scan_intpart_length in E
         | E : scan_frac _ = _ |- _ => apply scan_frac_length in E
         | E : scan_exp _ = _ |- _ => apply scan_exp_length in E
         end.
  all: cbn [List.length] in *; lia.
Qed.

Lemma scanstring_fed_aux (n : nat) :
  forall s : str, (List.length s <= n)%nat -> scanstring s <> Starved.
Proof.
  induction n as [|n IH]; intros s Hn.
  - destruct s; [discriminate | cbn in Hn; lia].
  - destruct s as [|c s]; [discriminate|].
    cbn [scanstring]. cbn [List.length] in Hn.
    assert (Hp : forall (x : N) (u : str),
               (List.length u <= n)%nat -> pmap (cons x) (scanstring u) <> Starved).
    { intros x u Hu. specialize (IH u Hu).
      destruct (scanstring u); [discriminate | discriminate | contradiction]. }
    repeat match goal with
           | |- context [match ?x with _ => _ end] =>
               lazymatch x with
               | context [match _ with _ => _ end] => fail
               | _ => destruct x eqn:?
               end
           end.
    all: try discriminate.
    all: apply Hp; subst; cbn [List.length] in *; lia.
Qed.

Lemma scanstring_fed (s : str) : scanstring s <> Starved.
Proof. apply (scanstring_fed_aux (List.length s)). apply le_n. Qed.

Lemma scan_number_fed (s : str) (res : pres pyval) :
  scan_number s = Some res -> res <> Starved.
Proof.
  unfold scan_number. intros H.
  repeat (break_in H; try discriminate H).
  all: inversion H; discriminate.
Qed.

Lemma fed_bad {A} (s : str) (e : exn) : fed s (@Bad A e).
Proof. split; [discriminate | intros a r H; discriminate H]. Qed.

Lemma fed_got {A} (s r : str) (a : A) :
  (List.length r < List.length s)%nat -> fed s (Got a r).
Proof.
  intros H; split; [discriminate|]. intros a' r' E; inversion E; subst; exact H.
Qed.

Lemma fed_pmap {A B} (f : A -> B) (s s' : str) (res : pres A) :
  fed s' res -> (List.length s' <= List.length s)%nat -> fed s (pmap f res).
Proof.
  intros [H1 H2] Hl. destruct res as [a r| |]; cbn [pmap].
  - apply fed_got. specialize (H2 a r eq_refl). lia.
  - apply fed_bad.
  - contradiction.
Qed.

Lemma fed_scanstring (s : str) : fed s (scanstring s).
Proof.
  split; [apply scanstring_fed|]. intros t r H.
  apply scanstring_length in H. exact H.
Qed.

Lemma fed_constant (k : nat) (c : N) (r : str) (v : pyval) :
  fed (c :: r) (Got v (skipn (S k) (c :: r))).
Proof.
  apply fed_got. cbn [skipn List.length].
  rewrite length_skipn. lia.
Qed.

(** With the budget of [loads_fuel] neither [scan_once] nor its loops
    starve. *)
Lemma scan_fed (fuel : nat) :
  (forall s, (2 * List.length s + 1 <= fuel)%nat -> fed s (scan_once fuel s))
  /\ (forall s, (2 * List.length s + 2 <= fuel)%nat ->
                fed s (array_items fuel s))
  /\ (forall s, (2 * List.length s + 2 <= fuel)%nat ->
                fed s (object_items fuel s)).
Proof.
  induction fuel as [|fuel (IHv & IHa & IHo)].
  - repeat split; intros; lia.
  - split; [|split]; intros s Hf.
    + destruct s as [|c r]; [apply fed_bad|].
      cbn [List.length] in Hf. cbn [scan_once].
      pose proof (skip_ws_length r) as Hws.
      repeat match goal with
             | |- context [if ?b then _ else _] => destruct b eqn:?
             end.
      all: try apply (fed_constant _ c r).
      * apply (fed_pmap VStr _ r); [apply fed_scanstring | cbn; lia].
      * apply fed_got. rewrite length_skipn. cbn [List.length]. lia.
      * apply (fed_pmap _ _ (skip_ws r)); [apply IHo; lia | cbn; lia].
      * apply fed_got. rewrite length_skipn. cbn [List.length]. lia.
      * apply (fed_pmap _ _ (skip_ws r)); [apply IHa; lia | cbn; lia].
      * destruct (scan_number (c :: r)) as [res|] eqn:E; [|apply fed_bad].
        split; [apply (scan_number_fed _ _ E)|].
        intros a r0 ->. apply (scan_number_length _ _ _ E).
    + rewrite array_items_step.
      destruct (IHv s ltac:(lia)) as [Hv1 Hv2].
      destruct (scan_once fuel s) as [v r1| |]; [|apply fed_bad|contradiction].
      specialize (Hv2 v r1 eq_refl).
      pose proof (skip_ws_length r1) as Hws.
      destruct (skip_ws r1) as [|c r2] eqn:E; [apply fed_bad|].
      cbn [List.length] in Hws.
      destruct (c =? 93)%N; [apply fed_got; lia|].
      destruct (c =? 44)%N; [|apply fed_bad].
      pose proof (skip_ws_length r2) as Hws2.
      apply (fed_pmap _ _ (skip_ws r2)); [apply IHa; lia | lia].
    + destruct s as [|q r]; [apply fed_bad|].
      cbn [object_items]. cbn [List.length] in Hf.
      destruct (q =? 34)%N; [|apply fed_bad].
      destruct (fed_scanstring r) as [Hs1 Hs2].
      destruct (scanstring r) as [k r1| |]; [|apply fed_bad|contradiction].
      specialize (Hs2 k r1 eq_refl).
      pose proof (skip_ws_length r1) as Hws1.
      destruct (skip_ws r1) as [|col r2] eqn:E1; [apply fed_bad|].
      cbn [List.length] in Hws1.
      destruct (col =? 58)%N; [|apply fed_bad].
      pose proof (skip_ws_length r2) as Hws2.
      destruct (IHv (skip_ws r2) ltac:(lia)) as [Hv1 Hv2].
      destruct (scan_once fuel (skip_ws r2)) as [v r3| |];
        [|apply fed_bad|contradiction].
      specialize (Hv2 v r3 eq_refl).
      pose proof (skip_ws_length r3) as Hws3.
      destruct (skip_ws r3) as [|c r4] eqn:E3; [apply fed_bad|].
      cbn [List.length] in Hws3 |- *.
      destruct (c =? 125)%N; [apply fed_got; cbn [List.length]; lia|].
      destruct (c =? 44)%N; [|apply fed_bad].
      pose proof (skip_ws_length r4) as Hws4.
      apply (fed_pmap _ _ (skip_ws r4)); [apply IHo; lia | cbn [List.length]; lia].
Qed.

(** [loads] is total: it returns a value or raises, for every text. *)
Lemma loads_total (s : str) : loads s <> NotModelled.
Proof.
  unfold loads.
  pose proof (skip_ws_length s) as Hws.
  destruct (proj1 (scan_fed (loads_fuel s)) (skip_ws s)) as [H _].
  { unfold loads_fuel. lia. }
  destruct (scan_once (loads_fuel s) (skip_ws s)) as [v rest| |];
    [destruct (skip_ws rest) | | contradiction]; discriminate.
Qed.

(** *** Which 45- and 42-prefixed messages are decoded (lines 122-154) *)

Lemma event_malformed (w : world) (body : str) (e : exn) :
  _state (self w) = RUNNING ->
  Json.loads body = Err e ->
  rejected (Text (lit "42" ++ body)) (PyErr e) w.
Proof.
  intros Hst Hbody. unfold rejected.
  destruct w as [[st fs cargs k0] tr]; cbn in Hst; subst st.
  run. rewrite Hbody. reflexivity.
Qed.

Lemma event_decode_failed (w : world) (body : str) (data : pyval) (e : error) :
  _state (self w) = RUNNING ->
  Json.loads body = Ok data ->
  decode_event data = Failure e ->
  rejected (Text (lit "42" ++ body)) e w.
Proof.
  intros Hst Hbody Hd. unfold rejected.
  destruct w as [[st fs cargs k0] tr]; cbn in Hst; subst st.
  run. rewrite Hbody. cbn.
  destruct data as [| | | |s|l|d]; cbn in Hd; try (inversion Hd; reflexivity).
  - destruct s as [|a [|b [|c [|x s]]]]; inversion Hd; subst; try reflexivity.
    cbn. rewrite andb_false_r. reflexivity.
  - destruct l as [|a [|b [|c [|x l]]]]; try (inversion Hd; reflexivity).
    cbn in Hd |- *. destruct (eq_str a _); [discriminate Hd|].
    inversion Hd. reflexivity.
  - destruct d as [|[a va] [|[b vb] [|[c vc] [|x d]]]];
      try (inversion Hd; reflexivity).
    cbn in Hd |- *. destruct (str_eqb a _); [discriminate Hd|].
    inversion Hd. reflexivity.
Qed.

Lemma exit_event_decoded (data string number : pyval) :
  decode_event data = ExitEvent string number ->
  exists method : pyval,
    unpack3 data = Ok (method, string, number)
    /\ eq_str method (lit "exit") = true.
Proof.
  intros Hd.
  destruct data as [| | | |s|l|d]; cbn in Hd; try discriminate Hd.
  - destruct s as [|a [|b [|c [|x s]]]]; discriminate Hd.
  - destruct l as [|a [|b [|c [|x l]]]]; try discriminate Hd.
    cbn in Hd. destruct (eq_str a _) eqn:E; [|discriminate Hd].
    inversion Hd; subst. exists a. split; [reflexivity | exact E].
  - destruct d as [|[a va] [|[b vb] [|[c vc] [|x d]]]]; try discriminate Hd.
    cbn in Hd. destruct (str_eqb a _) eqn:E; [|discriminate Hd].
    inversion Hd; subst. exists (VStr a). split; [reflexivity | exact E].
Qed.

Lemma exit_membership_failed (w : world) (body : str)
      (data string number : pyval) (e : exn) :
  _state (self w) = RUNNING ->
  Json.loads body = Ok data ->
  decode_event data = ExitEvent string number ->
  str_in (lit "Process exited") string = Err e ->
  rejected (Text (lit "42" ++ body)) (PyErr e) w.
Proof.
  intros Hst Hbody Hd Hin. unfold rejected.
  destruct (exit_event_decoded _ _ _ Hd) as (method & Hu & Hm).
  destruct w as [[st fs cargs k0] tr]; cbn in Hst; subst st.
  run. rewrite Hbody. cbn -[unpack3 eq_str str_in]. rewrite Hu.
  cbn -[eq_str str_in]. cbn -[eq_str] in Hm. rewrite Hm.
  cbn -[str_in]. cbn -[str_in] in Hin. rewrite Hin. reflexivity.
Qed.

Lemma exit_event_handled (w : world) (body : str)
      (data string number : pyval) (b : bool) :
  _state (self w) = RUNNING ->
  Json.loads body = Ok data ->
  decode_event data = ExitEvent string number ->
  str_in (lit "Process exited") string = Ok b ->
  snd (handle_message (Text (lit "42" ++ body)) w)
  = {| self := self w;
       trace := trace w
                ++ [Log DEBUG (LogReceiving (Text (lit "42" ++ body)));
                    Log (if b then INFO else CRITICAL) (LogExiting string)] |}
  /\ forall o : outcome unit,
       exit_outcome number = Some o ->
       fst (handle_message (Text (lit "42" ++ body)) w) = o.
Proof.
  intros Hst Hbody Hd Hin.
  destruct (exit_event_decoded _ _ _ Hd) as (method & Hu & Hm).
  destruct w as [[st fs cargs k0] tr]; cbn in Hst; subst st.
  run. rewrite Hbody. cbn -[unpack3 eq_str str_in]. rewrite Hu.
  cbn -[eq_str str_in]. cbn -[eq_str] in Hm. rewrite Hm.
  cbn -[str_in]. cbn -[str_in] in Hin. rewrite Hin.
  cbn -[Z.modulo].
  destruct number as [|c|z| | | |]; cbn -[Z.modulo];
    rewrite <- ?app_assoc.
  all: split; [try reflexivity | intros o Ho; cbn -[Z.modulo] in Ho;
                                 inversion Ho; try reflexivity].
  all: try (destruct c; reflexivity).
  all: destruct ((- 2147483648 <=? z) && (z <=? 2147483647))%Z; reflexivity.
Qed.

Lemma header_returns_or_rejected (w : world) (body : str) :
  _state (self w) = RUNNING ->
  fst (handle_message (Text (lit "451-" ++ body)) w) = Return tt
  \/ exists e : error, rejected (Text (lit "451-" ++ body)) e w.
Proof.
  intros Hst. unfold rejected.
  pose proof (loads_total body) as Ht.
  destruct w as [[st fs cargs k0] tr]; cbn in Hst; subst st.
  run.
  destruct (loads body) as [data|e|]; [|right; eexists; reflexivity
                                       |contradiction Ht; reflexivity].
  cbn.
  destruct (getitem0 data) as [data0|e|] eqn:Hg; cbn.
  - destruct (eq_str data0 _); [left; reflexivity|].
    destruct (eq_str data0 _); [left; reflexivity|].
    destruct (eq_str data0 _); [left; reflexivity|].
    right; eexists; reflexivity.
  - right; eexists; reflexivity.
  - destruct data as [| | | |[|c s]|[|x l]|d]; discriminate Hg.
Qed.

Lemma event_rejected_or_exit (w : world) (body : str) :
  _state (self w) = RUNNING ->
  (exists e : error, rejected (Text (lit "42" ++ body)) e w)
  \/ exists data string number : pyval,
       Json.loads body = Ok data
       /\ decode_event data = ExitEvent string number.
Proof.
  intros Hst. pose proof (loads_total body) as Ht.
  destruct (loads body) as [data|e|] eqn:Hbody;
    [|left; exists (PyErr e); apply event_malformed; assumption
     |contradiction Ht; reflexivity].
  destruct (decode_event data) as [e|string number] eqn:Hd.
  - left. exists e. apply (event_decode_failed w body data); assumption.
  - right. exists data, string, number. split; [reflexivity | exact Hd].
Qed.

(** C8 (as amended). In state RUNNING, for a 45-prefixed message: one that
    does not start with [451-] raises [AssertionError]; a message [451-]
    followed by a body returns exactly when the body is a well-formed JSON
    array of one or more elements whose first element is "output", "err" or
    "input", and raises otherwise.  For a message [42] followed by a body,
    decoding fails, and the call raises, exactly as follows: the decoder's
    error when the body is not well-formed JSON; [TypeError] when its value
    is a number, a boolean or null; [ValueError] when it is an array, a
    string or an object that does not hold exactly three elements;
    [NotImplementedError] when the first of the three is not "exit".  Every
    other body, an array of exactly three elements that starts with "exit"
    (or an object whose three keys do), is decoded without failure as the
    exit event: unless the test of its text raises, the exit record is
    written and the call ends as [os._exit] does on the number.  No
    42-prefixed message returns, and a call that raises while decoding
    leaves [self] as it was and only the debug record of the message. *)
Theorem event_decoding (w : world) :
  _state (self w) = RUNNING ->
  (forall s : str,
      firstn 2 s = lit "45" ->
      startswith (lit "451-") s = false ->
      rejected (Text s) (PyErr AssertionError) w)
  /\ (forall body : str,
         fst (handle_message (Text (lit "451-" ++ body)) w) = Return tt
         <-> exists (name : str) (args : list pyval) (k : OutputType),
               Json.loads body = Ok (VList (VStr name :: args))
               /\ kind_of_name name = Some k)
  /\ (forall body : str,
         fst (handle_message (Text (lit "451-" ++ body)) w) = Return tt
         \/ exists e : error, rejected (Text (lit "451-" ++ body)) e w)
  /\ (forall (body : str) (e : exn),
         Json.loads body = Err e ->
         rejected (Text (lit "42" ++ body)) (PyErr e) w)
  /\ (forall (body : str) (data : pyval) (e : error),
         Json.loads body = Ok data ->
         decode_event data = Failure e ->
         rejected (Text (lit "42" ++ body)) e w)
  /\ (forall (body : str) (data string number : pyval),
         Json.loads body = Ok data ->
         decode_event data = ExitEvent string number ->
         (forall e : exn,
             str_in (lit "Process exited") string = Err e ->
             rejected (Text (lit "42" ++ body)) (PyErr e) w)
         /\ (forall b : bool,
                str_in (lit "Process exited") string = Ok b ->
                snd (handle_message (Text (lit "42" ++ body)) w)
                = {| self := self w;
                     trace := trace w
                              ++ [Log DEBUG
                                    (LogReceiving (Text (lit "42" ++ body)));
                                  Log (if b then INFO else CRITICAL)
                                      (LogExiting string)] |}
                /\ forall o : outcome unit,
                     exit_outcome number = Some o ->
                     fst (handle_message (Text (lit "42" ++ body)) w) = o))
  /\ (forall body : str,
         (exists e : error, rejected (Text (lit "42" ++ body)) e w)
         \/ exists data string number : pyval,
              Json.loads body = Ok data
              /\ decode_event data = ExitEvent string number)
  /\ (forall (body : str) (l : list pyval),
         Json.loads body = Ok (VList l) ->
         List.length l <> 3%nat ->
         rejected (Text (lit "42" ++ body)) (PyErr ValueError) w)
  /\ (forall (body name : str) (a b : pyval),
         Json.loads body = Ok (VList [VStr name; a; b]) ->
         str_eqb name (lit "exit") = false ->
         rejected (Text (lit "42" ++ body))
                  (NotImplementedError (OfValue (VStr name))) w)
  /\ (forall body : str,
         fst (handle_message (Text (lit "42" ++ body)) w) <> Return tt).
Proof.
  intros Hst.
  repeat match goal with |- _ /\ _ => split end.
  - intros s Hp Hs. apply header_prefix_asserted; assumption.
  - intros body; split.
    + apply header_event_only; assumption.
    + intros (name & args & k & Hbody & Hk).
      rewrite (header_event_accepted w body name args k); auto.
  - intros body. apply header_returns_or_rejected; assumption.
  - intros body e Hbody. apply event_malformed; assumption.
  - intros body data e Hbody Hd.
    apply (event_decode_failed w body data); assumption.
  - intros body data string number Hbody Hd. split.
    + intros e Hin.
      apply (exit_membership_failed w body data string number); assumption.
    + intros b Hin.
      apply (exit_event_handled w body data string number); assumption.
  - intros body. apply event_rejected_or_exit; assumption.
  - intros body l Hbody Hlen. apply (event_wrong_length w body l); assumption.
  - intros body name a b Hbody Hname.
    apply (event_wrong_name w body name a b); assumption.
  - intros body. apply event_never_returns; assumption.
Qed.

Lemma event_decoding_witness :
  _state (self running_world) = RUNNING
  /\ rejected (Text (lit "42" ++ wire "['exit','bye']"))
              (PyErr ValueError) running_world
  /\ rejected (Text (lit "42" ++ wire "['exit'"))
              (PyErr JSONDecodeError) running_world.
Proof.
  split; [reflexivity|].
  destruct (event_decoding running_world eq_refl)
    as (_ & _ & _ & H4 & H5 & _).
  split.
  - apply (H5 (wire "['exit','bye']")
              (VList [VStr (lit "exit"); VStr (lit "bye")])).
    + vm_compute; reflexivity.
    + reflexivity.
  - apply (H4 (wire "['exit'")). vm_compute; reflexivity.
Defined.

(** C8 (as stated) fails: the body of [451-["output"]] is a JSON array of
    one element, not of two or more, and the message is decoded without
    failure; the body of [42["exit","bye"]] is a well-formed array of two
    elements with the expected name, and decoding fails. *)
Lemma one_element_header_accepted :
  Json.loads (wire "['output']") = Ok (VList [VStr (lit "output")])
  /\ fst (handle_message (Text (lit "451-" ++ wire "['output']")) running_world)
     = Return tt
  /\ Json.loads (wire "['exit','bye']")
     = Ok (VList [VStr (lit "exit"); VStr (lit "bye")])
  /\ fst (handle_message (Text (lit "42" ++ wire "['exit','bye']"))
                         running_world)
     = Raise (PyErr ValueError).
Proof. repeat split; vm_compute; reflexivity. Qed.


(** ** Further properties *)

(** *** Calls add to the trace (lines 50-181) *)

Lemma framed_ret {A} (a : A) : framed (ret a).
Proof. intros s t; cbn. rewrite app_nil_r. reflexivity. Qed.

Lemma framed_raise {A} (e : error) : framed (@raise A e).
Proof. intros s t; cbn. rewrite app_nil_r. reflexivity. Qed.

Lemma framed_lift {A} (r : result A) : framed (lift r).
Proof. intros s t; destruct r; cbn; rewrite app_nil_r; reflexivity. Qed.

Lemma framed_emit (e : effect) : framed (emit e).
Proof. intros s t; reflexivity. Qed.

Lemma framed_read {A} (f : client -> A) : framed (read f).
Proof. intros s t; cbn. rewrite app_nil_r. reflexivity. Qed.

Lemma framed_update (f : client -> client) : framed (update f).
Proof. intros s t; cbn. rewrite app_nil_r. reflexivity. Qed.

Lemma framed_exit {A} (z : Z) : framed (fun w => (@Exit A z, w)).
Proof. intros s t; cbn. rewrite app_nil_r. reflexivity. Qed.

Lemma framed_bind {A B} (m : M A) (k : A -> M B) :
  framed m -> (forall a, framed (k a)) -> framed (bind m k).
Proof.
  intros Hm Hk s t. unfold bind.
  rewrite (Hm s t).
  destruct (m (mkWorld s [])) as [o [s1 t1]]; cbn [fst snd self trace].
  destruct o as [a| | |]; cbn [fst snd self trace]; try reflexivity.
  rewrite (Hk a s1 (t ++ t1)), (Hk a s1 t1).
  cbn [fst snd self trace]. rewrite app_assoc. reflexivity.
Qed.

Ltac framed_step :=
  first
    [ apply framed_ret | apply framed_raise | apply framed_lift
    | apply framed_emit | apply framed_read | apply framed_update
    | apply framed_exit
    | apply framed_bind; [|intros ?]
    | match goal with
      | |- framed (match ?x with _ => _ end) => destruct x
      end ].

Ltac framed_tac :=
  unfold send_files_and_run, send_input, send_list, set_state,
    set_output_type, print, os__exit, assert;
  repeat framed_step.

Lemma framed_send_list (l : pyval) : framed (send_list l).
Proof. framed_tac. Qed.

Lemma framed_handle_message (m : message) : framed (handle_message m).
Proof. unfold handle_message. framed_tac. Qed.

Lemma framed_handle_next_user_input (data : bytes) :
  framed (handle_next_user_input data).
Proof. unfold handle_next_user_input. framed_tac. Qed.

Lemma framed_connect_open : framed connect_open.
Proof. unfold connect_open. framed_tac. Qed.

(** *** The state and the fields of a session (lines 34-53, 63-79) *)

Lemma states_logged_app (a b : list effect) :
  states_logged (a ++ b) = states_logged a ++ states_logged b.
Proof.
  induction a as [|e a IH]; [reflexivity|].
  destruct e as [lvl [s|m|l|m|s|k t]|m|t f]; cbn; rewrite ?IH; reflexivity.
Qed.

Lemma last_app_default {A} (a b : list A) (x : A) :
  last (a ++ b) x = last b (last a x).
Proof.
  revert a. induction b as [|y b IH] using rev_ind; intros a.
  - rewrite app_nil_r. reflexivity.
  - rewrite app_assoc, !last_last. reflexivity.
Qed.

Lemma handle_message_logs_its_state (m : message) :
  logs_its_state (handle_message m).
Proof.
  intros [st fs args k].
  destruct (handle_message m _) as [o w'] eqn:E. cbn [snd].
  run_in E.
  all: inversion E; subst; clear E; reflexivity.
Qed.

Lemma connect_open_logs_its_state : logs_its_state connect_open.
Proof. intros [st fs args k]. destruct st; reflexivity. Qed.

Lemma handle_next_user_input_logs_its_state (data : bytes) :
  logs_its_state (handle_next_user_input data).
Proof.
  intros s.
  destruct (handle_next_user_input data _) as [o w'] eqn:E. cbn [snd].
  run_in E.
  all: inversion E; subst; clear E; reflexivity.
Qed.

Lemma step_logs_its_state (w w' : world) :
  step w w' ->
  exists d : list effect,
    trace w' = trace w ++ d
    /\ _state (self w') = last (states_logged d) (_state (self w)).
Proof.
  intros H. destruct H as [w|m w|data w]; destruct w as [s t].
  - rewrite (framed_connect_open s t). eexists; split; [reflexivity|].
    apply connect_open_logs_its_state.
  - rewrite (framed_handle_message m s t). eexists; split; [reflexivity|].
    apply handle_message_logs_its_state.
  - rewrite (framed_handle_next_user_input data s t).
    eexists; split; [reflexivity|].
    apply handle_next_user_input_logs_its_state.
Qed.

Lemma reachable_state_logged fs args (w : world) :
  reachable fs args w ->
  _state (self w) = last (states_logged (trace w)) DISCONNECTED.
Proof.
  induction 1 as [|w w' _ IH Hstep]; [reflexivity|].
  destruct (step_logs_its_state w w' Hstep) as (d & Ht & Hs).
  rewrite Ht, states_logged_app, last_app_default, <- IH. exact Hs.
Qed.

(** X1. Every change of state is logged: in every world a client built by
    [__init__] can reach, the state is the last state handed to the setter
    of [state], and DISCONNECTED when the setter was never called. *)
Theorem state_is_last_logged fs args (w : world) :
  reachable fs args w ->
  _state (self w) = last (states_logged (trace w)) DISCONNECTED.
Proof.
  induction 1 as [|w w' _ IH Hstep]; [reflexivity|].
  destruct (step_logs_its_state w w' Hstep) as (d & Ht & Hs).
  rewrite Ht, states_logged_app, last_app_default, <- IH. exact Hs.
Qed.

Lemma state_is_last_logged_witness :
  let w := session one_file None
             [Text (lit "0{}"); Text (lit "40"); Text (wire "451-['err']");
              Binary (blit "boom"); Text (lit "41")] in
  reachable one_file None w
  /\ states_logged (trace w)
     = [CONNECTED; INITIALIZED; WAITING_FOR_CODE; RUNNING; EXPECTING_OUTPUT;
        RUNNING; SESSION_KILLED]
  /\ _state (self w) = SESSION_KILLED.
Proof.
  intros w.
  assert (Hr : reachable one_file None w) by apply reachable_session.
  assert (Hl : states_logged (trace w)
               = [CONNECTED; INITIALIZED; WAITING_FOR_CODE; RUNNING;
                  EXPECTING_OUTPUT; RUNNING; SESSION_KILLED])
    by (vm_compute; reflexivity).
  split; [exact Hr | split; [exact Hl|]].
  rewrite (state_is_last_logged one_file None w Hr), Hl. reflexivity.
Defined.

Lemma step_keeps_files (w w' : world) :
  step w w' ->
  files (self w') = files (self w) /\ cli_args (self w') = cli_args (self w).
Proof.
  intros H. destruct H as [w|m w|data w].
  - destruct w as [[st fs args k] t]. destruct st; split; reflexivity.
  - destruct (handle_message m w) as [o w'] eqn:E.
    destruct (handle_message_self m w o w' E) as (H1 & H2 & _).
    split; assumption.
  - rewrite handle_next_user_input_self. split; reflexivity.
Qed.

(** X2. The files and the arguments of a client are never changed: in
    every world it can reach they are the ones [__init__] was given, the
    arguments being the empty list when it was given None. *)
Theorem files_and_args_kept fs args (w : world) :
  reachable fs args w ->
  files (self w) = fs
  /\ cli_args (self w) = match args with None => [] | Some a => a end.
Proof.
  induction 1 as [|w w' _ IH Hstep]; [split; reflexivity|].
  destruct (step_keeps_files w w' Hstep) as [H1 H2].
  rewrite H1, H2. exact IH.
Qed.

Lemma files_and_args_kept_witness :
  let w := session one_file (Some [lit "-v"])
             [Text (lit "0{}"); Text (lit "40"); Text (lit "41")] in
  reachable one_file (Some [lit "-v"]) w
  /\ files (self w) = one_file /\ cli_args (self w) = [lit "-v"].
Proof.
  intros w.
  assert (Hr : reachable one_file (Some [lit "-v"]) w) by apply reachable_session.
  split; [exact Hr|].
  exact (files_and_args_kept one_file (Some [lit "-v"]) w Hr).
Defined.

Lemma step_stays_connected (w w' : world) :
  step w w' ->
  _state (self w) <> DISCONNECTED -> _state (self w') <> DISCONNECTED.
Proof.
  intros H Hs. destruct H as [w|m w|data w].
  - destruct w as [[st fs args k] t]. destruct st; cbn in *; congruence.
  - destruct (handle_message m w) as [o w'] eqn:E. cbn [snd].
    destruct w as [[st fs args k] t]. cbn [self _state] in Hs.
    run_in E.
    all: inversion E; subst; clear E; cbn; congruence.
  - rewrite handle_next_user_input_self. exact Hs.
Qed.

(** X3. A client is connected at most once: once it has left DISCONNECTED
    no call brings it back, so that [connect] fails its assertion, whatever
    was handled in between, and changes nothing. *)
Theorem connect_only_once (w w' : world) :
  _state (self w) <> DISCONNECTED ->
  steps w w' ->
  _state (self w') <> DISCONNECTED
  /\ connect_open w' = (Raise (PyErr AssertionError), w').
Proof.
  intros Hs H.
  assert (Hs' : _state (self w') <> DISCONNECTED).
  { induction H as [|w w1 w2 _ IH Hstep]; [exact Hs|].
    apply (step_stays_connected w1 w2 Hstep). apply IH. exact Hs. }
  split; [exact Hs'|].
  destruct w' as [[st fs args k] t]. cbn [self _state] in Hs'.
  destruct st; try reflexivity. contradiction Hs'; reflexivity.
Qed.

Lemma connect_only_once_witness :
  let w := snd (connect_open (mkWorld (__init__ one_file None) [])) in
  let w' := snd (handle_message (Text (lit "0{}")) w) in
  _state (self w) <> DISCONNECTED
  /\ steps w w'
  /\ connect_open w' = (Raise (PyErr AssertionError), w').
Proof.
  intros w w'.
  assert (Hs : _state (self w) <> DISCONNECTED) by (cbn; discriminate).
  assert (Hst : steps w w').
  { eapply steps_more; [apply steps_refl | apply step_message]. }
  split; [exact Hs | split; [exact Hst|]].
  exact (proj2 (connect_only_once w w' Hs Hst)).
Defined.

(** *** States without a case, sends and prints (lines 109-181) *)

Lemma refused (m : message) (w : world) :
  refusing (_state (self w)) = true ->
  handle_message m w
  = (Raise (NotImplementedError (OfState (_state (self w)))),
     {| self := self w; trace := trace w ++ [Log DEBUG (LogReceiving m)] |}).
Proof.
  destruct w as [[st fs args k] t]. cbn [self _state trace].
  destruct st; cbn [refusing]; intros H; try discriminate H; reflexivity.
Qed.

Lemma after_refusing (ms : list message) (w : world) :
  refusing (_state (self w)) = true ->
  self (after ms w) = self w
  /\ sent (trace (after ms w)) = sent (trace w)
  /\ (forall f, written f (trace (after ms w)) = written f (trace w)).
Proof.
  revert w. induction ms as [|m ms IH]; intros w Hw; [cbn; auto|].
  cbn [after fold_left]. fold (after ms (snd (handle_message m w))).
  rewrite (refused m w Hw). cbn [snd].
  destruct (IH {| self := self w;
                  trace := trace w ++ [Log DEBUG (LogReceiving m)] |} Hw)
    as (H1 & H2 & H3).
  rewrite H1, H2. cbn [self trace].
  rewrite sent_app. cbn [sent]. rewrite app_nil_r.
  repeat split. intros f. rewrite H3. cbn [trace].
  rewrite written_app. cbn [written]. apply app_nil_r.
Qed.

(** X4. In state RUNNING every text message that starts with [41] is a
    disconnect, whatever follows the prefix: the state becomes
    SESSION_KILLED.  That state is final: every message handled afterwards
    raises [NotImplementedError], [self] stays as it is, and nothing more is
    sent or printed. *)
Theorem disconnect_is_final (w : world) (rest : str) :
  _state (self w) = RUNNING ->
  let w1 := {| self := with_state SESSION_KILLED (self w);
               trace := trace w
                        ++ [Log DEBUG (LogReceiving (Text (lit "41" ++ rest)));
                            Log INFO (LogState SESSION_KILLED)] |} in
  handle_message (Text (lit "41" ++ rest)) w = (Return tt, w1)
  /\ forall ms : list message,
       self (after ms w1) = self w1
       /\ sent (trace (after ms w1)) = sent (trace w)
       /\ (forall f, written f (trace (after ms w1)) = written f (trace w))
       /\ forall m : message,
            fst (handle_message m (after ms w1))
            = Raise (NotImplementedError (OfState SESSION_KILLED)).
Proof.
  intros Hst w1. split.
  - destruct w as [[st fs args k] t]; cbn in Hst; subst st.
    unfold w1, with_state. run. rewrite <- app_assoc. reflexivity.
  - intros ms.
    destruct (after_refusing ms w1 eq_refl) as (H1 & H2 & H3).
    split; [exact H1 | split; [|split]].
    + rewrite H2. unfold w1. cbn [trace]. rewrite sent_app. cbn.
      apply app_nil_r.
    + intros f. rewrite H3. unfold w1. cbn [trace]. rewrite written_app. cbn.
      apply app_nil_r.
    + intros m. rewrite refused; rewrite H1; reflexivity.
Qed.

Lemma disconnect_is_final_witness :
  _state (self running_world) = RUNNING
  /\ fst (handle_message (Text (lit "41" ++ lit "bye")) running_world)
     = Return tt
  /\ _state (self (after [Text (lit "40"); Binary (blit "x")]
                         (snd (handle_message (Text (lit "41" ++ lit "bye"))
                                              running_world))))
     = SESSION_KILLED.
Proof.
  split; [reflexivity|].
  destruct (disconnect_is_final running_world (lit "bye") eq_refl) as [H1 H2].
  rewrite H1. split; [reflexivity|]. cbn [snd].
  rewrite (proj1 (H2 [Text (lit "40"); Binary (blit "x")])). reflexivity.
Defined.

Lemma ack_without_files (w : world) :
  _state (self w) = INITIALIZED ->
  files (self w) = [] ->
  handle_message (Text (lit "40")) w
  = (Raise (PyErr RuntimeError),
     {| self := with_state WAITING_FOR_CODE (self w);
        trace := trace w
                 ++ [Log DEBUG (LogReceiving (Text (lit "40")));
                     Log INFO (LogState WAITING_FOR_CODE)] |}).
Proof.
  intros Hst Hf.
  destruct w as [[st fs args k] t]; cbn in Hst, Hf; subst st fs.
  unfold with_state. run. rewrite <- app_assoc. reflexivity.
Qed.

(** X5. A client without files cannot start: in state INITIALIZED the
    acknowledgement [40] moves it to WAITING_FOR_CODE, the run request then
    fails on the empty dict with [RuntimeError], nothing is sent, and the
    client stays in WAITING_FOR_CODE, where every later message raises
    [NotImplementedError]. *)
Theorem no_files_no_run (w : world) :
  _state (self w) = INITIALIZED ->
  files (self w) = [] ->
  let w1 := {| self := with_state WAITING_FOR_CODE (self w);
               trace := trace w
                        ++ [Log DEBUG (LogReceiving (Text (lit "40")));
                            Log INFO (LogState WAITING_FOR_CODE)] |} in
  handle_message (Text (lit "40")) w = (Raise (PyErr RuntimeError), w1)
  /\ sent (trace w1) = sent (trace w)
  /\ forall (ms : list message) (m : message),
       _state (self (after ms w1)) = WAITING_FOR_CODE
       /\ sent (trace (after ms w1)) = sent (trace w)
       /\ fst (handle_message m (after ms w1))
          = Raise (NotImplementedError (OfState WAITING_FOR_CODE)).
Proof.
  intros Hst Hf w1.
  assert (Hs : sent (trace w1) = sent (trace w)).
  { unfold w1. cbn [trace]. rewrite sent_app. cbn. apply app_nil_r. }
  split; [|split; [exact Hs|]].
  - apply ack_without_files; assumption.
  - intros ms m.
    destruct (after_refusing ms w1 eq_refl) as (H1 & H2 & _).
    rewrite H1, H2, Hs. split; [reflexivity | split; [reflexivity|]].
    rewrite refused; rewrite H1; reflexivity.
Qed.

Lemma no_files_no_run_witness :
  let w := mkWorld (mkClient INITIALIZED [] [] None) [] in
  _state (self w) = INITIALIZED /\ files (self w) = []
  /\ fst (handle_message (Text (lit "40")) w) = Raise (PyErr RuntimeError)
  /\ _state (self (snd (handle_message (Text (lit "40")) w)))
     = WAITING_FOR_CODE.
Proof.
  intros w. split; [reflexivity | split; [reflexivity|]].
  rewrite (proj1 (no_files_no_run w eq_refl eq_refl)). split; reflexivity.
Defined.

Lemma handle_message_outputs (m : message) (s : client) :
  let d := trace (snd (handle_message m (mkWorld s []))) in
  (_state s <> INITIALIZED -> sent d = [])
  /\ (_state s <> EXPECTING_OUTPUT -> forall f, written f d = [])
  /\ (List.length (sent d) <= 1)%nat
  /\ (sent d <> [] -> forall f, written f d = []).
Proof.
  destruct s as [st fs args k].
  destruct (handle_message m _) as [o w'] eqn:E. cbn [snd].
  run_in E.
  all: inversion E; subst; clear E; cbn.
  all: repeat split; intros; try congruence; try lia; try reflexivity.
  all: match goal with f : stream |- _ => destruct f; reflexivity end.
Qed.

(** X6. [handle_message] sends on the websocket only when it answers the
    acknowledgement in state INITIALIZED, and then one message; it prints
    only in state EXPECTING_OUTPUT; and no call both sends and prints. *)
Theorem sends_and_prints_by_state (m : message) (w : world) :
  let w' := snd (handle_message m w) in
  (_state (self w) <> INITIALIZED -> sent (trace w') = sent (trace w))
  /\ (_state (self w) <> EXPECTING_OUTPUT ->
      forall f, written f (trace w') = written f (trace w))
  /\ (exists l, sent (trace w') = sent (trace w) ++ l
                /\ (List.length l <= 1)%nat
                /\ (l <> [] ->
                    forall f, written f (trace w') = written f (trace w))).
Proof.
  destruct w as [s t]. cbn zeta.
  rewrite (framed_handle_message m s t). cbn [snd trace self].
  destruct (handle_message_outputs m s) as (H1 & H2 & H3 & H4).
  cbn zeta in H1, H2, H3, H4.
  split; [|split].
  - intros H. rewrite sent_app, (H1 H). apply app_nil_r.
  - intros H f. rewrite written_app, (H2 H f). apply app_nil_r.
  - eexists. split; [apply sent_app | split; [exact H3|]].
    intros Hl f. rewrite written_app, (H4 Hl f). apply app_nil_r.
Qed.

(** X7. Outside EXPECTING_OUTPUT a binary message is never accepted: it
    raises [TypeError] in state CONNECTED (the test of the prefix of a
    [bytes] against a [str]), [AssertionError] in state INITIALIZED and
    [NotImplementedError] with its two-byte prefix in state RUNNING, and
    [self] is left as it was. *)
Theorem binary_message_rejected (b : bytes) (w : world) :
  let r := handle_message (Binary b) w in
  let w' := {| self := self w;
               trace := trace w ++ [Log DEBUG (LogReceiving (Binary b))] |} in
  (_state (self w) = CONNECTED -> r = (Raise (PyErr TypeError), w'))
  /\ (_state (self w) = INITIALIZED -> r = (Raise (PyErr AssertionError), w'))
  /\ (_state (self w) = RUNNING ->
      r = (Raise (NotImplementedError (OfPrefix (Binary (firstn 2 b)))), w')).
Proof.
  destruct w as [[st fs args k] t]. cbn [self _state trace].
  repeat split; intros ->; reflexivity.
Qed.

Lemma binary_message_rejected_witness :
  _state (self running_world) = RUNNING
  /\ fst (handle_message (Binary (blit "41")) running_world)
     = Raise (NotImplementedError (OfPrefix (Binary (blit "41")))).
Proof.
  split; [reflexivity|].
  rewrite (proj2 (proj2 (binary_message_rejected (blit "41") running_world))
                 eq_refl).
  reflexivity.
Defined.

(** *** The handshake, headers and exits in detail (lines 112-154) *)

Lemma str_eqb_eq (a b : str) : str_eqb a b = true <-> a = b.
Proof.
  revert b. induction a as [|x a IH]; intros [|y b]; cbn; split;
    try discriminate; try reflexivity.
  - intros H. apply andb_true_iff in H. destruct H as [H1 H2].
    apply N.eqb_eq in H1. apply IH in H2. congruence.
  - intros [= -> ->]. rewrite N.eqb_refl. apply IH. reflexivity.
Qed.

Lemma startswith_app (p s : str) :
  startswith p s = true <-> exists rest, s = p ++ rest.
Proof.
  revert s. induction p as [|x p IH]; intros s; cbn.
  - split; [intros _; exists s; reflexivity | reflexivity].
  - destruct s as [|y s]; split.
    + discriminate.
    + intros [rest H]; discriminate H.
    + intros H. apply andb_true_iff in H. destruct H as [H1 H2].
      apply N.eqb_eq in H1. apply IH in H2. destruct H2 as [rest ->].
      exists rest. congruence.
    + intros [rest [= -> ->]]. rewrite N.eqb_refl. apply IH.
      exists rest; reflexivity.
Qed.

Lemma handle_message_failure (m : message) (s : client) :
  let r := handle_message m (mkWorld s []) in
  (forall a, fst r <> Return a) ->
  sent (trace (snd r)) = []
  /\ (forall f, written f (trace (snd r)) = [])
  /\ (self (snd r) = s
      \/ (_state s = INITIALIZED
          /\ self (snd r) = with_state WAITING_FOR_CODE s)).
Proof.
  destruct s as [st fs args k]. cbn zeta.
  destruct (handle_message m _) as [o w'] eqn:E. cbn [fst snd].
  intros Hf.
  run_in E.
  all: inversion E; subst; clear E; cbn.
  all: try solve [exfalso; eapply Hf; reflexivity].
  all: repeat split; auto.
Qed.

(** X8. A call of [handle_message] that does not return normally (it
    raises, or ends the process) has sent nothing and printed nothing, and
    has left [self] as it was; the one exception is the acknowledgement in
    state INITIALIZED, which leaves the state WAITING_FOR_CODE behind when
    the run request cannot be built. *)
Theorem failed_call_is_silent (m : message) (w : world) :
  let r := handle_message m w in
  (forall a, fst r <> Return a) ->
  sent (trace (snd r)) = sent (trace w)
  /\ (forall f, written f (trace (snd r)) = written f (trace w))
  /\ (self (snd r) = self w
      \/ (_state (self w) = INITIALIZED
          /\ self (snd r) = with_state WAITING_FOR_CODE (self w))).
Proof.
  destruct w as [s t]. cbn zeta.
  rewrite (framed_handle_message m s t). cbn [fst snd trace self].
  intros Hf. destruct (handle_message_failure m s Hf) as (H1 & H2 & H3).
  rewrite sent_app, H1, app_nil_r. split; [reflexivity|].
  split; [|exact H3].
  intros f. rewrite written_app, H2. apply app_nil_r.
Qed.

Lemma failed_call_is_silent_witness :
  let r := handle_message (Binary [Byte.xff]) expecting_error_world in
  (forall a, fst r <> Return a)
  /\ sent (trace (snd r)) = []
  /\ written stderr (trace (snd r)) = []
  /\ _state (self (snd r)) = EXPECTING_OUTPUT.
Proof.
  assert (H : forall a,
             fst (handle_message (Binary [Byte.xff]) expecting_error_world)
             <> Return a) by (intros a; vm_compute; discriminate).
  cbn zeta. split; [exact H|].
  destruct (failed_call_is_silent (Binary [Byte.xff]) expecting_error_world H)
    as (H1 & H2 & H3).
  split; [exact H1 | split; [exact (H2 stderr)|]].
  destruct H3 as [-> | [H3 _]]; [reflexivity | discriminate H3].
Defined.

(** X9. The two handshake steps accept exactly one form of message each:
    in state CONNECTED the call returns exactly for a text message that
    starts with [0{]; in state INITIALIZED it returns exactly for the text
    message [40], provided the client has a file. *)
Theorem handshake_acceptance (m : message) (w : world) :
  (_state (self w) = CONNECTED ->
   (fst (handle_message m w) = Return tt
    <-> exists rest : str, m = Text (lit "0{" ++ rest)))
  /\ (_state (self w) = INITIALIZED ->
      (fst (handle_message m w) = Return tt
       <-> m = Text (lit "40") /\ files (self w) <> [])).
Proof.
  split; intros Hst.
  - split.
    + destruct w as [[st fs args k] t]; cbn in Hst; subst st.
      destruct m as [s|b]; [|cbn; discriminate].
      destruct (startswith (lit "0{") s) eqn:Hs.
      * intros _. apply startswith_app in Hs. destruct Hs as [rest ->].
        exists rest; reflexivity.
      * run. cbn in Hs. rewrite Hs. cbn. discriminate.
    + intros [rest ->]. rewrite open_handled by exact Hst. reflexivity.
  - split.
    + destruct (msg_eq m (lit "40")) eqn:Hm.
      * destruct m as [s|b]; [|discriminate Hm].
        apply str_eqb_eq in Hm. subst s.
        destruct (files (self w)) as [|f fs] eqn:Hf.
        -- rewrite (ack_without_files w Hst Hf). discriminate.
        -- intros _. split; [reflexivity | discriminate].
      * destruct w as [[st fs args k] t]; cbn in Hst; subst st.
        destruct m as [s|b]; [|cbn; discriminate].
        unfold handle_message, bind, emit, read, assert, raise.
        cbn -[send_files_and_run]. cbn in Hm. rewrite Hm. cbn. discriminate.
    + intros [-> Hf]. destruct (files (self w)) as [|f fs] eqn:E;
        [contradiction Hf; reflexivity|].
      rewrite (ack_handled w f fs Hst E). reflexivity.
Qed.

Lemma handshake_acceptance_witness :
  _state (self connected_world) = CONNECTED
  /\ fst (handle_message (Text (wire "0{'sid':'x'}")) connected_world)
     = Return tt.
Proof.
  split; [reflexivity|].
  apply (proj1 (handshake_acceptance (Text (wire "0{'sid':'x'}"))
                                     connected_world) eq_refl).
  exists (wire "'sid':'x'}"). reflexivity.
Defined.

(** X10. In state RUNNING a message [451-] whose body is not a list that
    starts with "output", "err" or "input" fails by the shape of the body:
    a body that is not JSON raises the decoder's error; an empty list or an
    empty string raises [IndexError]; an object raises [KeyError]; a number,
    a boolean or null raises [TypeError]; a list with another first element
    raises [NotImplementedError] with that element, and a non-empty string
    with its first character.  [self] is left as it was. *)
Theorem header_body_shapes (w : world) (body : str) :
  _state (self w) = RUNNING ->
  let r := handle_message (Text (lit "451-" ++ body)) w in
  let w' := {| self := self w;
               trace := trace w
                        ++ [Log DEBUG
                              (LogReceiving (Text (lit "451-" ++ body)))] |} in
  (forall e : exn, Json.loads body = Err e -> r = (Raise (PyErr e), w'))
  /\ (forall data : pyval,
         Json.loads body = Ok data ->
         names_kind data = false ->
         r = (Raise (header_failure data), w')).
Proof.
  intros Hst.
  destruct w as [[st fs args k] t]; cbn in Hst; subst st.
  cbn zeta. cbn [self trace]. split.
  - intros e He. run. rewrite He. reflexivity.
  - intros data Hd Hn. run. rewrite Hd. cbn.
    destruct data as [| | | |s|l|d]; cbn; try reflexivity.
    + destruct s as [|c s]; cbn; rewrite ?andb_false_r; reflexivity.
    + destruct l as [|x l]; [reflexivity|]. cbn.
      destruct x as [| | | |name| |]; cbn; try reflexivity.
      cbn in Hn. unfold kind_of_name in Hn. cbn in Hn. cbn.
      destruct (str_eqb name _); [discriminate|].
      destruct (str_eqb name _); [discriminate|].
      destruct (str_eqb name _); [discriminate|].
      reflexivity.
Qed.

Lemma header_body_shapes_witness :
  _state (self running_world) = RUNNING
  /\ fst (handle_message (Text (lit "451-" ++ wire "{'output': 1}"))
                         running_world)
     = Raise (PyErr KeyError)
  /\ fst (handle_message (Text (lit "451-" ++ wire "'output'"))
                         running_world)
     = Raise (NotImplementedError (OfValue (VStr (lit "o")))).
Proof.
  split; [reflexivity|]. split.
  - rewrite (proj2 (header_body_shapes running_world (wire "{'output': 1}")
                                       eq_refl)
                   (VDict [(lit "output", VInt 1)]));
      [reflexivity | vm_compute; reflexivity | reflexivity].
  - rewrite (proj2 (header_body_shapes running_world (wire "'output'")
                                       eq_refl)
                   (VStr (lit "output")));
      [reflexivity | vm_compute; reflexivity | reflexivity].
Defined.

(** X11. In state RUNNING the event ["exit", text, number] writes one log
    record with the text, at level INFO when the text contains "Process
    exited" and at level CRITICAL otherwise, before the number is looked at;
    [self] is left as it was.  Then: an integer that fits a C int ends the
    process, and the status it leaves is the low eight bits of the integer
    (the integer itself when it is between 0 and 255, so that 256 leaves
    status 0 and -1 leaves status 255); an integer that does not fit raises
    [OverflowError]; true and false end the process with status 1 and 0;
    null, a list or an object raise [TypeError]. *)
Theorem exit_event_logged (w : world) (body text : str) (number : pyval)
        (o : outcome unit) :
  _state (self w) = RUNNING ->
  Json.loads body = Ok (VList [VStr (lit "exit"); VStr text; number]) ->
  exit_outcome number = Some o ->
  handle_message (Text (lit "42" ++ body)) w
  = (o, {| self := self w;
           trace := trace w
                    ++ [Log DEBUG (LogReceiving (Text (lit "42" ++ body)));
                        Log (exit_level text) (LogExiting (VStr text))] |})
  /\ (forall z : Z, number = VInt z -> (0 <= z <= 255)%Z -> o = Exit z)
  /\ (number = VInt 256 -> o = Exit 0)
  /\ (number = VInt (- 1) -> o = Exit 255).
Proof.
  intros Hst Hbody Ho. split.
  - destruct w as [[st fs args k] t]; cbn in Hst; subst st.
    unfold exit_level.
    run. rewrite Hbody. cbn -[contains Z.modulo].
    destruct (contains _ text);
      destruct number as [|b|z| | | |]; cbn -[Z.modulo] in Ho;
      inversion Ho; subst; clear Ho;
      cbn -[Z.modulo]; rewrite <- ?app_assoc; try reflexivity.
    all: try (destruct b; reflexivity).
    all: destruct ((- 2147483648 <=? z) && (z <=? 2147483647))%Z; reflexivity.
  - split; [|split].
    + intros z -> Hz. cbn -[Z.modulo] in Ho.
      replace ((- 2147483648 <=? z) && (z <=? 2147483647))%Z with true in Ho
        by (symmetry; apply andb_true_iff; split; apply Z.leb_le; lia).
      rewrite Z.mod_small in Ho by lia. congruence.
    + intros ->. cbn in Ho. congruence.
    + intros ->. cbn in Ho. congruence.
Qed.

Lemma exit_event_logged_witness :
  _state (self running_world) = RUNNING
  /\ handle_message (Text (lit "42" ++ wire "['exit','Killed',4294967296]"))
                    running_world
     = (Raise (PyErr OverflowError),
        {| self := self running_world;
           trace := [Log DEBUG
                       (LogReceiving
                          (Text (lit "42"
                                 ++ wire "['exit','Killed',4294967296]")));
                     Log CRITICAL (LogExiting (VStr (lit "Killed")))] |})
  /\ fst (handle_message (Text (lit "42" ++ wire "['exit','Killed',256]"))
                         running_world)
     = Exit 0.
Proof.
  split; [reflexivity|]. split.
  - apply (exit_event_logged running_world
             (wire "['exit','Killed',4294967296]")
             (lit "Killed") (VInt 4294967296));
      [reflexivity | vm_compute; reflexivity | reflexivity].
  - rewrite (proj1 (exit_event_logged running_world
                      (wire "['exit','Killed',256]")
                      (lit "Killed") (VInt 256) (Exit 0) eq_refl
                      ltac:(vm_compute; reflexivity) eq_refl)).
    reflexivity.
Defined.

(** X12. In state RUNNING an exit event whose second element is not a
    string, a list or an object (a number, a boolean or null) fails in the
    test [in] with [TypeError]: no record is written about the exit and the
    process is not ended, whatever the third element is. *)
Theorem exit_text_not_iterable (w : world) (body : str) (string number : pyval) :
  _state (self w) = RUNNING ->
  Json.loads body = Ok (VList [VStr (lit "exit"); string; number]) ->
  str_in (lit "Process exited") string = Err TypeError ->
  handle_message (Text (lit "42" ++ body)) w
  = (Raise (PyErr TypeError),
     {| self := self w;
        trace := trace w
                 ++ [Log DEBUG (LogReceiving (Text (lit "42" ++ body)))] |}).
Proof.
  intros Hst Hbody Hin.
  destruct w as [[st fs args k] t]; cbn in Hst; subst st.
  run. rewrite Hbody. cbn -[str_in]. cbn -[str_in] in Hin. rewrite Hin.
  reflexivity.
Qed.

Lemma exit_text_not_iterable_witness :
  _state (self running_world) = RUNNING
  /\ fst (handle_message (Text (lit "42" ++ wire "['exit',null,0]"))
                         running_world)
     = Raise (PyErr TypeError).
Proof.
  split; [reflexivity|].
  rewrite (exit_text_not_iterable running_world (wire "['exit',null,0]")
             VNone (VInt 0));
    [reflexivity | reflexivity | vm_compute; reflexivity | reflexivity].
Defined.

(** *** Output relayed in order (lines 122-138, 162-178) *)

Lemma chunk_relayed (w : world) (c : chunk) :
  _state (self w) = RUNNING ->
  announced c -> readable c ->
  exists w' : world,
    each handle_message (chunk_messages c) w = (Return tt, w')
    /\ self w' = {| _state := RUNNING; files := files (self w);
                    cli_args := cli_args (self w);
                    output_type := Some (chunk_kind c) |}
    /\ sent (trace w') = sent (trace w)
    /\ forall f, written f (trace w') = written f (trace w) ++ shown f c.
Proof.
  intros Hst (name & args & Hbody & Hk) Hr.
  destruct c as [body k m]. unfold readable in Hr.
  cbn [chunk_header chunk_kind chunk_payload] in *.
  unfold chunk_messages, shown.
  cbn [each chunk_header chunk_kind chunk_payload]. unfold bind.
  rewrite (header_event_accepted w body name args k Hst Hbody Hk).
  set (w1 := expecting k (Text (lit "451-" ++ body)) w).
  assert (H1 : _state (self w1) = EXPECTING_OUTPUT) by reflexivity.
  assert (H2 : output_type (self w1) = Some k) by reflexivity.
  assert (Hs : sent (trace w1) = sent (trace w)).
  { unfold w1, expecting. cbn [trace]. rewrite sent_app. apply app_nil_r. }
  assert (Hw : forall f, written f (trace w1) = written f (trace w)).
  { intros f. unfold w1, expecting. cbn [trace]. rewrite written_app.
    apply app_nil_r. }
  destruct (stream_of k) as [g|] eqn:Hg.
  - destruct Hr as [Hr|Hr]; [congruence|].
    destruct (text_of m) as [t|] eqn:Ht; [|contradiction Hr; reflexivity].
    assert (Hm : handle_message m w1 = (Return tt, printed t g m w1)).
    { destruct m as [t'|b]; cbn in Ht.
      - inversion Ht; subst t'.
        apply (text_payload_printed w1 k g t H1 H2 Hg).
      - apply (binary_payload_printed w1 k g b t H1 H2 Hg Ht). }
    rewrite Hm. eexists. split; [reflexivity|].
    unfold printed, ret. cbn [self trace]. split; [reflexivity|].
    rewrite sent_app, Hs. split; [apply app_nil_r|].
    intros f. rewrite written_app, Hw. f_equal.
    destruct f, g; cbn; rewrite ?app_nil_r; reflexivity.
  - assert (Hi : output_type (self w1) = Some INPUT).
    { rewrite H2. destruct k; try discriminate Hg; reflexivity. }
    rewrite (payload_discarded w1 m H1 Hi).
    eexists. split; [reflexivity|].
    unfold discarded, ret. cbn [self trace]. split; [reflexivity|].
    rewrite sent_app, Hs. split; [apply app_nil_r|].
    intros f. rewrite written_app, Hw. cbn. reflexivity.
Qed.

Lemma each_app {A} (h : A -> M unit) (a b : list A) (w w1 : world) :
  each h a w = (Return tt, w1) -> each h (a ++ b) w = each h b w1.
Proof.
  revert w. induction a as [|x a IH]; intros w; cbn [each app].
  - unfold ret. intros [= ->]. reflexivity.
  - unfold bind. destruct (h x w) as [[[]| | |] w2]; try discriminate.
    apply IH.
Qed.

(** X13. Program output is relayed in order.  From state RUNNING, for any
    sequence of pieces of output, each sent as a header event [451-] that
    names its kind followed by its payload (text, or bytes that are valid
    UTF-8): every message is accepted, the state is RUNNING again, standard
    output holds the payloads of kind "output" and standard error those of
    kind "err", each followed by a newline and in the order received, the
    payloads of kind "input" are dropped, and nothing is sent. *)
Theorem output_relayed (w : world) (cs : list chunk) :
  _state (self w) = RUNNING ->
  Forall announced cs ->
  Forall readable cs ->
  let r := each handle_message (flat_map chunk_messages cs) w in
  fst r = Return tt
  /\ _state (self (snd r)) = RUNNING
  /\ files (self (snd r)) = files (self w)
  /\ sent (trace (snd r)) = sent (trace w)
  /\ forall f : stream,
       written f (trace (snd r))
       = written f (trace w) ++ flat_map (shown f) cs.
Proof.
  intros Hst Ha Hr. revert w Hst.
  induction cs as [|c cs IH]; intros w Hst; cbn zeta.
  - cbn. repeat split; auto. intros f. symmetry. apply app_nil_r.
  - inversion Ha as [|? ? Hac Hacs]; subst.
    inversion Hr as [|? ? Hrc Hrcs]; subst.
    destruct (chunk_relayed w c Hst Hac Hrc) as (w1 & He & Hs1 & Hsent & Hwr).
    cbn [flat_map]. rewrite (each_app _ _ _ _ _ He).
    assert (Hst1 : _state (self w1) = RUNNING) by (rewrite Hs1; reflexivity).
    destruct (IH Hacs Hrcs w1 Hst1) as (I1 & I2 & I3 & I4 & I5).
    split; [exact I1 | split; [exact I2 | split; [|split]]].
    + rewrite I3, Hs1. reflexivity.
    + rewrite I4. exact Hsent.
    + intros f. rewrite I5, Hwr, <- app_assoc. reflexivity.
Qed.

Lemma output_relayed_witness :
  let cs := [mkChunk (wire "['output', 1]") OUTPUT (Text (lit "a"));
             mkChunk (wire "['err']") ERROR (Binary (blit "b"));
             mkChunk (wire "['input']") INPUT (Binary [Byte.xff]);
             mkChunk (wire "['output']") OUTPUT (Binary (blit "c"))] in
  let r := each handle_message (flat_map chunk_messages cs) running_world in
  _state (self running_world) = RUNNING
  /\ Forall announced cs /\ Forall readable cs
  /\ fst r = Return tt
  /\ written stdout (trace (snd r)) = [97; 10; 99; 10]%N
  /\ written stderr (trace (snd r)) = [98; 10]%N.
Proof.
  intros cs r.
  assert (Ha : Forall announced cs).
  { repeat apply Forall_cons; [| | | |apply Forall_nil].
    - exists (lit "output"), [VInt 1]. split; vm_compute; reflexivity.
    - exists (lit "err"), []. split; vm_compute; reflexivity.
    - exists (lit "input"), []. split; vm_compute; reflexivity.
    - exists (lit "output"), []. split; vm_compute; reflexivity. }
  assert (Hr : Forall readable cs).
  { repeat apply Forall_cons; [| | | |apply Forall_nil].
    - right. discriminate.
    - right. vm_compute. discriminate.
    - left. reflexivity.
    - right. vm_compute. discriminate. }
  split; [reflexivity | split; [exact Ha | split; [exact Hr|]]].
  destruct (output_relayed running_world cs eq_refl Ha Hr)
    as (H1 & _ & _ & _ & H5).
  split; [exact H1|]. split.
  - unfold r. rewrite (H5 stdout). vm_compute. reflexivity.
  - unfold r. rewrite (H5 stderr). vm_compute. reflexivity.
Defined.

(** *** Any bytes of input (lines 58-61, 91-107) *)

Lemma input_handled (w : world) (data : bytes) (t : str) :
  decode data = Some t ->
  handle_next_user_input data w
  = (Return tt,
     {| self := self w;
        trace := trace w
                 ++ send_effects (input_event (rstrip_newline t))
                                 (input_event_text (rstrip_newline t)) |}).
Proof.
  intros Hd. unfold handle_next_user_input, bind, lift. rewrite Hd.
  apply (send_list_sends (input_event (rstrip_newline t))).
  apply dumps_input_event.
Qed.

Lemma input_refused (w : world) (data : bytes) :
  decode data = None ->
  handle_next_user_input data w = (Raise (PyErr UnicodeDecodeError), w).
Proof.
  intros Hd. unfold handle_next_user_input, bind, lift. rewrite Hd.
  reflexivity.
Qed.

(** X14. What [handle_next_user_input] does with any bytes read, in any
    state: bytes that are not valid UTF-8 raise [UnicodeDecodeError] and
    leave the world exactly as it was, nothing logged and nothing sent;
    bytes that decode are sent as one "message" event carrying the text
    without its trailing newlines, and [self] is left as it was.  The empty
    read at the end of input is sent as the event with the empty text. *)
Theorem input_bytes_handled (w : world) (data : bytes) :
  (decode data = None ->
   handle_next_user_input data w = (Raise (PyErr UnicodeDecodeError), w))
  /\ (forall t : str,
         decode data = Some t ->
         let line := rstrip_newline t in
         handle_next_user_input data w
         = (Return tt,
            {| self := self w;
               trace := trace w
                        ++ [Log INFO (LogSending (VList [VStr (lit "message");
                                                         VStr line]));
                            Log DEBUG (LogSendingRaw
                                         (lit "42" ++ input_event_text line));
                            Send (lit "42" ++ input_event_text line)] |}))
  /\ sent (trace (snd (handle_next_user_input [] w)))
     = sent (trace w) ++ [wire "42['message', '']"].
Proof.
  split; [apply input_refused | split].
  - intros t Hd. apply (input_handled w data t Hd).
  - rewrite (input_handled w [] [] eq_refl). cbn [snd trace].
    rewrite sent_app. reflexivity.
Qed.

Lemma input_bytes_handled_witness :
  decode [Byte.xc3] = None
  /\ handle_next_user_input [Byte.xc3] running_world
     = (Raise (PyErr UnicodeDecodeError), running_world).
Proof.
  assert (H : decode [Byte.xc3] = None) by reflexivity.
  split; [exact H|].
  exact (proj1 (input_bytes_handled running_world [Byte.xc3]) H).
Defined.

(** *** What is typed is what the server reads (lines 58-61, 91-107) *)

Lemma utf8_decode_scalar_aux (n : nat) :
  forall (b : list N) (t : str),
    (List.length b <= n)%nat ->
    utf8_decode_N b = Some t -> Forall scalar t.
Proof.
  induction n as [|n IH]; intros b t Hlen.
  - destruct b; [|cbn in Hlen; lia]. cbn. intros [= <-]. constructor.
  - destruct b as [|b0 r]; [cbn; intros [= <-]; constructor|].
    cbn [utf8_decode_N]. cbn [List.length] in Hlen.
    destruct (N.ltb_spec b0 128).
    { destruct (utf8_decode_N r) as [t'|] eqn:E; [|discriminate].
      cbn. intros [= <-]. constructor; [left; lia|].
      apply (IH r); [lia | exact E]. }
    destruct (N.ltb_spec b0 194); [discriminate|].
    destruct (N.ltb_spec b0 224).
    { destruct r as [|b1 r1]; [discriminate|].
      unfold is_cont, cbits.
      destruct (N.leb_spec 128 b1); [|discriminate].
      destruct (N.leb_spec b1 191); [|discriminate]. cbn [andb].
      destruct (utf8_decode_N r1) as [t'|] eqn:E; [|discriminate].
      cbn. intros [= <-]. constructor; [left; lia|].
      apply (IH r1); [cbn in Hlen; lia | exact E]. }
    destruct (N.ltb_spec b0 240).
    { destruct r as [|b1 [|b2 r2]]; try discriminate.
      unfold is_cont, cbits.
      destruct (N.leb_spec 128 b1); [|discriminate].
      destruct (N.leb_spec b1 191); [|discriminate].
      destruct (N.leb_spec 128 b2); [|discriminate].
      destruct (N.leb_spec b2 191); [|discriminate]. cbn [andb].
      destruct (N.eqb_spec b0 224); destruct (N.ltb_spec b1 160);
        destruct (N.eqb_spec b0 237); destruct (N.leb_spec 160 b1);
        cbn [andb negb]; try discriminate.
      all: destruct (utf8_decode_N r2) as [t'|] eqn:E; [|discriminate].
      all: cbn; intros [= <-].
      all: constructor; [unfold scalar; lia|].
      all: apply (IH r2); [cbn in Hlen; lia | exact E]. }
    destruct (N.ltb_spec b0 245); [|discriminate].
    destruct r as [|b1 [|b2 [|b3 r3]]]; try discriminate.
    unfold is_cont, cbits.
    destruct (N.leb_spec 128 b1); [|discriminate].
    destruct (N.leb_spec b1 191); [|discriminate].
    destruct (N.leb_spec 128 b2); [|discriminate].
    destruct (N.leb_spec b2 191); [|discriminate].
    destruct (N.leb_spec 128 b3); [|discriminate].
    destruct (N.leb_spec b3 191); [|discriminate]. cbn [andb].
    destruct (N.eqb_spec b0 240); destruct (N.ltb_spec b1 144);
      destruct (N.eqb_spec b0 244); destruct (N.leb_spec 144 b1);
      cbn [andb negb]; try discriminate.
    all: destruct (utf8_decode_N r3) as [t'|] eqn:E; [|discriminate].
    all: cbn; intros [= <-].
    all: constructor; [unfold scalar; lia|].
    all: apply (IH r3); [cbn in Hlen; lia | exact E].
Qed.

(** [decode] produces Unicode scalar values only. *)
Lemma decode_scalar (b : bytes) (t : str) :
  decode b = Some t -> Forall scalar t.
Proof.
  unfold decode. intros H.
  exact (utf8_decode_scalar_aux _ _ t (le_n _) H).
Qed.

Lemma scalar_carried (t : str) : Forall scalar t -> carried t = true.
Proof.
  induction 1 as [|c t Hc _ IH]; [reflexivity|].
  cbn [carried]. rewrite IH, andb_true_r.
  unfold scalar in Hc. unfold is_high.
  apply andb_true_iff. split; [apply N.ltb_lt; lia|].
  apply negb_true_iff. apply andb_false_iff. left.
  apply andb_false_iff.
  destruct Hc as [Hc|Hc]; [left; apply N.leb_gt; lia
                          | right; apply N.leb_gt; lia].
Qed.

Lemma rstrip_newline_prefix (s : str) :
  exists r : str, s = rstrip_newline s ++ r.
Proof.
  induction s as [|c s [r IH]]; [exists []; reflexivity|].
  change (rstrip_newline (c :: s))
    with (match rstrip_newline s with
          | [] => if (c =? newline)%N then [] else [c]
          | r' => c :: r'
          end).
  destruct (rstrip_newline s) as [|d r'] eqn:E.
  - destruct (c =? newline)%N; [exists (c :: s); reflexivity|].
    exists s. reflexivity.
  - exists r. cbn [app] in IH |- *. rewrite <- IH. reflexivity.
Qed.

Lemma rstrip_newline_scalar (s : str) :
  Forall scalar s -> Forall scalar (rstrip_newline s).
Proof.
  intros H. destruct (rstrip_newline_prefix s) as [r Hr].
  rewrite Hr in H. apply Forall_app in H. tauto.
Qed.

Lemma scan_input_event_text (line : str) (fuel : nat) :
  (4 <= fuel)%nat ->
  carried line = true ->
  scan_once fuel (input_event_text line) = Got (input_event line) [].
Proof.
  intros Hf Hl.
  destruct fuel as [|[|[|[|f]]]]; try lia.
  unfold input_event.
  flat.
  rewrite scan_array by reflexivity. skip.
  rewrite array_items_step.
  rewrite (scan_string _ (lit "message")) by (lia || reflexivity). skip.
  rewrite array_items_step.
  rewrite scan_string by (lia || assumption). skip.
  reflexivity.
Qed.

Lemma loads_input_event_text (line : str) :
  carried line = true ->
  Json.loads (input_event_text line) = Ok (input_event line).
Proof.
  intros Hl. unfold loads.
  assert (Hskip : skip_ws (input_event_text line) = input_event_text line)
    by reflexivity.
  rewrite Hskip.
  rewrite scan_input_event_text; [reflexivity | | exact Hl].
  unfold loads_fuel, input_event_text. rewrite !length_app. cbn. lia.
Qed.

(** X15. What is typed is what the server reads: for any bytes read from
    standard input that are valid UTF-8, [handle_next_user_input] sends one
    message; it starts with [42], and decoding the rest as JSON gives back
    the list of "message" and the text read without its trailing
    newlines. *)
Theorem input_roundtrip (w : world) (data : bytes) (t : str) :
  decode data = Some t ->
  exists m : str,
    sent (trace (snd (handle_next_user_input data w))) = sent (trace w) ++ [m]
    /\ firstn 2 m = lit "42"
    /\ Json.loads (skipn 2 m)
       = Ok (VList [VStr (lit "message"); VStr (rstrip_newline t)]).
Proof.
  intros Hd.
  exists (lit "42" ++ input_event_text (rstrip_newline t)).
  rewrite (input_handled w data t Hd). cbn [snd trace].
  rewrite sent_app. split; [reflexivity | split; [reflexivity|]].
  cbn [lit app skipn].
  apply loads_input_event_text. apply scalar_carried.
  apply rstrip_newline_scalar. apply (decode_scalar data). exact Hd.
Qed.

Lemma input_roundtrip_witness :
  decode [Byte.xf0; Byte.x9f; Byte.x98; Byte.x80; Byte.x0a]
  = Some [128512%N; 10%N]
  /\ exists m : str,
       sent (trace (snd (handle_next_user_input
                           [Byte.xf0; Byte.x9f; Byte.x98; Byte.x80; Byte.x0a]
                           running_world))) = [m]
       /\ firstn 2 m = lit "42"
       /\ Json.loads (skipn 2 m)
          = Ok (VList [VStr (lit "message"); VStr [128512%N]]).
Proof.
  assert (H : decode [Byte.xf0; Byte.x9f; Byte.x98; Byte.x80; Byte.x0a]
              = Some [128512%N; 10%N]) by reflexivity.
  split; [exact H|].
  exact (input_roundtrip running_world _ _ H).
Defined.

(** *** Local input and the state machine (lines 55-61, 82-89) *)

Lemma input_effects (data : bytes) :
  exists (o : outcome unit) (d : list effect),
    (forall f, written f d = [])
    /\ forall (s : client) (t : list effect),
         handle_next_user_input data (mkWorld s t) = (o, mkWorld s (t ++ d)).
Proof.
  destruct (decode data) as [line|] eqn:Hd.
  - exists (Return tt),
      (send_effects (input_event (rstrip_newline line))
                    (input_event_text (rstrip_newline line))).
    split; [intros []; reflexivity|].
    intros s t. apply (input_handled (mkWorld s t) data line Hd).
  - exists (Raise (PyErr UnicodeDecodeError)), []. split; [reflexivity|].
    intros s t. rewrite (input_refused _ data Hd), app_nil_r. reflexivity.
Qed.

(** X16. Local input does not disturb the state machine: handling a
    message after a line of input gives the same outcome and leaves the
    same [self] as handling it before the line; the line's own outcome is
    the same in both orders, and so is what has been printed to each
    stream. *)
Theorem input_commutes_with_message (m : message) (data : bytes) (w : world) :
  let input_first := handle_message m (snd (handle_next_user_input data w)) in
  let message_first := handle_next_user_input data (snd (handle_message m w)) in
  fst input_first = fst (handle_message m w)
  /\ fst message_first = fst (handle_next_user_input data w)
  /\ self (snd input_first) = self (snd (handle_message m w))
  /\ self (snd message_first) = self (snd input_first)
  /\ forall f : stream,
       written f (trace (snd input_first))
       = written f (trace (snd message_first)).
Proof.
  destruct w as [s t]. cbn zeta.
  destruct (input_effects data) as (o & d & Hw & Hd).
  rewrite (Hd s t). cbn [snd fst].
  rewrite (framed_handle_message m s (t ++ d)).
  rewrite (framed_handle_message m s t). cbn [fst snd self trace].
  rewrite Hd. cbn [fst snd self trace].
  repeat split.
  intros f. rewrite !written_app, Hw, !app_nil_r. reflexivity.
Qed.

(** *** The order of the states (lines 50-53, 63-79, 109-181) *)

Lemma last_cons_default {A} (l : list A) (x a : A) :
  last (x :: l) a = last l x.
Proof.
  revert x a. induction l as [|y l IH]; intros x a; [reflexivity|].
  change (last (x :: y :: l) a) with (last (y :: l) a).
  rewrite !IH. reflexivity.
Qed.

Lemma path_app (a : State) (l1 l2 : list State) :
  path a (l1 ++ l2) = path a l1 && path (last l1 a) l2.
Proof.
  revert a. induction l1 as [|b l1 IH]; intros a; [reflexivity|].
  cbn [app path]. rewrite IH, andb_assoc, last_cons_default. reflexivity.
Qed.

Lemma handle_message_logs_a_path (m : message) :
  logs_a_path (handle_message m).
Proof.
  intros [st fs args k].
  destruct (handle_message m _) as [o w'] eqn:E. cbn [snd].
  run_in E.
  all: inversion E; subst; clear E; reflexivity.
Qed.

Lemma connect_open_logs_a_path : logs_a_path connect_open.
Proof.
  intros [st fs args k].
  destruct (connect_open _) as [o w'] eqn:E. cbn [snd].
  run_in E.
  all: inversion E; subst; clear E; reflexivity.
Qed.

Lemma handle_next_user_input_logs_a_path (data : bytes) :
  logs_a_path (handle_next_user_input data).
Proof.
  intros s. destruct (input_effects data) as (o & d & _ & Hd).
  destruct (decode data) as [line|] eqn:E.
  - rewrite (input_handled _ data line E). reflexivity.
  - rewrite (input_refused _ data E). reflexivity.
Qed.

(** X17. The states a client goes through, as the setter logs them, follow
    the transitions of the state machine: from DISCONNECTED to CONNECTED,
    INITIALIZED, WAITING_FOR_CODE and RUNNING in this order, then between
    RUNNING and EXPECTING_OUTPUT, and from RUNNING to SESSION_KILLED; no
    call sets a state that does not follow the current one. *)
Theorem states_follow_transitions fs args (w : world) :
  reachable fs args w ->
  path DISCONNECTED (states_logged (trace w)) = true.
Proof.
  intros H.
  assert (G : path DISCONNECTED (states_logged (trace w)) = true
              /\ _state (self w)
                 = last (states_logged (trace w)) DISCONNECTED).
  { split; [|apply (reachable_state_logged fs args); exact H].
    induction H as [|w w' Hr IH Hs]; [reflexivity|].
    pose proof (reachable_state_logged fs args w Hr) as Hl.
    assert (P : forall (c : M unit),
               framed c -> logs_a_path c ->
               path DISCONNECTED (states_logged (trace (snd (c w)))) = true).
    { intros c Hf Hp. destruct w as [s t].
      rewrite (Hf s t). cbn [snd trace].
      rewrite states_logged_app, path_app.
      cbn [trace] in IH. rewrite IH. cbn [andb].
      cbn [self trace] in Hl. rewrite <- Hl. apply Hp. }
    destruct Hs as [w|m w|data w].
    - apply P; [apply framed_connect_open | apply connect_open_logs_a_path].
    - apply P; [apply framed_handle_message
               | apply handle_message_logs_a_path].
    - apply P; [apply framed_handle_next_user_input
               | apply handle_next_user_input_logs_a_path]. }
  exact (proj1 G).
Qed.

Lemma states_follow_transitions_witness :
  reachable one_file None
            (session one_file None
                     [Text (wire "0{}"); Text (lit "40");
                      Text (wire "451-['err']"); Binary (blit "boom");
                      Text (lit "41")])
  /\ path DISCONNECTED
          (states_logged
             (trace (session one_file None
                             [Text (wire "0{}"); Text (lit "40");
                              Text (wire "451-['err']"); Binary (blit "boom");
                              Text (lit "41")])))
     = true.
Proof.
  split; [apply reachable_session|].
  apply (states_follow_transitions one_file None). apply reachable_session.
Defined.

(** *** [main] (lines 199-217) *)

Lemma getitem_setitem (d : list (str * str)) (k v k' : str) :
  getitem (setitem d k v) k'
  = if str_eqb k k' then Some v else getitem d k'.
Proof.
  induction d as [|[k0 v0] d IH]; cbn [setitem getitem].
  - destruct (str_eqb k k'); reflexivity.
  - destruct (str_eqb k0 k) eqn:E; cbn [getitem].
    + apply str_eqb_eq in E. subst k0.
      destruct (str_eqb k k'); reflexivity.
    + rewrite IH. destruct (str_eqb k0 k') eqn:E'; [|reflexivity].
      apply str_eqb_eq in E'. subst k0.
      destruct (str_eqb k k') eqn:E2; [|reflexivity].
      apply str_eqb_eq in E2. subst k'.
      assert (E3 : str_eqb k k = true) by (apply str_eqb_eq; reflexivity).
      congruence.
Qed.

Lemma setitem_keys (d : list (str * str)) (k v : str) :
  map fst (setitem d k v)
  = if existsb (fun e => str_eqb (fst e) k) d then map fst d
    else map fst d ++ [k].
Proof.
  induction d as [|[k0 v0] d IH]; [reflexivity|].
  cbn [setitem existsb map fst].
  destruct (str_eqb k0 k); cbn [orb map fst]; [reflexivity|].
  rewrite IH. destruct (existsb _ d); reflexivity.
Qed.

Lemma existsb_key (d : list (str * str)) (k : str) :
  existsb (fun e => str_eqb (fst e) k) d = true <-> In k (map fst d).
Proof.
  rewrite existsb_exists, in_map_iff. split.
  - intros ([k0 v0] & Hin & He). apply str_eqb_eq in He. cbn in He. subst k0.
    exists (k, v0). split; [reflexivity | exact Hin].
  - intros ([k0 v0] & He & Hin). cbn in He. subst k0.
    exists (k, v0). split; [exact Hin | apply str_eqb_eq; reflexivity].
Qed.

Lemma setitem_nodup (d : list (str * str)) (k v : str) :
  NoDup (map fst d) -> NoDup (map fst (setitem d k v)).
Proof.
  intros H. rewrite setitem_keys.
  destruct (existsb _ d) eqn:E; [exact H|].
  apply NoDup_app; [exact H | repeat constructor; intros [] |].
  intros x Hx [<-|[]].
  apply existsb_key in Hx. congruence.
Qed.

Lemma find_app_split {A} (f : A -> bool) (a b : list A) :
  find f (a ++ b) = match find f a with Some x => Some x | None => find f b end.
Proof.
  induction a as [|x a IH]; [reflexivity|].
  cbn [app find]. destruct (f x); [reflexivity | exact IH].
Qed.

Lemma setitem_head (e : str * str) (d : list (str * str)) (k v : str) :
  exists v' d', setitem (e :: d) k v = (fst e, v') :: d'.
Proof.
  destruct e as [k0 v0]. cbn [setitem fst].
  destruct (str_eqb k0 k); eauto.
Qed.

Lemma read_files_head (name : str -> str) (read_text : str -> option str)
      (e : str * str) (d : list (str * str))
      (file_names : list str) (fs : list (str * str)) :
  read_files name read_text (e :: d) file_names = Some fs ->
  exists v' d', fs = (fst e, v') :: d'.
Proof.
  revert e d. induction file_names as [|p ps IH]; intros e d; cbn [read_files].
  - intros [= <-]. destruct e; eauto.
  - destruct (read_text p) as [text|]; [|discriminate].
    destruct (setitem_head e d (name p) text) as (v' & d' & ->).
    intros H. apply (IH _ _ H).
Qed.

Lemma read_files_nodup (name : str -> str) (read_text : str -> option str)
      (d : list (str * str)) (file_names : list str)
      (fs : list (str * str)) :
  NoDup (map fst d) ->
  read_files name read_text d file_names = Some fs ->
  NoDup (map fst fs).
Proof.
  revert d. induction file_names as [|p ps IH]; intros d Hd; cbn [read_files].
  - intros [= <-]. exact Hd.
  - destruct (read_text p) as [text|]; [|discriminate].
    apply IH. apply setitem_nodup. exact Hd.
Qed.

Lemma read_files_getitem (name : str -> str) (read_text : str -> option str)
      (d : list (str * str)) (file_names : list str)
      (fs : list (str * str)) (k : str) :
  read_files name read_text d file_names = Some fs ->
  getitem fs k
  = match last_named name file_names k with
    | Some p => read_text p
    | None => getitem d k
    end.
Proof.
  unfold last_named.
  revert d. induction file_names as [|p ps IH]; intros d; cbn [read_files].
  - intros [= <-]. reflexivity.
  - destruct (read_text p) as [text|] eqn:Hp; [|discriminate].
    intros H. rewrite (IH _ H). cbn [rev].
    rewrite find_app_split.
    destruct (find _ (rev ps)) as [q|]; [reflexivity|].
    cbn [find]. rewrite getitem_setitem.
    destruct (str_eqb (name p) k); [symmetry; exact Hp | reflexivity].
Qed.

Lemma read_files_all_read (name : str -> str) (read_text : str -> option str)
      (d : list (str * str)) (file_names : list str) :
  read_files name read_text d file_names <> None
  <-> forall p, In p file_names -> read_text p <> None.
Proof.
  revert d. induction file_names as [|p ps IH]; intros d; cbn [read_files].
  - split; [intros _ p [] | discriminate].
  - destruct (read_text p) as [text|] eqn:Hp.
    + rewrite IH. split.
      * intros H q [<-|Hq]; [congruence | apply H; exact Hq].
      * intros H q Hq. apply H. right. exact Hq.
    + split; [intros H; contradiction H; reflexivity|].
      intros H. exfalso. apply (H p); [left; reflexivity | exact Hp].
Qed.

(** X18. The client [main] builds runs the first positional file: its
    first file, the entry point of the run request, is named after the
    first of [files], and its arguments are the values of [--run] after the
    first one (none when [--run] is absent or has no value).  The first
    value of [--run] is used nowhere: replacing it by any other value gives
    the same client. *)
Theorem main_runs_first_file (name : str -> str)
        (read_text : str -> option str) (args : Args.t) (p : str)
        (ps : list str) (c : client) :
  Args.files args = p :: ps ->
  main_client name read_text args = Some c ->
  first_key (files c) = Ok (name p)
  /\ _state c = DISCONNECTED
  /\ cli_args c = match Args.run args with
                  | Some (_ :: rest) => rest
                  | _ => []
                  end
  /\ forall (x y : str) (rest : list str),
       main_client name read_text
         (Args.mk (Args.log args) (Args.files args) (Some (x :: rest)))
       = main_client name read_text
           (Args.mk (Args.log args) (Args.files args) (Some (y :: rest))).
Proof.
  intros Hf Hc. unfold main_client in *. rewrite Hf in *.
  cbn [read_files] in Hc.
  destruct (read_text p) as [text|] eqn:Hp; [|discriminate].
  cbn [setitem] in Hc.
  destruct (read_files name read_text [(name p, text)] ps) as [fs|] eqn:E;
    [|discriminate].
  inversion Hc; subst c; clear Hc.
  destruct (read_files_head name read_text _ _ _ _ E) as (v' & d' & ->).
  cbn [__init__ files cli_args _state first_key fst].
  repeat split.
  destruct (Args.run args) as [[|x rest]|]; reflexivity.
Qed.

Lemma main_runs_first_file_witness :
  let name := fun p : str => skipn 2 p in
  let read_text := fun p : str => if str_eqb p (lit "d/missing") then None
                                  else Some (lit "pass") in
  let args := Args.mk None [lit "d/a.py"; lit "e/b.py"]
                      (Some [lit "run.py"; lit "-v"]) in
  main_client name read_text args
  = Some (mkClient DISCONNECTED
            [(lit "a.py", lit "pass"); (lit "b.py", lit "pass")] [lit "-v"]
            None)
  /\ first_key [(lit "a.py", lit "pass"); (lit "b.py", lit "pass")]
     = Ok (lit "a.py").
Proof.
  intros name read_text args.
  assert (H : main_client name read_text args
              = Some (mkClient DISCONNECTED
                        [(lit "a.py", lit "pass"); (lit "b.py", lit "pass")]
                        [lit "-v"] None)) by reflexivity.
  split; [exact H|].
  exact (proj1 (main_runs_first_file name read_text args (lit "d/a.py")
                  [lit "e/b.py"] _ eq_refl H)).
Defined.

(** X19. The files [main] hands to the client: [main] builds a client
    exactly when every positional file can be read; the client then has one
    entry per distinct file name, and the content under a name is that of
    the last positional file with this name, so that of two files with the
    same name in different directories only the later content is sent. *)
Theorem main_files_by_name (name : str -> str)
        (read_text : str -> option str) (args : Args.t) :
  (main_client name read_text args <> None
   <-> forall p, In p (Args.files args) -> read_text p <> None)
  /\ forall c : client,
       main_client name read_text args = Some c ->
       NoDup (map fst (files c))
       /\ forall k : str,
            getitem (files c) k
            = match last_named name (Args.files args) k with
              | Some p => read_text p
              | None => None
              end.
Proof.
  unfold main_client. split.
  - rewrite <- (read_files_all_read name read_text []).
    destruct (read_files name read_text [] (Args.files args));
      split; intros H; congruence.
  - intros c.
    destruct (read_files name read_text [] (Args.files args)) as [fs|] eqn:E;
      [|discriminate].
    intros [= <-]. cbn [__init__ files]. split.
    + apply (read_files_nodup name read_text [] _ _ (NoDup_nil _) E).
    + intros k. apply (read_files_getitem name read_text [] _ _ k E).
Qed.

Lemma main_files_by_name_witness :
  let name := fun p : str => skipn 2 p in
  let read_text := fun p : str => Some (firstn 1 p) in
  let args := Args.mk None [lit "d/u.py"; lit "d/a.py"; lit "e/u.py"] None in
  main_client name read_text args
  = Some (mkClient DISCONNECTED
            [(lit "u.py", lit "e"); (lit "a.py", lit "d")] [] None)
  /\ getitem [(lit "u.py", lit "e"); (lit "a.py", lit "d")] (lit "u.py")
     = read_text (lit "e/u.py").
Proof.
  intros name read_text args.
  assert (H : main_client name read_text args
              = Some (mkClient DISCONNECTED
                        [(lit "u.py", lit "e"); (lit "a.py", lit "d")] []
                        None)) by reflexivity.
  split; [exact H|].
  exact (proj2 (proj2 (main_files_by_name name read_text args) _ H)
               (lit "u.py")).
Defined.

(** *** The messages a session sends (lines 91-120) *)

Lemma handle_message_sends_run_request_once (m : message) :
  sends_run_request_once (handle_message m).
Proof.
  intros s. cbn zeta.
  destruct (_state s) eqn:Hst.
  3: { (* INITIALIZED *)
    destruct (msg_eq m (lit "40")) eqn:Hm.
    - destruct m as [t|b]; [|discriminate Hm].
      apply str_eqb_eq in Hm. subst t.
      destruct (files s) as [|f fs] eqn:Hf.
      + rewrite (ack_without_files (mkWorld s []) Hst Hf).
        repeat split. discriminate.
      + rewrite (ack_handled (mkWorld s []) f fs Hst Hf).
        cbn [snd self trace with_state _state started andb negb].
        unfold ack_effects, send_effects, run_requests, run_request_text.
        cbn [app sent forallb filter].
        repeat split.
    - destruct s as [st fs args k]. cbn in Hst. subst st.
      destruct m as [t|b]; [|repeat split; discriminate].
      unfold handle_message, bind, emit, read, assert, raise.
      cbn -[send_files_and_run]. cbn in Hm. rewrite Hm. cbn.
      repeat split. discriminate. }
  all: destruct (handle_message_outputs m s) as (H1 & _).
  all: cbn zeta in H1; unfold run_requests.
  all: rewrite H1 by (rewrite Hst; discriminate).
  all: destruct s as [st fs args k]; cbn in Hst; subst st.
  all: destruct (handle_message m _) as [o w'] eqn:E; cbn [snd].
  all: run_in E.
  all: inversion E; subst; clear E; cbn; repeat split; discriminate.
Qed.

Lemma connect_open_sends_run_request_once :
  sends_run_request_once connect_open.
Proof. intros [st fs args k]. destruct st; repeat split; discriminate. Qed.

Lemma handle_next_user_input_sends_run_request_once (data : bytes) :
  sends_run_request_once (handle_next_user_input data).
Proof.
  intros s. cbn zeta.
  destruct (decode data) as [line|] eqn:E.
  - rewrite (input_handled _ data line E). cbn [snd self trace app].
    unfold send_effects, run_requests, input_event_text.
    cbn [sent forallb filter]. rewrite andb_negb_r. repeat split. auto.
  - rewrite (input_refused _ data E). cbn [snd self trace].
    rewrite andb_negb_r. repeat split. auto.
Qed.

Lemma forallb_app_true {A} (f : A -> bool) (a b : list A) :
  forallb f a = true -> forallb f b = true -> forallb f (a ++ b) = true.
Proof. intros Ha Hb. rewrite forallb_app, Ha, Hb. reflexivity. Qed.

Lemma reachable_sent fs args (w : world) :
  reachable fs args w ->
  forallb is_event (sent (trace w)) = true
  /\ run_requests (trace w) = (if started (_state (self w)) then 1 else 0)%nat.
Proof.
  induction 1 as [|w w' _ [IH1 IH2] Hs]; [split; reflexivity|].
  assert (P : forall (c : M unit),
             framed c -> sends_run_request_once c ->
             forallb is_event (sent (trace (snd (c w)))) = true
             /\ run_requests (trace (snd (c w)))
                = (if started (_state (self (snd (c w)))) then 1 else 0)%nat).
  { intros c Hf Hp. destruct w as [s t].
    rewrite (Hf s t). cbn [snd trace self].
    destruct (Hp s) as (P1 & P2 & P3). cbn zeta in P1, P2, P3.
    cbn [self trace] in IH1, IH2.
    split.
    - rewrite sent_app. apply forallb_app_true; assumption.
    - unfold run_requests in *.
      rewrite sent_app, filter_app, length_app, IH2, P3.
      destruct (started (_state s)); [rewrite (P2 eq_refl); reflexivity|].
      destruct (started _); reflexivity. }
  destruct Hs as [w|m w|data w].
  - apply P; [apply framed_connect_open
             | apply connect_open_sends_run_request_once].
  - apply P; [apply framed_handle_message
             | apply handle_message_sends_run_request_once].
  - apply P; [apply framed_handle_next_user_input
             | apply handle_next_user_input_sends_run_request_once].
Qed.

(** X20. The client sends nothing but events: in every world it can
    reach, every message sent has the prefix [42]; in particular the
    disconnect packet [41] of [kill_session] is never sent. *)
Theorem only_events_sent fs args (w : world) :
  reachable fs args w ->
  forallb is_event (sent (trace w)) = true
  /\ ~ In (lit "41") (sent (trace w)).
Proof.
  intros H. destruct (reachable_sent fs args w H) as [H1 _].
  split; [exact H1|].
  intros Hin. rewrite forallb_forall in H1.
  specialize (H1 _ Hin). discriminate H1.
Qed.

Lemma only_events_sent_witness :
  let w := snd (handle_next_user_input (blit "41")
                  (session one_file None
                           [Text (wire "0{}"); Text (lit "40")])) in
  reachable one_file None w
  /\ List.length (sent (trace w)) = 2%nat
  /\ ~ In (lit "41") (sent (trace w)).
Proof.
  intros w.
  assert (H : reachable one_file None w).
  { eapply reach_step; [apply reachable_session | apply step_input]. }
  split; [exact H | split; [reflexivity|]].
  exact (proj2 (only_events_sent one_file None w H)).
Defined.

(** X21. The code is sent exactly once: in every world a client can reach,
    exactly one run request has been sent when the state is RUNNING,
    EXPECTING_OUTPUT or SESSION_KILLED, and none in the states before;
    no message received and no line of input makes the client send its
    files again. *)
Theorem run_request_sent_once fs args (w : world) :
  reachable fs args w ->
  run_requests (trace w) = (if started (_state (self w)) then 1 else 0)%nat.
Proof.
  intros H. destruct (reachable_sent fs args w H) as [_ H2].
  unfold run_requests in *. exact H2.
Qed.

Lemma run_request_sent_once_witness :
  let w := session one_file None
             [Text (wire "0{}"); Text (lit "40"); Text (lit "40");
              Text (wire "451-['output']"); Text (lit "40")] in
  reachable one_file None w
  /\ _state (self w) = RUNNING
  /\ run_requests (trace w) = 1%nat.
Proof.
  intros w.
  assert (H : reachable one_file None w) by apply reachable_session.
  split; [exact H | split; [reflexivity|]].
  exact (run_request_sent_once one_file None w H).
Defined.
